(** * The profile README updater (scripts/update-readme.js), embedded in Rocq

    The script loads a YAML profile, runs three best-effort collectors over
    HTTPS, merges what they return into the profile, saves it and renders a
    box-drawing README.  The repository holds two copies of the script: the
    first draws every row through the helpers [createRow]/[labelRow]
    (module [Helpers] below), the second pads each field in place (module
    [Inline]).  Collectors and [main] are the same text in both copies.

    JavaScript strings (UTF-16 code units), IEEE doubles, number parsing,
    dates, values and the built-ins the script calls are modelled in the
    modules [JSString], [JSNumber], [JSParse], [JSDate], [JSValue] and
    [JSBuiltins]; exceptions, the clock and the objects of the loaded
    document are threaded through the monad [M]. *)

From Stdlib Require Import String Ascii.
From Stdlib Require Import ZArith List Bool Lia.
From Stdlib Require Import Floats.SpecFloat.
Import ListNotations.

Local Open Scope Z_scope.
Set Warnings "-register-all".

(* ================================================================= *)
(** ** Strings: sequences of UTF-16 code units *)

Module JSString.

Definition char16 := Z.
Definition jsstring := list char16.

(** Source literals are written as UTF-8 text and decoded to the code
    units the engine holds. *)
Definition byte_of_ascii (a : ascii) : Z := Z.of_nat (nat_of_ascii a).

Fixpoint bytes_of_string (s : string) : list Z :=
  match s with
  | EmptyString => []
  | String a r => byte_of_ascii a :: bytes_of_string r
  end.

Fixpoint utf8_points (bs : list Z) : list Z :=
  match bs with
  | [] => []
  | b0 :: r0 =>
      if b0 <? 128 then b0 :: utf8_points r0
      else
        match r0 with
        | [] => []
        | b1 :: r1 =>
            if b0 <? 224 then
              ((b0 mod 32) * 64 + b1 mod 64) :: utf8_points r1
            else
              match r1 with
              | [] => []
              | b2 :: r2 =>
                  if b0 <? 240 then
                    ((b0 mod 16) * 4096 + (b1 mod 64) * 64 + b2 mod 64)
                      :: utf8_points r2
                  else
                    match r2 with
                    | [] => []
                    | b3 :: r3 =>
                        ((b0 mod 8) * 262144 + (b1 mod 64) * 4096
                         + (b2 mod 64) * 64 + b3 mod 64) :: utf8_points r3
                    end
              end
        end
  end.

Definition utf16_units (cp : Z) : list char16 :=
  if cp <? 65536 then [cp]
  else let c := cp - 65536 in [55296 + c / 1024; 56320 + c mod 1024].

Definition js (s : string) : jsstring :=
  flat_map utf16_units (utf8_points (bytes_of_string s)).

(** The double quote, which the templates contain. *)
Definition dquote : jsstring := [34].
Definition newline : jsstring := [10].
Definition space : char16 := 32.

Fixpoint str_eqb (a b : jsstring) : bool :=
  match a, b with
  | [], [] => true
  | x :: a', y :: b' => (x =? y) && str_eqb a' b'
  | _, _ => false
  end.

(** [String.prototype.padEnd(n)] with the default filler: spaces are
    appended up to length [n]; a longer string is returned as it is. *)
Definition padEnd (s : jsstring) (n : nat) : jsstring :=
  s ++ repeat space (n - length s).

(** [s.slice(0, n)] for a non-negative [n]. *)
Definition slice0 (s : jsstring) (n : nat) : jsstring := firstn n s.

(** [s.split(sep)[0]] for a one-unit separator. *)
Fixpoint split_head (sep : char16) (s : jsstring) : jsstring :=
  match s with
  | [] => []
  | c :: r => if c =? sep then [] else c :: split_head sep r
  end.

(** [parts.join(sep)] on strings. *)
Fixpoint join (sep : jsstring) (parts : list jsstring) : jsstring :=
  match parts with
  | [] => []
  | [p] => p
  | p :: rest => p ++ sep ++ join sep rest
  end.

(** [s.repeat(n)] for [n >= 0]. *)
Fixpoint str_repeat (s : jsstring) (n : nat) : jsstring :=
  match n with
  | O => []
  | S n' => s ++ str_repeat s n'
  end.

Definition digit_char (d : Z) : char16 := 48 + d.

(** Decimal digits of a non-negative integer, most significant first. *)
Fixpoint digits_fuel (fuel : nat) (n : Z) (acc : jsstring) : jsstring :=
  match fuel with
  | O => acc
  | S f =>
      let acc' := digit_char (n mod 10) :: acc in
      if n <? 10 then acc' else digits_fuel f (n / 10) acc'
  end.

Definition decimal (n : Z) : jsstring :=
  digits_fuel (S (Z.to_nat (Z.log2 n))) n [].

(** A decimal numeral left-padded with zeros to [w] digits. *)
Definition decimal_pad (w : nat) (n : Z) : jsstring :=
  let d := decimal n in repeat (digit_char 0) (w - length d) ++ d.

End JSString.
Import JSString.

(* ================================================================= *)
(** ** Numbers: IEEE 754 binary64 *)

Module JSNumber.

Definition number := spec_float.
Definition prec : Z := 53.
Definition emax : Z := 1024.

Definition nan : number := S754_nan.
Definition zero : number := S754_zero false.

(** The number value of an integer (round to nearest, ties to even). *)
Definition of_Z (z : Z) : number := binary_normalize prec emax z 0 false.

(** The number value of [± d × 10^p]. *)
Definition of_decimal (neg : bool) (d p : Z) : number :=
  match d with
  | Zpos m =>
      if 0 <=? p then binary_round prec emax neg (Z.to_pos (d * 10 ^ p)) 0
      else SFdiv prec emax (S754_finite neg m 0)
                 (S754_finite false (Z.to_pos (10 ^ (- p))) 0)
  | _ => S754_zero neg
  end.

(** A finite magnitude [m × 2^e] as an exact fraction. *)
Definition num_of (m : positive) (e : Z) : Z :=
  if 0 <=? e then Zpos m * 2 ^ e else Zpos m.
Definition den_of (e : Z) : Z := if 0 <=? e then 1 else 2 ^ (- e).

Definition same_magnitude (x : number) (m : positive) (e : Z) : bool :=
  match x with
  | S754_finite _ m' e' =>
      num_of m' e' * den_of e =? num_of m e * den_of e'
  | _ => false
  end.

(** [ToBoolean] of a number: false for zeros and NaN. *)
Definition truthy_number (x : number) : bool :=
  match x with
  | S754_zero _ | S754_nan => false
  | _ => true
  end.

(** *** Number::toString (radix 10)

    [n], [k], [s] are found as ECMA-262 asks: the digit string [s] is
    the shortest that reads back as the same double, and among those
    the closest to it. *)

Definition lt_pow10 (num den n : Z) : bool :=
  if 0 <=? n then num <? den * 10 ^ n else num * 10 ^ (- n) <? den.

Fixpoint find_n (fuel : nat) (num den n : Z) : Z :=
  match fuel with
  | O => n
  | S f => if lt_pow10 num den n then n else find_n f num den (n + 1)
  end.

Definition scaled_floor (num den p : Z) : Z :=
  if 0 <=? p then num / (den * 10 ^ p) else (num * 10 ^ (- p)) / den.

(** Which of [lo × 10^p] and [(lo+1) × 10^p] is nearer to [num/den]. *)
Definition nearer_low (num den lo p : Z) : bool :=
  let c := if 0 <=? p then 2 * num ?= (2 * lo + 1) * 10 ^ p * den
           else 2 * num * 10 ^ (- p) ?= (2 * lo + 1) * den in
  match c with
  | Lt => true
  | Gt => false
  | Eq => Z.even lo
  end.

Fixpoint shortest (fuel : nat) (m : positive) (e n0 k : Z)
  : jsstring * Z :=
  let num := num_of m e in
  let den := den_of e in
  let p := n0 - k in
  let lo := scaled_floor num den p in
  let hi := lo + 1 in
  let ok s := same_magnitude (of_decimal false s p) m e in
  let pick_hi := if hi =? 10 ^ k then (decimal 1, n0 + 1)
                 else (decimal hi, n0) in
  match fuel with
  | O => (decimal lo, n0)
  | S f =>
      match ok lo, ok hi with
      | true, true =>
          if nearer_low num den lo p then (decimal lo, n0) else pick_hi
      | true, false => (decimal lo, n0)
      | false, true => pick_hi
      | false, false => shortest f m e n0 (k + 1)
      end
  end.

Definition exponent_suffix (n : Z) : jsstring :=
  js "e" ++ (if 0 <=? n - 1 then js "+" else js "-")
         ++ decimal (Z.abs (n - 1)).

Definition format_digits (ds : jsstring) (n : Z) : jsstring :=
  let k := Z.of_nat (length ds) in
  if (k <=? n) && (n <=? 21) then
    ds ++ repeat (digit_char 0) (Z.to_nat (n - k))
  else if (0 <? n) && (n <=? 21) then
    firstn (Z.to_nat n) ds ++ js "." ++ skipn (Z.to_nat n) ds
  else if (-6 <? n) && (n <=? 0) then
    js "0." ++ repeat (digit_char 0) (Z.to_nat (- n)) ++ ds
  else if k =? 1 then ds ++ exponent_suffix n
  else firstn 1 ds ++ js "." ++ skipn 1 ds ++ exponent_suffix n.

Definition magnitude_to_string (m : positive) (e : Z) : jsstring :=
  let num := num_of m e in
  let den := den_of e in
  let d := Z.log2 (Zpos m) + 1 in
  let n0 := find_n (Z.to_nat (d + 2 * Z.abs e + 1)) num den (- Z.abs e) in
  let '(ds, n) := shortest 17 m e n0 1 in
  format_digits ds n.

Definition to_string (x : number) : jsstring :=
  match x with
  | S754_nan => js "NaN"
  | S754_zero _ => js "0"
  | S754_infinity false => js "Infinity"
  | S754_infinity true => js "-Infinity"
  | S754_finite s m e =>
      (if s then js "-" else []) ++ magnitude_to_string m e
  end.

(** *** Number.prototype.toFixed(f)

    Below 10^21 the value is rounded to the nearest multiple of
    [10^-f] (the larger one on a tie) and printed with exactly [f]
    fraction digits; from 10^21 on, and for NaN and the infinities,
    the result is [to_string]. *)

Definition fixed_digits (n : Z) (f : nat) : jsstring :=
  let m := decimal n in
  match f with
  | O => m
  | _ =>
      let m' := repeat (digit_char 0) (S f - length m) ++ m in
      let k := length m' in
      firstn (k - f) m' ++ js "." ++ skipn (k - f) m'
  end.

Definition rounded_scaled (m : positive) (e : Z) (f : nat) : Z :=
  let num := num_of m e in
  let den := den_of e in
  (2 * num * 10 ^ Z.of_nat f + den) / (2 * den).

Definition below_1e21 (m : positive) (e : Z) : bool :=
  num_of m e <? den_of e * 10 ^ 21.

Definition toFixed (x : number) (f : nat) : jsstring :=
  match x with
  | S754_zero _ => fixed_digits 0 f
  | S754_finite s m e =>
      if below_1e21 m e
      then (if s then js "-" else []) ++ fixed_digits (rounded_scaled m e f) f
      else to_string x
  | _ => to_string x
  end.

End JSNumber.
Import JSNumber.

(* ================================================================= *)
(** ** Reading numbers from strings, and dates *)

Module JSParse.

(** ECMA-262 StrWhiteSpaceChar. *)
Definition is_ws (c : char16) : bool :=
  ((9 <=? c) && (c <=? 13)) || (c =? 32) || (c =? 160) || (c =? 5760)
  || ((8192 <=? c) && (c <=? 8202)) || (c =? 8232) || (c =? 8233)
  || (c =? 8239) || (c =? 8287) || (c =? 12288) || (c =? 65279).

Fixpoint trim_start (s : jsstring) : jsstring :=
  match s with
  | c :: r => if is_ws c then trim_start r else s
  | [] => []
  end.

Definition take_sign (s : jsstring) : bool * jsstring :=
  match s with
  | 45 :: r => (true, r)
  | 43 :: r => (false, r)
  | _ => (false, s)
  end.

(** The value of [c] as a digit of the given radix, if it is one. *)
Definition digit_value (radix : Z) (c : char16) : option Z :=
  let d := if (48 <=? c) && (c <=? 57) then c - 48
           else if (97 <=? c) && (c <=? 122) then c - 87
           else if (65 <=? c) && (c <=? 90) then c - 55
           else radix in
  if d <? radix then Some d else None.

(** Longest prefix of digits: its value, its length, and the rest. *)
Fixpoint take_digits (radix : Z) (s : jsstring) (acc : Z) (len : nat)
  : Z * nat * jsstring :=
  match s with
  | c :: r =>
      match digit_value radix c with
      | Some d => take_digits radix r (acc * radix + d) (S len)
      | None => (acc, len, s)
      end
  | [] => (acc, len, s)
  end.

Fixpoint starts_with (p s : jsstring) : bool :=
  match p, s with
  | [], _ => true
  | x :: p', y :: s' => (x =? y) && starts_with p' s'
  | _ :: _, [] => false
  end.

(** [parseInt(string)] with no radix argument. *)
Definition parseInt_string (s : jsstring) : number :=
  let '(neg, s1) := take_sign (trim_start s) in
  let '(radix, s2) :=
    match s1 with
    | 48 :: x :: r => if (x =? 120) || (x =? 88) then (16, r) else (10, s1)
    | _ => (10, s1)
    end in
  let '(n, len, _) := take_digits radix s2 0 O in
  match len, n with
  | O, _ => nan
  | _, Zpos m => binary_round prec emax neg m 0
  | _, _ => S754_zero neg
  end.

(** The exponent part [e±ddd] of a decimal literal, when complete. *)
Definition take_exponent (s : jsstring) : Z :=
  match s with
  | c :: r =>
      if (c =? 101) || (c =? 69) then
        let '(eneg, r1) := take_sign r in
        let '(ev, elen, _) := take_digits 10 r1 0 O in
        match elen with
        | O => 0
        | _ => if eneg then - ev else ev
        end
      else 0
  | [] => 0
  end.

(** [parseFloat(string)]: the longest prefix that is a StrDecimalLiteral. *)
Definition parseFloat_string (s : jsstring) : number :=
  let '(neg, s1) := take_sign (trim_start s) in
  if starts_with (js "Infinity") s1 then S754_infinity neg
  else
    let '(iv, ilen, r1) := take_digits 10 s1 0 O in
    let '(fv, flen, r2) :=
      match r1 with
      | 46 :: r => take_digits 10 r iv O
      | _ => (iv, O, r1)
      end in
    match ilen, flen with
    | O, O => nan
    | _, _ =>
        let p := take_exponent r2 - Z.of_nat flen in
        let nd := Z.of_nat (length (decimal fv)) in
        if fv =? 0 then S754_zero neg
        else if 400 <? nd + p then S754_infinity neg
        else if nd + p <? -400 then S754_zero neg
        else of_decimal neg fv p
    end.

End JSParse.
Import JSParse.

Module JSDate.

(** A time value: milliseconds since the epoch, UTC. *)
Definition instant := Z.

(** Proleptic Gregorian date of a day number (days since 1970-01-01). *)
Definition civil_from_days (days : Z) : Z * Z * Z :=
  let z := days + 719468 in
  let era := z / 146097 in
  let doe := z - era * 146097 in
  let yoe := (doe - doe / 1460 + doe / 36524 - doe / 146096) / 365 in
  let doy := doe - (365 * yoe + yoe / 4 - yoe / 100) in
  let mp := (5 * doy + 2) / 153 in
  let d := doy - (153 * mp + 2) / 5 + 1 in
  let m := if mp <? 10 then mp + 3 else mp - 9 in
  let y := yoe + era * 400 + (if m <=? 2 then 1 else 0) in
  (y, m, d).

Definition year_string (y : Z) : jsstring :=
  if (0 <=? y) && (y <=? 9999) then decimal_pad 4 y
  else (if y <? 0 then js "-" else js "+") ++ decimal_pad 6 (Z.abs y).

(** [Date.prototype.toISOString]: YYYY-MM-DDTHH:mm:ss.sssZ. *)
Definition toISOString (t : instant) : jsstring :=
  let '(y, m, d) := civil_from_days (t / 86400000) in
  let ms := t mod 86400000 in
  year_string y ++ js "-" ++ decimal_pad 2 m ++ js "-" ++ decimal_pad 2 d
    ++ js "T" ++ decimal_pad 2 (ms / 3600000)
    ++ js ":" ++ decimal_pad 2 (ms / 60000 mod 60)
    ++ js ":" ++ decimal_pad 2 (ms / 1000 mod 60)
    ++ js "." ++ decimal_pad 3 (ms mod 1000) ++ js "Z".

(** [toISOString().split("T")[0]]: the UTC calendar date. *)
Definition utc_date (t : instant) : jsstring :=
  split_head 84 (toISOString t).

End JSDate.
Import JSDate.

(* ================================================================= *)
(** ** Values, objects and the monad of effects *)

Module JSValue.

Definition loc := nat.

(** Objects are association lists in property-enumeration order.  An
    object of the loaded YAML document may be reached from several
    places (anchors and aliases), so it lives in the heap and is named
    by [VRef]; objects that the script builds and never shares, and the
    decoded JSON payloads, are the immutable trees [VObj]. *)
Inductive value : Type :=
| VUndefined
| VNull
| VBool (b : bool)
| VNum (x : number)
| VStr (s : jsstring)
| VArr (elems : list value)
| VObj (props : list (jsstring * value))
| VRef (l : loc).

Definition obj := list (jsstring * value).

Fixpoint lookup (o : obj) (k : jsstring) : option value :=
  match o with
  | [] => None
  | (k', v) :: r => if str_eqb k' k then Some v else lookup r k
  end.

Definition own (o : obj) (k : jsstring) : value :=
  match lookup o k with
  | Some v => v
  | None => VUndefined
  end.

(** [o[k] = v]: an existing key keeps its place, a new one goes last. *)
Fixpoint set_own (o : obj) (k : jsstring) (v : value) : obj :=
  match o with
  | [] => [(k, v)]
  | (k', v') :: r =>
      if str_eqb k' k then (k', v) :: r else (k', v') :: set_own r k v
  end.

(** [{...a, ...b}]: the properties of [b] assigned over those of [a]. *)
Definition assign_all (a b : obj) : obj :=
  fold_left (fun acc kv => set_own acc (fst kv) (snd kv)) b a.

Inductive error : Type :=
| TypeError
| RangeError
| TransportError (message : jsstring).

(** What one HTTPS GET comes to: the connection fails, or a body
    arrives, which [JSON.parse] either reads as a value or rejects. *)
Inductive response : Type :=
| ConnectionError (message : jsstring)
| Body (parsed : option value).

(** What was written to a file: the YAML dump of a record, which
    follows references into the heap as it is at that moment, or text. *)
Inductive content : Type :=
| YamlDump (record : obj) (objects : loc -> obj)
| Text (s : jsstring).

(** The world a run sees: the heap of loaded objects, the readings the
    system clock will give and how many have been taken, the answer of
    the network to a request (URL and headers), the GH_TOKEN
    environment variable, and the files written so far (latest first). *)
Record world : Type := mkWorld
  { heap : loc -> obj;
    clock : nat -> instant;
    ticks : nat;
    network : jsstring -> obj -> response;
    gh_token : option jsstring;
    disk : list (jsstring * content) }.

Inductive outcome (A : Type) : Type :=
| Ok (a : A) (w : world)
| Throw (e : error) (w : world).
Arguments Ok {A} a w.
Arguments Throw {A} e w.

Definition M (A : Type) : Type := world -> outcome A.

Definition ret {A} (a : A) : M A := fun w => Ok a w.
Definition throw {A} (e : error) : M A := fun w => Throw e w.
Definition bind {A B} (m : M A) (k : A -> M B) : M B :=
  fun w => match m w with
           | Ok a w' => k a w'
           | Throw e w' => Throw e w'
           end.
(** [try { body } catch (e) { handler }] *)
Definition try_catch {A} (body : M A) (handler : error -> M A) : M A :=
  fun w => match body w with
           | Ok a w' => Ok a w'
           | Throw e w' => handler e w'
           end.

Definition read_heap (l : loc) : M obj := fun w => Ok (heap w l) w.
Definition write_heap (l : loc) (o : obj) : M unit :=
  fun w => Ok tt (mkWorld (fun l' => if Nat.eqb l' l then o else heap w l')
                          (clock w) (ticks w) (network w) (gh_token w)
                          (disk w)).
(** [new Date()] reads the clock. *)
Definition Date_now : M instant :=
  fun w => Ok (clock w (ticks w))
              (mkWorld (heap w) (clock w) (S (ticks w)) (network w)
                       (gh_token w) (disk w)).
(** [fs.writeFileSync(path, data)] *)
Definition writeFileSync (path : jsstring) (data : world -> content)
  : M unit :=
  fun w => Ok tt (mkWorld (heap w) (clock w) (ticks w) (network w)
                          (gh_token w) ((path, data w) :: disk w)).
Definition http_get (url : jsstring) (headers : obj) : M response :=
  fun w => Ok (network w url headers) w.
Definition process_env_GH_TOKEN : M value :=
  fun w => Ok (match gh_token w with
               | Some t => VStr t
               | None => VUndefined
               end) w.

End JSValue.
Import JSValue.

Declare Scope js_scope.
Delimit Scope js_scope with js.
Notation "x <- c ;; k" := (bind c (fun x => k))
  (at level 61, c at next level, right associativity) : js_scope.
Notation "c ;;; k" := (bind c (fun _ => k))
  (at level 61, right associativity) : js_scope.
Local Open Scope js_scope.

(* ================================================================= *)
(** ** The built-in operations the script uses *)

Module JSBuiltins.

(** [ToBoolean] *)
Definition truthy (v : value) : bool :=
  match v with
  | VUndefined | VNull => false
  | VBool b => b
  | VNum x => truthy_number x
  | VStr s => match s with [] => false | _ => true end
  | VArr _ | VObj _ | VRef _ => true
  end.

(** [a || b] with a literal right operand. *)
Definition or_else (a b : value) : value := if truthy a then a else b.

Definition is_nullish (v : value) : bool :=
  match v with
  | VUndefined | VNull => true
  | _ => false
  end.

(** [v.k].  Reading a property of [undefined] or [null] throws.  None
    of the property names the script reads exists on a built-in
    prototype, so on strings, numbers, booleans and arrays the result
    is [undefined]. *)
Definition get_prop (v : value) (k : jsstring) : M value :=
  match v with
  | VUndefined | VNull => throw TypeError
  | VObj o => ret (own o k)
  | VRef l => o <- read_heap l ;; ret (own o k)
  | _ => ret VUndefined
  end.

(** [v?.k] *)
Definition get_prop_opt (v : value) (k : jsstring) : M value :=
  if is_nullish v then ret VUndefined else get_prop v k.

Section Join.
Variable elem_string : value -> M jsstring.

(** [Array.prototype.join]: [undefined] and [null] elements print as
    the empty string. *)
Definition join_elem (x : value) : M jsstring :=
  if is_nullish x then ret [] else elem_string x.

Fixpoint join_with (sep : jsstring) (l : list value) : M jsstring :=
  match l with
  | [] => ret []
  | x :: r =>
      s <- join_elem x ;;
      match r with
      | [] => ret s
      | _ => rest <- join_with sep r ;; ret (s ++ sep ++ rest)
      end
  end.
End Join.

(** An object whose own [toString] (a YAML or JSON value, never a
    function) hides [Object.prototype.toString] cannot be converted. *)
Definition object_to_string (o : obj) : M jsstring :=
  match lookup o (js "toString") with
  | Some _ => throw TypeError
  | None => ret (js "[object Object]")
  end.

(** [ToString], which is also [String(v)] and template interpolation. *)
Fixpoint to_string (v : value) : M jsstring :=
  match v with
  | VUndefined => ret (js "undefined")
  | VNull => ret (js "null")
  | VBool true => ret (js "true")
  | VBool false => ret (js "false")
  | VNum x => ret (JSNumber.to_string x)
  | VStr s => ret s
  | VArr l => join_with to_string (js ",") l
  | VObj o => object_to_string o
  | VRef l => o <- read_heap l ;; object_to_string o
  end.

(** [v.toString()] *)
Definition call_toString (v : value) : M jsstring :=
  if is_nullish v then throw TypeError else to_string v.

(** [v.join(sep)]: only arrays have the method. *)
Definition call_join (v : value) (sep : jsstring) : M jsstring :=
  match v with
  | VArr l => join_with to_string sep l
  | _ => throw TypeError
  end.

(** [v.padEnd(n)]: only strings have the method. *)
Definition call_padEnd (v : value) (n : nat) : M jsstring :=
  match v with
  | VStr s => ret (padEnd s n)
  | _ => throw TypeError
  end.

(** [v.slice(0, n)]: strings and arrays have the method. *)
Definition call_slice0 (v : value) (n : nat) : M value :=
  match v with
  | VStr s => ret (VStr (slice0 s n))
  | VArr l => ret (VArr (firstn n l))
  | _ => throw TypeError
  end.

(** [v.toFixed(f)]: only numbers have the method. *)
Definition call_toFixed (v : value) (f : nat) : M jsstring :=
  match v with
  | VNum x => ret (toFixed x f)
  | _ => throw TypeError
  end.

(** [v.map(f).join("\n")] where [f] builds one row from an element. *)
Fixpoint map_rows (f : value -> M jsstring) (l : list value)
  : M (list jsstring) :=
  match l with
  | [] => ret []
  | x :: r => s <- f x ;; rest <- map_rows f r ;; ret (s :: rest)
  end.

Definition call_map_join (v : value) (f : value -> M jsstring)
  : M jsstring :=
  match v with
  | VArr l => rows <- map_rows f l ;; ret (join newline rows)
  | _ => throw TypeError
  end.

(** [Object.values(v)] *)
Definition Object_values (v : value) : M (list value) :=
  match v with
  | VUndefined | VNull => throw TypeError
  | VObj o => ret (map snd o)
  | VRef l => o <- read_heap l ;; ret (map snd o)
  | VArr l => ret l
  | VStr s => ret (map (fun c => VStr [c]) s)
  | VBool _ | VNum _ => ret []
  end.

Fixpoint index_keys (i : Z) (l : list value) : obj :=
  match l with
  | [] => []
  | x :: r => (decimal i, x) :: index_keys (i + 1) r
  end.

(** The own enumerable properties copied by [{...v}]. *)
Definition spread (v : value) : M obj :=
  match v with
  | VObj o => ret o
  | VRef l => read_heap l
  | VArr l => ret (index_keys 0 l)
  | VStr s => ret (index_keys 0 (map (fun c => VStr [c]) s))
  | _ => ret []
  end.

(** [target.k = v] in sloppy mode.  The result is the target after the
    assignment: a heap object is updated in place, an unshared tree is
    rebuilt; on a primitive the assignment is dropped, and so is a
    named property put on an array, which neither [yaml.dump] nor the
    renderer reads. *)
Definition assign_member (target : value) (k : jsstring) (v : value)
  : M value :=
  match target with
  | VUndefined | VNull => throw TypeError
  | VRef l =>
      o <- read_heap l ;; write_heap l (set_own o k v) ;;; ret target
  | VObj o => ret (VObj (set_own o k v))
  | _ => ret target
  end.

Definition parseInt (v : value) : M value :=
  s <- to_string v ;; ret (VNum (parseInt_string s)).

Definition parseFloat (v : value) : M value :=
  s <- to_string v ;; ret (VNum (parseFloat_string s)).

(** [console.log] and [console.error]: the message is evaluated; what
    is printed is not part of the model. *)
Definition console_log (msg : M jsstring) : M unit := msg ;;; ret tt.

Definition str (s : string) : value := VStr (js s).
Definition num (z : Z) : value := VNum (of_Z z).

End JSBuiltins.
Import JSBuiltins.

(* ================================================================= *)
(** ** Configuration and the API fetchers (both copies of the script) *)

Definition GITHUB_USERNAME : jsstring := js "AbirpandA".
Definition LEETCODE_USERNAME : jsstring := js "CTp4b4787R".

(** [fetchAPI(url, headers)]: the promise rejects on a transport error,
    resolves to the parsed body, and to [null] when parsing throws. *)
Definition fetchAPI (url : jsstring) (headers : obj) : M value :=
  let defaultHeaders :=
    assign_all [(js "User-Agent", str "Abirpanda-Profile-Updater/1.0")]
               headers in
  r <- http_get url defaultHeaders ;;
  match r with
  | ConnectionError msg => throw (TransportError msg)
  | Body (Some parsed) => ret parsed
  | Body None => ret VNull
  end.

(** [GITHUB_TOKEN ? { Authorization: `token ${GITHUB_TOKEN}` } : {}] *)
Definition auth_headers : M obj :=
  token <- process_env_GH_TOKEN ;;
  if truthy token then
    t <- to_string token ;;
    ret [(js "Authorization", VStr (js "token " ++ t))]
  else ret [].

Definition error_message (e : error) : jsstring :=
  match e with
  | TransportError m => m
  | TypeError => js "TypeError"
  | RangeError => js "RangeError"
  end.

(** A [return] inside [try] is [Some]; falling out of the [try]/[catch]
    statement is [None], after which the function returns [null]. *)
Definition fetchGitHubStats : M value :=
  r <- try_catch
         (console_log (ret (js "📡 Fetching GitHub stats...")) ;;;
          headers <- auth_headers ;;
          let url := js "https://api.github.com/users/" ++ GITHUB_USERNAME in
          data <- fetchAPI url headers ;;
          if truthy data then
            console_log (f <- get_prop data (js "followers") ;;
                         s <- to_string f ;;
                         ret (js "   ✓ GitHub: " ++ s ++ js " followers")) ;;;
            followers <- get_prop data (js "followers") ;;
            following <- get_prop data (js "following") ;;
            public_repos <- get_prop data (js "public_repos") ;;
            total_stars <- get_prop data (js "public_repos") ;;
            ret (Some (VObj
              [(js "followers", or_else followers (num 0));
               (js "following", or_else following (num 0));
               (js "public_repos", or_else public_repos (num 0));
               (js "total_stars", or_else total_stars (num 0))]))
          else
            console_log (ret (js "   ✗ No data from GitHub API")) ;;;
            ret None)
         (fun error =>
            console_log (ret (js "   ❌ GitHub fetch failed: "
                              ++ error_message error)) ;;;
            ret None) ;;
  match r with
  | Some v => ret v
  | None => ret VNull
  end.

Definition is_success (status : value) : bool :=
  match status with
  | VStr s => str_eqb s (js "success")
  | _ => false
  end.

Definition fetchLeetCodeStats : M value :=
  r <- try_catch
         (console_log (ret (js "📡 Fetching LeetCode stats...")) ;;;
          let url := js "https://leetcode-stats-api.herokuapp.com/"
                     ++ LEETCODE_USERNAME in
          data <- fetchAPI url [] ;;
          status <- (if truthy data then get_prop data (js "status")
                     else ret data) ;;
          if truthy data && is_success status then
            console_log (t <- get_prop data (js "totalSolved") ;;
                         s <- to_string t ;;
                         ret (js "   ✓ LeetCode: " ++ s
                              ++ js " problems solved")) ;;;
            totalSolved <- get_prop data (js "totalSolved") ;;
            total_solved <- parseInt totalSolved ;;
            easySolved <- get_prop data (js "easySolved") ;;
            easy <- parseInt easySolved ;;
            mediumSolved <- get_prop data (js "mediumSolved") ;;
            medium <- parseInt mediumSolved ;;
            hardSolved <- get_prop data (js "hardSolved") ;;
            hard <- parseInt hardSolved ;;
            acceptanceRate <- get_prop data (js "acceptanceRate") ;;
            acceptance_rate <- parseFloat acceptanceRate ;;
            ret (Some (VObj
              [(js "total_solved", or_else total_solved (num 0));
               (js "easy", or_else easy (num 0));
               (js "medium", or_else medium (num 0));
               (js "hard", or_else hard (num 0));
               (js "acceptance_rate", or_else acceptance_rate (num 0))]))
          else
            console_log (m <- get_prop_opt data (js "message") ;;
                         s <- to_string
                                (or_else m (str "user not found or API error")) ;;
                         ret (js "   ⚠️  LeetCode: " ++ s)) ;;;
            ret None)
         (fun error =>
            console_log (ret (js "   ⚠️  LeetCode fetch failed (optional): "
                              ++ error_message error)) ;;;
            ret None) ;;
  match r with
  | Some v => ret v
  | None => ret VNull
  end.

Definition is_undefined (v : value) : bool :=
  match v with
  | VUndefined => true
  | _ => false
  end.

Definition fetchContributions : M value :=
  try_catch
    (console_log (ret (js "📡 Fetching contribution stats...")) ;;;
     headers <- auth_headers ;;
     let url := js "https://api.github.com/search/commits?q=author:"
                ++ GITHUB_USERNAME in
     data <- fetchAPI url headers ;;
     total_count <- (if truthy data then get_prop data (js "total_count")
                     else ret data) ;;
     if truthy data && negb (is_undefined total_count) then
       console_log (s <- to_string total_count ;;
                    ret (js "   ✓ Contributions: " ++ s)) ;;;
       ret total_count
     else
       console_log (ret (js "   ✗ No contribution data returned")) ;;;
       ret (num 0))
    (fun error =>
       console_log (ret (js "   ⚠️  Contributions fetch failed (optional): "
                         ++ error_message error)) ;;;
       ret (num 0)).

(* ================================================================= *)
(** ** The README generator, first copy: rows drawn by helpers *)

(** A template literal that starts and ends with a line break and holds
    one substitution per line. *)
Definition template_lines (rows : list jsstring) : jsstring :=
  newline ++ join newline rows ++ newline.

(** [s.repeat(count)] throws a RangeError on a negative count. *)
Definition call_repeat (s : jsstring) (count : Z) : M jsstring :=
  if count <? 0 then throw RangeError
  else ret (str_repeat s (Z.to_nat count)).

Module Helpers.

Definition CONTENT_WIDTH : nat := 73.

Definition createRow (content : jsstring) : jsstring :=
  js "│" ++ padEnd content CONTENT_WIDTH ++ js "│".

Definition labelRow_width (label : jsstring) (v : value) (labelWidth : nat)
  : M jsstring :=
  s <- to_string v ;;
  ret (createRow (js "  " ++ padEnd label labelWidth ++ s)).

Definition labelRow (label : jsstring) (v : value) : M jsstring :=
  labelRow_width label v 18.

Definition sectionHeader (emoji title : jsstring) : M jsstring :=
  let headerText := js "─ " ++ emoji ++ js " " ++ title ++ js " " in
  fill <- call_repeat (js "─")
            (Z.of_nat CONTENT_WIDTH - Z.of_nat (length headerText)) ;;
  ret (js "┌" ++ headerText ++ fill ++ js "┐").

Definition sectionFooter : jsstring :=
  js "└" ++ str_repeat (js "─") CONTENT_WIDTH ++ js "┘".

Definition doubleHeader : jsstring :=
  js "╔" ++ str_repeat (js "═") CONTENT_WIDTH ++ js "╗".
Definition doubleFooter : jsstring :=
  js "╚" ++ str_repeat (js "═") CONTENT_WIDTH ++ js "╝".
Definition doubleRow (content : jsstring) : jsstring :=
  js "║" ++ padEnd content CONTENT_WIDTH ++ js "║".

Definition generateMatrixHeader : jsstring :=
  template_lines
    [ doubleHeader;
      doubleRow [];
      doubleRow (js "  ██╗    ██╗███████╗██╗      ██████╗ ██████╗ ███╗   ███╗███████╗███████╗");
      doubleRow (js "  ██║    ██║██╔════╝██║     ██╔════╝██╔═══██╗████╗ ████║██╔════╝██╔════╝");
      doubleRow (js "  ██║ █╗ ██║█████╗  ██║     ██║     ██║   ██║██╔████╔██║█████╗  █████╗");
      doubleRow (js "  ██║███╗██║██╔══╝  ██║     ██║     ██║   ██║██║╚██╔╝██║██╔══╝  ██╔══╝");
      doubleRow (js "  ╚███╔███╔╝███████╗███████╗╚██████╗╚██████╔╝██║ ╚═╝ ██║███████╗███████╗");
      doubleRow (js "   ╚══╝╚══╝ ╚══════╝╚══════╝ ╚═════╝ ╚═════╝ ╚═╝     ╚═╝╚══════╝╚══════╝");
      doubleRow [];
      doubleRow (js "                    Welcome to Abir Panda's GitHub Matrix");
      doubleRow [];
      doubleFooter ].

Definition generateProfileSection (profile : value) : M jsstring :=
  header <- sectionHeader (js "👤") (js "PROFILE MATRIX") ;;
  name <- get_prop profile (js "name") ;;
  r_name <- labelRow (js "Name:") name ;;
  title <- get_prop profile (js "title") ;;
  r_title <- labelRow (js "Title:") title ;;
  location <- get_prop profile (js "location") ;;
  r_location <- labelRow (js "Location:") location ;;
  age <- get_prop profile (js "age") ;;
  r_age <- labelRow (js "Age:") age ;;
  timezone <- get_prop profile (js "timezone") ;;
  r_timezone <- labelRow (js "Timezone:") timezone ;;
  r_status <- labelRow (js "Status:") (str "🟢 Online 24/7") ;;
  tagline <- get_prop profile (js "tagline") ;;
  t <- to_string tagline ;;
  ret (template_lines
         [ header; createRow []; r_name; r_title; r_location; r_age;
           r_timezone; r_status; createRow [];
           createRow (js "  Tagline: " ++ dquote ++ t ++ dquote);
           createRow []; sectionFooter ]).

Definition formatArray (arr : value) : M jsstring :=
  call_join arr (js " • ").

Definition tech_row (label : jsstring) (techStack : value) (k : jsstring)
  : M jsstring :=
  arr <- get_prop techStack k ;;
  s <- formatArray arr ;;
  labelRow label (VStr s).

Definition generateTechSection (techStack : value) : M jsstring :=
  header <- sectionHeader (js "🛠️ ") (js "TECH ARSENAL") ;;
  r_languages <- tech_row (js "Languages:") techStack (js "languages") ;;
  r_frontend <- tech_row (js "Frontend:") techStack (js "frontend") ;;
  r_backend <- tech_row (js "Backend:") techStack (js "backend") ;;
  r_databases <- tech_row (js "Databases:") techStack (js "databases") ;;
  r_tools <- tech_row (js "Tools:") techStack (js "tools") ;;
  ret (template_lines
         [ header; createRow []; r_languages; r_frontend; r_backend;
           r_databases; r_tools; createRow []; sectionFooter ]).

Definition default_github : value :=
  VObj [(js "followers", num 0); (js "following", num 0);
        (js "public_repos", num 0)].

Definition default_leetcode : value :=
  VObj [(js "total_solved", num 0); (js "easy", num 0);
        (js "medium", num 0); (js "hard", num 0);
        (js "acceptance_rate", num 0)].

Definition statRow (label : jsstring) (v : value) : M jsstring :=
  s <- to_string v ;;
  ret (createRow (js "  │  " ++ padEnd label 18 ++ s)).

(** [statRow(label, o.k || 0)] *)
Definition stat_of (label : jsstring) (o : value) (k : jsstring)
  : M jsstring :=
  v <- get_prop o k ;;
  statRow label (or_else v (num 0)).

Definition generateStatsSection (github leetcode profile : value)
  : M jsstring :=
  let gh := or_else github default_github in
  let lc := or_else leetcode default_leetcode in
  github_stats <- get_prop_opt profile (js "github_stats") ;;
  total_contributions <-
    get_prop_opt github_stats (js "total_contributions") ;;
  let contributions := or_else total_contributions (num 0) in
  now <- Date_now ;;
  let date := utc_date now in
  header <- sectionHeader (js "📊") (js "LIVE METRICS (Updated Daily)") ;;
  r_followers <- stat_of (js "Followers:") gh (js "followers") ;;
  r_following <- stat_of (js "Following:") gh (js "following") ;;
  r_repos <- stat_of (js "Repositories:") gh (js "public_repos") ;;
  r_contributions <- statRow (js "Contributions:") contributions ;;
  r_total <- stat_of (js "Total Solved:") lc (js "total_solved") ;;
  r_easy <- stat_of (js "Easy:") lc (js "easy") ;;
  r_medium <- stat_of (js "Medium:") lc (js "medium") ;;
  r_hard <- stat_of (js "Hard:") lc (js "hard") ;;
  acceptance_rate <- get_prop lc (js "acceptance_rate") ;;
  fixed <- call_toFixed (or_else acceptance_rate (num 0)) 2 ;;
  r_rate <- statRow (js "Acceptance Rate:") (VStr (fixed ++ js "%")) ;;
  ret (template_lines
         [ header; createRow [];
           createRow (js "  ╭─ GITHUB STATS");
           r_followers; r_following; r_repos; r_contributions;
           createRow (js "  ╰─ Last Updated: " ++ date);
           createRow [];
           createRow (js "  ╭─ LEETCODE STATS");
           r_total; r_easy; r_medium; r_hard; r_rate;
           createRow (js "  ╰─ Last Updated: " ++ date);
           createRow []; sectionFooter ]).

Definition default_mission : value :=
  VObj [(js "status", str "Unknown"); (js "mode", str "Learning");
        (js "weapons", VArr []); (js "weaknesses", VArr []);
        (js "next_level", str "Keep improving")].

Definition bullet_row (bullet : jsstring) (w : value) : M jsstring :=
  s <- to_string w ;; ret (createRow (bullet ++ s)).

Definition generateMissionSection (mission : value) : M jsstring :=
  let m := or_else mission default_mission in
  weapons <- get_prop m (js "weapons") ;;
  weaponRows <- call_map_join (or_else weapons (VArr []))
                  (bullet_row (js "    ⚡ ")) ;;
  weaknesses <- get_prop m (js "weaknesses") ;;
  weaknessRows <- call_map_join (or_else weaknesses (VArr []))
                    (bullet_row (js "    ⚠️  ")) ;;
  header <- sectionHeader (js "🚀") (js "CURRENT MISSION STATUS") ;;
  status <- get_prop m (js "status") ;;
  r_status <- labelRow (js "Status:") (or_else status (VStr [])) ;;
  mode <- get_prop m (js "mode") ;;
  r_mode <- labelRow (js "Mode:") (or_else mode (VStr [])) ;;
  next_level <- get_prop m (js "next_level") ;;
  r_next <- labelRow (js "Next Level:") (or_else next_level (VStr [])) ;;
  ret (template_lines
         [ header; createRow []; r_status; r_mode; createRow [];
           createRow (js "  Weapons Arsenal:"); weaponRows; createRow [];
           createRow (js "  Known Weaknesses:"); weaknessRows; createRow [];
           r_next; createRow []; sectionFooter ]).

(** The five rows pushed for the project at (zero-based) index [idx]. *)
Definition project_rows (proj : value) (idx : nat) : M (list jsstring) :=
  name <- get_prop proj (js "name") ;;
  s_name <- to_string name ;;
  description <- get_prop proj (js "description") ;;
  s_description <- to_string description ;;
  tech <- get_prop proj (js "tech") ;;
  s_tech <- call_join tech (js " • ") ;;
  status <- get_prop proj (js "status") ;;
  s_status <- to_string status ;;
  ret [ createRow (js "  " ++ JSNumber.to_string (of_Z (Z.of_nat idx + 1))
                          ++ js ". " ++ s_name);
        createRow (js "     Description: " ++ s_description);
        createRow (js "     Tech Stack:  " ++ s_tech);
        createRow (js "     Status:      " ++ s_status);
        createRow [] ].

(** [Object.values(projects).forEach((proj, idx) => rows.push(...))] *)
Fixpoint forEach_project (projs : list value) (idx : nat)
  (rows : list jsstring) : M (list jsstring) :=
  match projs with
  | [] => ret rows
  | proj :: rest =>
      pushed <- project_rows proj idx ;;
      forEach_project rest (S idx) (rows ++ pushed)
  end.

Definition generateProjectsSection (projects : value) : M jsstring :=
  projs <- Object_values projects ;;
  rows <- forEach_project projs 0%nat [] ;;
  header <- sectionHeader (js "📁") (js "CURRENT PROJECTS") ;;
  ret (template_lines
         [ header; createRow []; join newline rows; sectionFooter ]).

Definition generateGoalsSection (goals : value) : M jsstring :=
  short_term <- get_prop goals (js "short_term") ;;
  shortTermRows <- call_map_join short_term (bullet_row (js "    ✓ ")) ;;
  long_term <- get_prop goals (js "long_term") ;;
  longTermRows <- call_map_join long_term (bullet_row (js "    ★ ")) ;;
  header <- sectionHeader (js "🎯") (js "GOALS & ASPIRATIONS") ;;
  ret (template_lines
         [ header; createRow []; createRow (js "  Short Term:");
           shortTermRows; createRow []; createRow (js "  Long Term:");
           longTermRows; createRow []; sectionFooter ]).

(** [labelRow(label, s.k || "N/A")] *)
Definition social_row (label : jsstring) (s : value) (k : jsstring)
  : M jsstring :=
  v <- get_prop s k ;;
  labelRow label (or_else v (str "N/A")).

Definition generateSocialSection (social : value) : M jsstring :=
  let s := or_else social (VObj []) in
  header <- sectionHeader (js "📞") (js "CONNECT & COLLABORATE") ;;
  r_github <- social_row (js "GitHub:") s (js "github") ;;
  r_linkedin <- social_row (js "LinkedIn:") s (js "linkedin") ;;
  r_twitter <- social_row (js "Twitter:") s (js "twitter") ;;
  r_email <- social_row (js "Email:") s (js "email") ;;
  r_portfolio <- social_row (js "Portfolio:") s (js "portfolio") ;;
  ret (template_lines
         [ header; createRow []; r_github; r_linkedin; r_twitter; r_email;
           r_portfolio; createRow [];
           createRow (js "  Let's collaborate on building scalable systems! 🚀");
           createRow []; sectionFooter ]).

Definition generateFooter : M jsstring :=
  t <- Date_now ;;
  let now := toISOString t in
  ret (template_lines
         [ doubleHeader;
           doubleRow (js "  Last Updated: " ++ now);
           doubleRow (js "  Auto-updated daily via GitHub Actions •");
           doubleRow [];
           doubleRow (js "  " ++ dquote ++ js "Code today, scale tomorrow"
                      ++ dquote ++ js " - Abir Panda");
           doubleFooter ]).

Definition generateREADME
  (profile techStack mission projects goals social stats : value)
  : M jsstring :=
  let readme := js "```yml" ++ newline in
  let readme := readme ++ generateMatrixHeader in
  s <- generateProfileSection profile ;;
  let readme := readme ++ s in
  s <- generateTechSection techStack ;;
  let readme := readme ++ s in
  github <- get_prop stats (js "github") ;;
  leetcode <- get_prop stats (js "leetcode") ;;
  s <- generateStatsSection github leetcode profile ;;
  let readme := readme ++ s in
  s <- generateMissionSection mission ;;
  let readme := readme ++ s in
  s <- generateProjectsSection projects ;;
  let readme := readme ++ s in
  s <- generateGoalsSection goals ;;
  let readme := readme ++ s in
  s <- generateSocialSection social ;;
  let readme := readme ++ s in
  s <- generateFooter ;;
  let readme := readme ++ s in
  ret (readme ++ newline ++ js "```").

End Helpers.

(* ================================================================= *)
(** ** The README generator, second copy: every field padded in place *)

Module Inline.

Definition generateMatrixHeader : jsstring :=
  template_lines
    [ js "╔═══════════════════════════════════════════════════════════════════════════╗";
      js "║                                                                           ║";
      js "║  ██╗    ██╗███████╗██╗      ██████╗ ██████╗ ███╗   ███╗███████╗███████╗ ║";
      js "║  ██║    ██║██╔════╝██║     ██╔════╝██╔═══██╗████╗ ████║██╔════╝██╔════╝ ║";
      js "║  ██║ █╗ ██║█████╗  ██║     ██║     ██║   ██║██╔████╔██║█████╗  █████╗   ║";
      js "║  ██║███╗██║██╔══╝  ██║     ██║     ██║   ██║██║╚██╔╝██║██╔══╝  ██╔══╝   ║";
      js "║  ╚███╔███╔╝███████╗███████╗╚██████╗╚██████╔╝██║ ╚═╝ ██║███████╗███████╗ ║";
      js "║   ╚══╝╚══╝ ╚══════╝╚══════╝ ╚═════╝ ╚═════╝ ╚═╝     ╚═╝╚══════╝╚══════╝ ║";
      js "║                                                                           ║";
      js "║                    Welcome to Abir Panda's GitHub Matrix                 ║";
      js "║                                                                           ║";
      js "╚═══════════════════════════════════════════════════════════════════════════╝" ].

(** [`prefix${v.padEnd(n)}suffix`] *)
Definition padded_field (prefix : jsstring) (v : value) (n : nat)
  (suffix : jsstring) : M jsstring :=
  s <- call_padEnd v n ;; ret (prefix ++ s ++ suffix).

Definition generateProfileSection (profile : value) : M jsstring :=
  name <- get_prop profile (js "name") ;;
  r_name <- padded_field (js "│  Name:              ") name 50 (js "  │") ;;
  title <- get_prop profile (js "title") ;;
  r_title <- padded_field (js "│  Title:             ") title 50 (js "  │") ;;
  location <- get_prop profile (js "location") ;;
  r_location <- padded_field (js "│  Location:          ") location 50 (js "  │") ;;
  age <- get_prop profile (js "age") ;;
  s_age <- call_toString age ;;
  let r_age := js "│  Age:               " ++ padEnd s_age 50 ++ js "  │" in
  timezone <- get_prop profile (js "timezone") ;;
  r_timezone <- padded_field (js "│  Timezone:          ") timezone 50 (js "  │") ;;
  tagline <- get_prop profile (js "tagline") ;;
  t <- to_string tagline ;;
  ret (template_lines
         [ js "┌─ 👤 PROFILE MATRIX ─────────────────────────────────────────────────────┐";
           js "│                                                                           │";
           r_name; r_title; r_location; r_age; r_timezone;
           js "│  Status:            🟢 Online 24/7                                       │";
           js "│                                                                           │";
           js "│  Tagline: " ++ dquote ++ t ++ dquote ++ js "                        │";
           js "│                                                                           │";
           js "└───────────────────────────────────────────────────────────────────────────┘" ]).

Definition formatArray (arr : value) : M jsstring :=
  call_join arr (js " • ").

(** [`prefix${formatArray(techStack.k).padEnd(50)}suffix`] *)
Definition tech_row (prefix : jsstring) (techStack : value) (k : jsstring)
  (suffix : jsstring) : M jsstring :=
  arr <- get_prop techStack k ;;
  s <- formatArray arr ;;
  ret (prefix ++ padEnd s 50 ++ suffix).

(** [`prefix${formatArray(techStack.k).slice(0, 47).padEnd(50)}suffix`] *)
Definition tech_row_cut (prefix : jsstring) (techStack : value)
  (k : jsstring) (suffix : jsstring) : M jsstring :=
  arr <- get_prop techStack k ;;
  s <- formatArray arr ;;
  ret (prefix ++ padEnd (slice0 s 47) 50 ++ suffix).

Definition generateTechSection (techStack : value) : M jsstring :=
  r_languages <- tech_row (js "│  Languages:        ") techStack (js "languages")
                   (js "  │") ;;
  r_frontend <- tech_row_cut (js "│  Frontend:         ") techStack (js "frontend")
                  (js "  │") ;;
  r_backend <- tech_row (js "│  Backend:          ") techStack (js "backend")
                 (js "  │") ;;
  r_databases <- tech_row (js "│  Databases:        ") techStack (js "databases")
                   (js "  │") ;;
  r_tools <- tech_row_cut (js "│  Tools:            ") techStack (js "tools")
               (js "  │") ;;
  ret (template_lines
         [ js "┌─ 🛠️  TECH ARSENAL ────────────────────────────────────────────────────────┐";
           js "│                                                                           │";
           r_languages; r_frontend; r_backend; r_databases; r_tools;
           js "│                                                                           │";
           js "└───────────────────────────────────────────────────────────────────────────┘" ]).

Definition default_github : value :=
  VObj [(js "followers", num 0); (js "following", num 0);
        (js "public_repos", num 0)].

Definition default_leetcode : value :=
  VObj [(js "total_solved", num 0); (js "easy", num 0);
        (js "medium", num 0); (js "hard", num 0);
        (js "acceptance_rate", num 0)].

(** [a && b], where reading [b] needs [a]. *)
Definition and_then (a : value) (b : M value) : M value :=
  if truthy a then b else ret a.

(** [`prefix${(o.k || 0).toString().padEnd(46)}suffix`] *)
Definition stat_row (prefix : jsstring) (o : value) (k : jsstring)
  (suffix : jsstring) : M jsstring :=
  v <- get_prop o k ;;
  s <- call_toString (or_else v (num 0)) ;;
  ret (prefix ++ padEnd s 46 ++ suffix).

(** [`prefix${new Date().toISOString().split("T")[0].padEnd(34)}suffix`] *)
Definition date_row (prefix suffix : jsstring) : M jsstring :=
  now <- Date_now ;;
  ret (prefix ++ padEnd (utc_date now) 34 ++ suffix).

Definition generateStatsSection (github leetcode profile : value)
  : M jsstring :=
  let githubStats := or_else github default_github in
  let leetcodeStats := or_else leetcode default_leetcode in
  c <- and_then profile
         (github_stats <- get_prop profile (js "github_stats") ;;
          and_then github_stats
            (get_prop github_stats (js "total_contributions"))) ;;
  let contributions := or_else c (num 0) in
  r_followers <- stat_row (js "│  │  Followers:        ") githubStats (js "followers")
                   (js "│") ;;
  r_following <- stat_row (js "│  │  Following:        ") githubStats (js "following")
                   (js "│") ;;
  r_repos <- stat_row (js "│  │  Repositories:     ") githubStats (js "public_repos")
               (js "│") ;;
  s_contributions <- call_toString contributions ;;
  let r_contributions :=
    js "│  │  Contributions:    " ++ padEnd s_contributions 46 ++ js "│" in
  r_date1 <- date_row (js "│  ╰─ Last Updated: ") (js "│") ;;
  r_total <- stat_row (js "│  │  Total Solved:     ") leetcodeStats (js "total_solved")
               (js "│") ;;
  r_easy <- stat_row (js "│  │  Easy:             ") leetcodeStats (js "easy")
              (js "│") ;;
  r_medium <- stat_row (js "│  │  Medium:           ") leetcodeStats (js "medium")
                (js "│") ;;
  r_hard <- stat_row (js "│  │  Hard:             ") leetcodeStats (js "hard")
              (js "│") ;;
  acceptance_rate <- get_prop leetcodeStats (js "acceptance_rate") ;;
  fixed <- call_toFixed (or_else acceptance_rate (num 0)) 2 ;;
  let r_rate := js "│  │  Acceptance Rate:  " ++ (fixed ++ padEnd (js "%") 44) ++ js "│" in
  r_date2 <- date_row (js "│  ╰─ Last Updated: ") (js "│") ;;
  ret (template_lines
         [ js "┌─ 📊 LIVE METRICS (Updated Daily) ────────────────────────────────────────┐";
           js "│                                                                           │";
           js "│  ╭─ GITHUB STATS                                                         │";
           r_followers; r_following; r_repos; r_contributions; r_date1;
           js "│                                                                           │";
           js "│  ╭─ LEETCODE STATS                                                       │";
           r_total; r_easy; r_medium; r_hard; r_rate; r_date2;
           js "│                                                                           │";
           js "└───────────────────────────────────────────────────────────────────────────┘" ]).

Definition default_mission : value :=
  VObj [(js "status", str "Unknown"); (js "mode", str "Learning");
        (js "weapons", VArr [str "Building"]);
        (js "weaknesses", VArr [str "Time management"]);
        (js "next_level", str "Keep improving")].

(** [`prefix${(o.k || "").padEnd(50)}suffix`] *)
Definition mission_row (prefix : jsstring) (o : value) (k : jsstring)
  (suffix : jsstring) : M jsstring :=
  v <- get_prop o k ;;
  padded_field prefix (or_else v (VStr [])) 50 suffix.

(** [(w) => `prefix${(w || "").padEnd(63)}suffix`] *)
Definition bullet_row (prefix suffix : jsstring) (w : value) : M jsstring :=
  padded_field prefix (or_else w (VStr [])) 63 suffix.

Definition generateMissionSection (mission : value) : M jsstring :=
  let missionData := or_else mission default_mission in
  r_status <- mission_row (js "│  Status:            ") missionData (js "status")
                (js "  │") ;;
  r_mode <- mission_row (js "│  Mode:              ") missionData (js "mode")
              (js "  │") ;;
  weapons <- get_prop missionData (js "weapons") ;;
  weaponRows <- call_map_join (or_else weapons (VArr []))
                  (bullet_row (js "│    ⚡ ") (js "  │")) ;;
  weaknesses <- get_prop missionData (js "weaknesses") ;;
  weaknessRows <- call_map_join (or_else weaknesses (VArr []))
                    (bullet_row (js "│    ⚠️  ") (js "  │")) ;;
  r_next <- mission_row (js "│  Next Level:        ") missionData (js "next_level")
              (js "  │") ;;
  ret (template_lines
         [ js "┌─ 🚀 CURRENT MISSION STATUS ─────────────────────────────────────────────┐";
           js "│                                                                           │";
           r_status; r_mode;
           js "│                                                                           │";
           js "│  Weapons Arsenal:                                                        │";
           weaponRows;
           js "│                                                                           │";
           js "│  Known Weaknesses:                                                       │";
           weaknessRows;
           js "│                                                                           │";
           r_next;
           js "│                                                                           │";
           js "└───────────────────────────────────────────────────────────────────────────┘" ]).

(** What one project appends to [section]. *)
Definition project_text (proj : value) (idx : nat) : M jsstring :=
  name <- get_prop proj (js "name") ;;
  l_name <- padded_field
              (js "│  " ++ JSNumber.to_string (of_Z (Z.of_nat idx + 1))
               ++ js ". ") name 67 (js "  │" ++ newline) ;;
  description <- get_prop proj (js "description") ;;
  cut_description <- call_slice0 description 55 ;;
  l_description <- padded_field (js "│     Description: ") cut_description 57
                     (js "  │" ++ newline) ;;
  tech <- get_prop proj (js "tech") ;;
  s_tech <- call_join tech (js " • ") ;;
  let l_tech := js "│     Tech Stack:  " ++ padEnd (slice0 s_tech 50) 57
                ++ js "  │" ++ newline in
  status <- get_prop proj (js "status") ;;
  l_status <- padded_field (js "│     Status:      ") status 57 (js "  │" ++ newline) ;;
  ret (l_name ++ l_description ++ l_tech ++ l_status
       ++ (js "│                                                                           │" ++ newline)).

(** [Object.values(projects).forEach((proj, idx) => section += ...)] *)
Fixpoint forEach_project (projs : list value) (idx : nat)
  (section : jsstring) : M jsstring :=
  match projs with
  | [] => ret section
  | proj :: rest =>
      added <- project_text proj idx ;;
      forEach_project rest (S idx) (section ++ added)
  end.

Definition generateProjectsSection (projects : value) : M jsstring :=
  let section :=
    newline
    ++ js "┌─ 📁 CURRENT PROJECTS ───────────────────────────────────────────────────┐" ++ newline
    ++ js "│                                                                           │" ++ newline in
  projs <- Object_values projects ;;
  section <- forEach_project projs 0%nat section ;;
  ret (section ++ (js "└───────────────────────────────────────────────────────────────────────────┘" ++ newline)).

(** [(g) => `prefix${g.padEnd(65)}suffix`] *)
Definition goal_row (prefix suffix : jsstring) (g : value) : M jsstring :=
  padded_field prefix g 65 suffix.

Definition generateGoalsSection (goals : value) : M jsstring :=
  short_term <- get_prop goals (js "short_term") ;;
  shortTermRows <- call_map_join short_term
                     (goal_row (js "│    ✓ ") (js "  │")) ;;
  long_term <- get_prop goals (js "long_term") ;;
  longTermRows <- call_map_join long_term
                    (goal_row (js "│    ★ ") (js "  │")) ;;
  ret (template_lines
         [ js "┌─ 🎯 GOALS & ASPIRATIONS ────────────────────────────────────────────────┐";
           js "│                                                                           │";
           js "│  Short Term:                                                             │";
           shortTermRows;
           js "│                                                                           │";
           js "│  Long Term:                                                              │";
           longTermRows;
           js "│                                                                           │";
           js "└───────────────────────────────────────────────────────────────────────────┘" ]).

(** [`prefix${(s.k || "N/A").padEnd(50)}suffix`] *)
Definition social_row (prefix : jsstring) (s : value) (k : jsstring)
  (suffix : jsstring) : M jsstring :=
  v <- get_prop s k ;;
  padded_field prefix (or_else v (str "N/A")) 50 suffix.

Definition generateSocialSection (social : value) : M jsstring :=
  let socialData := or_else social (VObj []) in
  r_github <- social_row (js "│  GitHub:           ") socialData (js "github")
                (js "  │") ;;
  r_linkedin <- social_row (js "│  LinkedIn:         ") socialData (js "linkedin")
                  (js "  │") ;;
  r_twitter <- social_row (js "│  Twitter:          ") socialData (js "twitter")
                 (js "  │") ;;
  r_email <- social_row (js "│  Email:            ") socialData (js "email")
               (js "  │") ;;
  r_portfolio <- social_row (js "│  Portfolio:        ") socialData (js "portfolio")
                   (js "  │") ;;
  ret (template_lines
         [ js "┌─ 📞 CONNECT & COLLABORATE ──────────────────────────────────────────────┐";
           js "│                                                                           │";
           r_github; r_linkedin; r_twitter; r_email; r_portfolio;
           js "│                                                                           │";
           js "│  Let's collaborate on building scalable systems! 🚀                      │";
           js "│                                                                           │";
           js "└───────────────────────────────────────────────────────────────────────────┘" ]).

Definition generateFooter : M jsstring :=
  t <- Date_now ;;
  let now := toISOString t in
  ret (template_lines
         [ js "╔═══════════════════════════════════════════════════════════════════════════╗";
           js "║  Last Updated: " ++ now ++ js "                              ║";
           js "║  Auto-updated daily via GitHub Actions • View source at /data/profile.yaml ║";
           js "║                                                                           ║";
           js "║  " ++ dquote ++ js "Code today, scale tomorrow" ++ dquote ++ js " - Abir Panda                              ║";
           js "╚═══════════════════════════════════════════════════════════════════════════╝" ]).

Definition generateREADME
  (profile techStack mission projects goals social stats : value)
  : M jsstring :=
  let readme := generateMatrixHeader in
  s <- generateProfileSection profile ;;
  let readme := readme ++ s in
  s <- generateTechSection techStack ;;
  let readme := readme ++ s in
  github <- get_prop stats (js "github") ;;
  leetcode <- get_prop stats (js "leetcode") ;;
  s <- generateStatsSection github leetcode profile ;;
  let readme := readme ++ s in
  s <- generateMissionSection mission ;;
  let readme := readme ++ s in
  s <- generateProjectsSection projects ;;
  let readme := readme ++ s in
  s <- generateGoalsSection goals ;;
  let readme := readme ++ s in
  s <- generateSocialSection social ;;
  let readme := readme ++ s in
  s <- generateFooter ;;
  ret (readme ++ s).

End Inline.

(* ================================================================= *)
(** ** Main execution (both copies) *)

Definition paths_profileData : jsstring := js "../data/profile.yaml".
Definition paths_readme : jsstring := js "../README.md".

Definition zero_leetcode : value :=
  VObj [(js "total_solved", num 0); (js "easy", num 0);
        (js "medium", num 0); (js "hard", num 0);
        (js "acceptance_rate", num 0)].

(** The merge step of [main]: "Update profile data with live stats".
    [profileData] is the local variable holding the loaded mapping; its
    sub-records are whatever the document holds under each key. *)
Definition merge (profileData : obj)
  (githubStats leetcodeStats contributions : value) : M obj :=
  let profileData :=
    if truthy (own profileData (js "github_stats")) then profileData
    else set_own profileData (js "github_stats") (VObj []) in
  profileData <-
    (if truthy githubStats then
       stored <- spread (own profileData (js "github_stats")) ;;
       fetched <- spread githubStats ;;
       now <- Date_now ;;
       ret (set_own profileData (js "github_stats")
              (VObj (set_own
                       (set_own (assign_all stored fetched)
                          (js "total_contributions")
                          (or_else contributions (num 0)))
                       (js "last_updated") (VStr (utc_date now)))))
     else
       let github_stats := own profileData (js "github_stats") in
       current <- get_prop github_stats (js "total_contributions") ;;
       updated <- assign_member github_stats (js "total_contributions")
                    (or_else current (num 0)) ;;
       ret (set_own profileData (js "github_stats") updated)) ;;
  let profileData :=
    if truthy (own profileData (js "leetcode_stats")) then profileData
    else set_own profileData (js "leetcode_stats") zero_leetcode in
  if truthy leetcodeStats then
    stored <- spread (own profileData (js "leetcode_stats")) ;;
    fetched <- spread leetcodeStats ;;
    now <- Date_now ;;
    ret (set_own profileData (js "leetcode_stats")
           (VObj (set_own (assign_all stored fetched)
                    (js "last_updated") (VStr (utc_date now)))))
  else ret profileData.

Section Main.

(** The copy's [generateREADME]. *)
Variable generateREADME :
  value -> value -> value -> value -> value -> value -> value -> M jsstring.

(** The closing "Stats Summary" log lines. *)
Definition log_summary (profileData : obj) : M unit :=
  console_log (f <- get_prop (own profileData (js "github_stats"))
                      (js "followers") ;;
               s <- to_string f ;;
               ret (js "   GitHub Followers: " ++ s)) ;;;
  console_log (t <- get_prop (own profileData (js "leetcode_stats"))
                      (js "total_solved") ;;
               s <- to_string t ;;
               ret (js "   LeetCode Solved: " ++ s)) ;;;
  console_log (c <- get_prop (own profileData (js "github_stats"))
                      (js "total_contributions") ;;
               s <- to_string c ;;
               ret (js "   Total Contributions: " ++ s ++ newline)).

(** [main]: [loaded] is what [yaml.load(fs.readFileSync(...))] gave, a
    mapping, or [None] when reading or parsing threw.  The result is
    the exit status.  The three collectors share no state and never
    throw, so awaiting them together is running them in turn. *)
Definition main (loaded : option obj) : M Z :=
  try_catch
    (match loaded with
     | None => throw TypeError
     | Some profileData =>
         githubStats <- fetchGitHubStats ;;
         leetcodeStats <- fetchLeetCodeStats ;;
         contributions <- fetchContributions ;;
         profileData <- merge profileData githubStats leetcodeStats
                          contributions ;;
         writeFileSync paths_profileData
           (fun w => YamlDump profileData (heap w)) ;;;
         try_catch
           (newREADME <-
              generateREADME
                (own profileData (js "profile"))
                (own profileData (js "tech_stack"))
                (own profileData (js "current_mission"))
                (own profileData (js "current_projects"))
                (own profileData (js "goals"))
                (own profileData (js "social"))
                (VObj [(js "github", own profileData (js "github_stats"));
                       (js "leetcode",
                        own profileData (js "leetcode_stats"))]) ;;
            writeFileSync paths_readme (fun _ => Text newREADME))
           (fun generateError => throw generateError) ;;;
         log_summary profileData ;;;
         ret 0
     end)
    (fun error => ret 1).

End Main.

(* ================================================================= *)
(** ** Vocabulary for the properties *)

(** The three collectors. *)
Inductive collector : Type := HostStats | PracticeStats | ContributionCount.

Definition run_collector (c : collector) : M value :=
  match c with
  | HostStats => fetchGitHubStats
  | PracticeStats => fetchLeetCodeStats
  | ContributionCount => fetchContributions
  end.

(** The default each collector documents. *)
Definition documented_default (c : collector) : value :=
  match c with
  | HostStats | PracticeStats => VNull
  | ContributionCount => num 0
  end.

(** The headers a collector sends besides the User-Agent. *)
Definition token_headers (w : world) : obj :=
  match gh_token w with
  | Some (c :: t) => [(js "Authorization", VStr (js "token " ++ c :: t))]
  | _ => []
  end.

Definition user_agent : obj :=
  [(js "User-Agent", str "Abirpanda-Profile-Updater/1.0")].

(** What the network answers to the collector's one request. *)
Definition answer (c : collector) (w : world) : response :=
  match c with
  | HostStats =>
      network w (js "https://api.github.com/users/AbirpandA")
        (assign_all user_agent (token_headers w))
  | PracticeStats =>
      network w (js "https://leetcode-stats-api.herokuapp.com/CTp4b4787R")
        user_agent
  | ContributionCount =>
      network w (js "https://api.github.com/search/commits?q=author:AbirpandA")
        (assign_all user_agent (token_headers w))
  end.

(** [data && data.status === "success"] on a decoded payload. *)
Definition success_marker (w : world) (data : value) : bool :=
  match data with
  | VObj o => is_success (own o (js "status"))
  | VRef l => is_success (own (heap w l) (js "status"))
  | _ => false
  end.

(** The failures of the claim: a transport error, a body that is not
    JSON, and for the practice-stats collector a payload without the
    success marker. *)
Inductive fetch_failed (w : world) : collector -> response -> Prop :=
| failed_transport c msg : fetch_failed w c (ConnectionError msg)
| failed_not_json c : fetch_failed w c (Body None)
| failed_no_marker data :
    success_marker w data = false ->
    fetch_failed w PracticeStats (Body (Some data)).

(** [v.k] on a value that is neither [undefined] nor [null]. *)
Definition prop_of (w : world) (v : value) (k : jsstring) : value :=
  match v with
  | VObj o => own o k
  | VRef l => own (heap w l) k
  | _ => VUndefined
  end.

(** The text [ToString] gives, if it does not throw. *)
Definition text_of (w : world) (v : value) : option jsstring :=
  match to_string v w with
  | Ok s _ => Some s
  | Throw _ _ => None
  end.


(** What the host-stats collector builds from a truthy payload. *)
Definition github_result (w : world) (data : value) : value :=
  VObj [(js "followers", or_else (prop_of w data (js "followers")) (num 0));
        (js "following", or_else (prop_of w data (js "following")) (num 0));
        (js "public_repos",
         or_else (prop_of w data (js "public_repos")) (num 0));
        (js "total_stars",
         or_else (prop_of w data (js "public_repos")) (num 0))].

(** [parseInt(v) || 0] and [parseFloat(v) || 0], when [ToString(v)] does
    not throw. *)
Definition int_or_zero (w : world) (v : value) : option value :=
  match text_of w v with
  | Some s => Some (or_else (VNum (parseInt_string s)) (num 0))
  | None => None
  end.

Definition float_or_zero (w : world) (v : value) : option value :=
  match text_of w v with
  | Some s => Some (or_else (VNum (parseFloat_string s)) (num 0))
  | None => None
  end.

(** What the practice-stats collector builds from a payload that carries
    the success marker; [None] when a field cannot be converted. *)
Definition leetcode_result (w : world) (data : value) : option value :=
  match int_or_zero w (prop_of w data (js "totalSolved")),
        int_or_zero w (prop_of w data (js "easySolved")),
        int_or_zero w (prop_of w data (js "mediumSolved")),
        int_or_zero w (prop_of w data (js "hardSolved")),
        float_or_zero w (prop_of w data (js "acceptanceRate")) with
  | Some t, Some e, Some m, Some h, Some a =>
      Some (VObj [(js "total_solved", t); (js "easy", e); (js "medium", m);
                  (js "hard", h); (js "acceptance_rate", a)])
  | _, _, _, _, _ => None
  end.

(** A number that is not NaN. *)
Definition is_stat_number (v : value) : bool :=
  match v with
  | VNum S754_nan => false
  | VNum _ => true
  | _ => false
  end.

Definition is_number (v : value) : bool :=
  match v with
  | VNum _ => true
  | _ => false
  end.

(** Worlds for the examples: no loaded objects, a clock standing at
    2026-11-01T07:04:05.123Z, no token, nothing written yet. *)
Definition empty_heap : loc -> obj := fun _ => [].

Definition world_with (net : jsstring -> obj -> response) : world :=
  mkWorld empty_heap (fun _ => 1793516645123) 0 net None [].

(** Every request fails to connect. *)
Definition offline : world :=
  world_with (fun _ _ => ConnectionError (js "ENOTFOUND")).

(** Every request is answered by the same payload. *)
Definition answering (payload : value) : world :=
  world_with (fun _ _ => Body (Some payload)).

(** The world after [n] more readings of the clock. *)
Definition later (n : nat) (w : world) : world :=
  mkWorld (heap w) (clock w) (n + ticks w) (network w) (gh_token w) (disk w).

(** The world with the object at [l] replaced. *)
Definition with_object (l : loc) (o : obj) (w : world) : world :=
  mkWorld (fun l' => if Nat.eqb l' l then o else heap w l')
          (clock w) (ticks w) (network w) (gh_token w) (disk w).

(** The date stamp [new Date().toISOString().split("T")[0]] taken now. *)
Definition today (w : world) : value := VStr (utc_date (clock w (ticks w))).

(** The own enumerable properties [{...v}] copies. *)
Definition props_at (w : world) (v : value) : obj :=
  match v with
  | VObj o => o
  | VRef l => heap w l
  | VArr l => index_keys 0 l
  | VStr s => index_keys 0 (map (fun c => VStr [c]) s)
  | _ => []
  end.

(** [if (!profileData.k) profileData.k = d] *)
Definition ensure (profileData : obj) (k : jsstring) (d : value) : obj :=
  if truthy (own profileData k) then profileData else set_own profileData k d.

(** The merge step as a function of the record and the world. *)

(** The host-stats half when the collector brought nothing: only
    [total_contributions] is defaulted, in place. *)
Definition keep_github (pd : obj) (w : world) : obj * world :=
  let github_stats := own pd (js "github_stats") in
  let v := or_else (prop_of w github_stats (js "total_contributions"))
                   (num 0) in
  match github_stats with
  | VRef l =>
      (set_own pd (js "github_stats") github_stats,
       with_object l (set_own (heap w l) (js "total_contributions") v) w)
  | VObj o =>
      (set_own pd (js "github_stats")
         (VObj (set_own o (js "total_contributions") v)), w)
  | _ => (set_own pd (js "github_stats") github_stats, w)
  end.

(** The host-stats half when the collector returned [g]. *)
Definition take_github (pd : obj) (g c : value) (w : world) : obj * world :=
  (set_own pd (js "github_stats")
     (VObj (set_own
              (set_own (assign_all (props_at w (own pd (js "github_stats")))
                                   (props_at w g))
                 (js "total_contributions") (or_else c (num 0)))
              (js "last_updated") (today w))),
   later 1 w).

(** The practice-stats half when the collector returned [l]. *)
Definition take_leetcode (pd : obj) (l : value) (w : world) : obj * world :=
  (set_own pd (js "leetcode_stats")
     (VObj (set_own (assign_all (props_at w (own pd (js "leetcode_stats")))
                                (props_at w l))
              (js "last_updated") (today w))),
   later 1 w).

Definition merged (pd : obj) (g l c : value) (w : world) : obj * world :=
  let pd1 := ensure pd (js "github_stats") (VObj []) in
  let '(pd2, w2) := if truthy g then take_github pd1 g c w
                    else keep_github pd1 w in
  let pd3 := ensure pd2 (js "leetcode_stats") zero_leetcode in
  if truthy l then take_leetcode pd3 l w2 else (pd3, w2).

(** Whether the two stat sub-records were in the loaded record. *)
Inductive stats_state (pd : obj) : bool -> Prop :=
| stats_missing :
    lookup pd (js "github_stats") = None ->
    lookup pd (js "leetcode_stats") = None ->
    stats_state pd false
| stats_stored :
    truthy (own pd (js "github_stats")) = true ->
    truthy (own pd (js "leetcode_stats")) = true ->
    stats_state pd true.

Definition is_object (v : value) : bool :=
  match v with
  | VObj _ | VRef _ => true
  | _ => false
  end.

(** Two worlds holding the same objects. *)
Definition same_heap (w1 w2 : world) : Prop :=
  forall l, heap w1 l = heap w2 l.

(** A clock that shows the instant [t] at every reading. *)
Definition frozen_at (t : instant) (w : world) : Prop :=
  forall n, clock w n = t.

(** Two runs that see the same objects under clocks frozen to the same
    instant; how often each has read its clock is free. *)
Definition same_frozen_view (w1 w2 : world) : Prop :=
  same_heap w1 w2 /\ exists t, frozen_at t w1 /\ frozen_at t w2.

(** What a run produced, the world set aside. *)
Definition produced {A} (r : outcome A) : error + A :=
  match r with
  | Ok a _ => inr a
  | Throw e _ => inl e
  end.

(** A small profile record for the examples. *)
Definition sample_profile : value :=
  VObj [(js "name", str "Abir Panda"); (js "title", str "Web Developer");
        (js "location", str "India"); (js "age", num 20);
        (js "timezone", str "IST"); (js "tagline", str "Code today")].

Definition sample_tech : value :=
  VObj [(js "languages", VArr [str "JavaScript"; str "Python"]);
        (js "frontend", VArr [str "React"]);
        (js "backend", VArr [str "Node.js"]);
        (js "databases", VArr [str "MongoDB"]);
        (js "tools", VArr [str "Git"; str "Docker"])].

Definition sample_mission : value :=
  VObj [(js "status", str "Building"); (js "mode", str "Grind");
        (js "weapons", VArr [str "Coffee"]);
        (js "weaknesses", VArr [str "Sleep"]);
        (js "next_level", str "Senior")].

Definition sample_project (description : jsstring) : value :=
  VObj [(js "name", str "Blem"); (js "description", VStr description);
        (js "tech", VArr [str "Next.js"; str "Tailwind"]);
        (js "status", str "Active")].

Definition sample_projects : value :=
  VObj [(js "blem", sample_project (js "Landing page builder"))].

Definition sample_goals : value :=
  VObj [(js "short_term", VArr [str "Ship"]);
        (js "long_term", VArr [str "Scale"])].

Definition sample_social : value :=
  VObj [(js "github", str "https://github.com/AbirpandA")].

Definition sample_stats : value :=
  VObj [(js "github",
         VObj [(js "followers", num 8); (js "following", num 5);
               (js "public_repos", num 45)]);
        (js "leetcode",
         VObj [(js "total_solved", num 145); (js "easy", num 63);
               (js "medium", num 75); (js "hard", num 7);
               (js "acceptance_rate", VNum (of_decimal false 523 (-1)))])].

Definition sample_record : obj :=
  [(js "profile", sample_profile); (js "tech_stack", sample_tech);
   (js "current_mission", sample_mission);
   (js "current_projects", sample_projects); (js "goals", sample_goals);
   (js "social", sample_social)].

(** What [v.join(" • ")] gives in world [w], if it does not throw. *)
Definition joined_of (w : world) (v : value) : option jsstring :=
  match call_join v (js " • ") w with
  | Ok s _ => Some s
  | Throw _ _ => None
  end.

(** [v?.k] *)
Definition prop_opt (w : world) (v : value) (k : jsstring) : value :=
  if is_nullish v then VUndefined else prop_of w v k.

(** [profile?.github_stats?.total_contributions || 0], the figure the
    metrics box shows as contributions. *)
Definition shown_contributions (w : world) (profile : value) : value :=
  or_else (prop_opt w (prop_opt w profile (js "github_stats"))
             (js "total_contributions")) (num 0).

(** The text of [o.k || 0]. *)
Definition stat_text (w : world) (o : value) (k : jsstring)
  : option jsstring :=
  text_of w (or_else (prop_of w o k) (num 0)).

(** The text of [(v || 0).toFixed(2) + "%"]. *)
Definition rate_text (v : value) : option jsstring :=
  match or_else v (num 0) with
  | VNum x => Some (toFixed x 2 ++ js "%")
  | _ => None
  end.

(** The header line [sectionHeader] draws when the title fits. *)
Definition header_text (emoji title : jsstring) : jsstring :=
  let headerText := js "─ " ++ emoji ++ js " " ++ title ++ js " " in
  js "┌" ++ headerText
    ++ str_repeat (js "─") (Helpers.CONTENT_WIDTH - length headerText)
    ++ js "┐".

Definition stat_line (label s : jsstring) : jsstring :=
  Helpers.createRow (js "  │  " ++ padEnd label 18 ++ s).

(** The metrics box of the first copy, from the texts of its fields. *)
Definition stats_rows (date followers following repos contributions total
                       easy medium hard rate : jsstring) : list jsstring :=
  [ header_text (js "📊") (js "LIVE METRICS (Updated Daily)");
    Helpers.createRow [];
    Helpers.createRow (js "  ╭─ GITHUB STATS");
    stat_line (js "Followers:") followers;
    stat_line (js "Following:") following;
    stat_line (js "Repositories:") repos;
    stat_line (js "Contributions:") contributions;
    Helpers.createRow (js "  ╰─ Last Updated: " ++ date);
    Helpers.createRow [];
    Helpers.createRow (js "  ╭─ LEETCODE STATS");
    stat_line (js "Total Solved:") total;
    stat_line (js "Easy:") easy;
    stat_line (js "Medium:") medium;
    stat_line (js "Hard:") hard;
    stat_line (js "Acceptance Rate:") rate;
    Helpers.createRow (js "  ╰─ Last Updated: " ++ date);
    Helpers.createRow [];
    Helpers.sectionFooter ].

(** The rows [generateStatsSection] puts in its box, if no field fails
    to convert. *)
Definition stats_rows_of (w : world) (github leetcode profile : value)
  : option (list jsstring) :=
  let gh := or_else github Helpers.default_github in
  let lc := or_else leetcode Helpers.default_leetcode in
  match stat_text w gh (js "followers"), stat_text w gh (js "following"),
        stat_text w gh (js "public_repos"),
        text_of w (shown_contributions w profile),
        stat_text w lc (js "total_solved"), stat_text w lc (js "easy"),
        stat_text w lc (js "medium"), stat_text w lc (js "hard"),
        rate_text (prop_of w lc (js "acceptance_rate")) with
  | Some f1, Some f2, Some f3, Some c, Some t, Some e, Some m, Some h,
    Some r =>
      Some (stats_rows (utc_date (clock w (ticks w))) f1 f2 f3 c t e m h r)
  | _, _, _, _, _, _, _, _, _ => None
  end.

Definition is_digit (c : char16) : bool := (48 <=? c) && (c <=? 57).

(** A decimal numeral with exactly two fraction digits: an optional
    minus sign, at least one integer digit, a point, two digits. *)
Definition two_decimals (s : jsstring) : Prop :=
  exists sign int d1 d2,
    s = sign ++ int ++ js "." ++ [d1; d2]
    /\ (sign = [] \/ sign = js "-")
    /\ int <> []
    /\ forallb is_digit int = true
    /\ is_digit d1 = true /\ is_digit d2 = true.

(** A finite number of magnitude below 10^21. *)
Definition fixed_range (x : number) : bool :=
  match x with
  | S754_zero _ => true
  | S754_finite _ m e => below_1e21 m e
  | _ => false
  end.

(** The payloads of the spec's scenario. *)
Definition host_payload : value :=
  VObj [(js "followers", num 8); (js "following", num 5);
        (js "public_repos", num 45)].

Definition practice_payload : value :=
  VObj [(js "status", str "success"); (js "totalSolved", num 145);
        (js "easySolved", num 63); (js "mediumSolved", num 75);
        (js "hardSolved", num 7);
        (js "acceptanceRate", VNum (of_decimal false 523 (-1)))].

Definition contribution_payload : value :=
  VObj [(js "total_count", num 310)].

(** A network that answers the three endpoints with those payloads. *)
Definition scenario_network (url : jsstring) (headers : obj) : response :=
  if str_eqb url (js "https://api.github.com/users/AbirpandA")
  then Body (Some host_payload)
  else if str_eqb url
            (js "https://leetcode-stats-api.herokuapp.com/CTp4b4787R")
  then Body (Some practice_payload)
  else Body (Some contribution_payload).

Definition scenario_world : world := world_with scenario_network.

(** What the collectors return in the scenario. *)
Definition scenario_github : value :=
  VObj [(js "followers", num 8); (js "following", num 5);
        (js "public_repos", num 45); (js "total_stars", num 45)].

Definition scenario_leetcode : value :=
  VObj [(js "total_solved", num 145); (js "easy", num 63);
        (js "medium", num 75); (js "hard", num 7);
        (js "acceptance_rate", VNum (of_decimal false 523 (-1)))].

(** The sample record with its [tech_stack] entry left out. *)
Definition record_without_tech : obj :=
  [(js "profile", sample_profile);
   (js "current_mission", sample_mission);
   (js "current_projects", sample_projects); (js "goals", sample_goals);
   (js "social", sample_social)].

(** The world with the GH_TOKEN variable set to [t]. *)
Definition with_token (t : option jsstring) (w : world) : world :=
  mkWorld (heap w) (clock w) (ticks w) (network w) t (disk w).

(** The world a run ended in. *)
Definition world_of {A} (r : outcome A) : world :=
  match r with
  | Ok _ w => w
  | Throw _ w => w
  end.

(** A computation whose one effect is reading the clock: [n] times when
    it returns, at most [n] times when it throws. *)
Definition advances {A} (n : nat) (m : M A) : Prop :=
  forall w,
    (exists a, m w = Ok a (later n w))
    \/ (exists e k, (k <= n)%nat /\ m w = Throw e (later k w)).

(** The fields of [github_stats] that a successful fetch writes. *)
Definition host_stat_keys : list jsstring :=
  [js "followers"; js "following"; js "public_repos"; js "total_stars";
   js "total_contributions"; js "last_updated"].





(** [x || 0] on a number: NaN and the zeros give 0, every other number
    itself. *)
Definition number_else_zero (x : number) : value :=
  match x with
  | S754_nan => VNum (S754_zero false)
  | S754_zero _ => VNum (S754_zero false)
  | _ => VNum x
  end.

(** [v || 0]: [v] itself when it is truthy. *)
Definition value_else_zero (v : value) : value :=
  if truthy v then v else VNum (S754_zero false).

(** The payload names the practice-stats collector reads. *)
Definition practice_api_fields : list jsstring :=
  [js "totalSolved"; js "easySolved"; js "mediumSolved"; js "hardSolved";
   js "acceptanceRate"].

(** ** Texts, lines and rows *)

(** The text made of the given lines, each closed by a line feed. *)
Definition unlines (ls : list jsstring) : jsstring :=
  concat (map (fun l => l ++ [10]) ls).


(** [line] stands in [text] between two line feeds. *)
Definition has_line (text line : jsstring) : Prop :=
  exists before after, text = before ++ [10] ++ line ++ [10] ++ after.

(** [s] followed by spaces up to [n] units; nothing is cut. *)
Definition padded (s : jsstring) (n : nat) : jsstring :=
  s ++ repeat 32 (n - length s).

(** What the first copy draws between two line feeds: nothing, the
    opening fence, a content padded to 73 units between two single or
    two double vertical bars, or a horizontal border of 75 units that
    starts with a corner. *)
Inductive drawn_row : jsstring -> Prop :=
| row_blank : drawn_row []
| row_fence : drawn_row (js "```yml")
| row_single content : drawn_row ([9474] ++ padded content 73 ++ [9474])
| row_double content : drawn_row ([9553] ++ padded content 73 ++ [9553])
| row_border b :
    length b = 75%nat -> In (hd 0 b) [9484; 9492; 9556; 9562] ->
    drawn_row b.

(** A text made of drawn rows. *)
Definition block (s : jsstring) : Prop :=
  exists rows, s = unlines rows /\ Forall drawn_row rows.

(** A piece of a template that a line feed completes to a block. *)
Definition draws (s : jsstring) : Prop := block (s ++ [10]).

(** Whatever [m] returns satisfies [Q]. *)
Definition ensures {A} (Q : A -> Prop) (m : M A) : Prop :=
  forall w a w', m w = Ok a w' -> Q a.


(** The metrics box of the second copy, from the texts of its fields:
    each figure is padded to 46 units, each date to 34, and the percent
    sign stands right after the rate. *)
Definition inline_stats_box
  (date1 date2 followers following repos contributions total easy medium
   hard rate : jsstring) : jsstring :=
  unlines
    [ [];
      js "┌─ 📊 LIVE METRICS (Updated Daily) ────────────────────────────────────────┐";
      js "│                                                                           │";
      js "│  ╭─ GITHUB STATS                                                         │";
      js "│  │  Followers:        " ++ padded followers 46 ++ js "│";
      js "│  │  Following:        " ++ padded following 46 ++ js "│";
      js "│  │  Repositories:     " ++ padded repos 46 ++ js "│";
      js "│  │  Contributions:    " ++ padded contributions 46 ++ js "│";
      js "│  ╰─ Last Updated: " ++ padded date1 34 ++ js "│";
      js "│                                                                           │";
      js "│  ╭─ LEETCODE STATS                                                       │";
      js "│  │  Total Solved:     " ++ padded total 46 ++ js "│";
      js "│  │  Easy:             " ++ padded easy 46 ++ js "│";
      js "│  │  Medium:           " ++ padded medium 46 ++ js "│";
      js "│  │  Hard:             " ++ padded hard 46 ++ js "│";
      js "│  │  Acceptance Rate:  " ++ (rate ++ js "%" ++ repeat 32 43)
        ++ js "│";
      js "│  ╰─ Last Updated: " ++ padded date2 34 ++ js "│";
      js "│                                                                           │";
      js "└───────────────────────────────────────────────────────────────────────────┘" ].

(** The second copy's box, if no field fails to convert. *)
Definition inline_stats_of (w : world) (github leetcode profile : value)
  : option jsstring :=
  let gh := or_else github Inline.default_github in
  let lc := or_else leetcode Inline.default_leetcode in
  match stat_text w gh (js "followers"), stat_text w gh (js "following"),
        stat_text w gh (js "public_repos"),
        text_of w (shown_contributions w profile),
        stat_text w lc (js "total_solved"), stat_text w lc (js "easy"),
        stat_text w lc (js "medium"), stat_text w lc (js "hard"),
        or_else (prop_of w lc (js "acceptance_rate")) (num 0) with
  | Some f1, Some f2, Some f3, Some c, Some t, Some e, Some m, Some h,
    VNum x =>
      Some (inline_stats_box (utc_date (clock w (ticks w)))
              (utc_date (clock w (S (ticks w)))) f1 f2 f3 c t e m h
              (toFixed x 2))
  | _, _, _, _, _, _, _, _, _ => None
  end.

(** The rate the metrics box shows: [(leetcode.acceptance_rate || 0)],
    with 0 for a missing [leetcode]. *)
Definition shown_rate (w : world) (leetcode : value) : value :=
  if truthy leetcode
  then value_else_zero (prop_of w leetcode (js "acceptance_rate"))
  else VNum (S754_zero false).

(** Stats whose acceptance rate is 10^21. *)
Definition huge_rate_stats : value :=
  VObj [(js "leetcode",
         VObj [(js "acceptance_rate", VNum (of_decimal false 1 21))])].

(** ** Projects and tech stack of the data model *)

(** The fields of one project. *)
Record project_info : Type := mkProject
  { p_name : jsstring;
    p_description : jsstring;
    p_tech : list jsstring;
    p_status : jsstring }.

(** The texts joined by " • ". *)
Fixpoint bullets (items : list jsstring) : jsstring :=
  match items with
  | [] => []
  | [x] => x
  | x :: rest => x ++ js " • " ++ bullets rest
  end.

(** The entries of a record. *)
Definition entries_of (w : world) (v : value) : option obj :=
  match v with
  | VObj o => Some o
  | VRef l => Some (heap w l)
  | _ => None
  end.

(** [proj] is a record holding the fields [info] as texts and a list
    of texts. *)
Definition project_holds (w : world) (proj : value) (info : project_info)
  : Prop :=
  prop_of w proj (js "name") = VStr (p_name info)
  /\ prop_of w proj (js "description") = VStr (p_description info)
  /\ prop_of w proj (js "tech") = VArr (map VStr (p_tech info))
  /\ prop_of w proj (js "status") = VStr (p_status info).

(** [techStack.k] is the list of texts [items]. *)
Definition tech_holds (w : world) (techStack : value) (k : jsstring)
  (items : list jsstring) : Prop :=
  prop_of w techStack k = VArr (map VStr items).

(** The text [idx + 1] of a project's number. *)
Definition project_number (idx : nat) : jsstring :=
  JSNumber.to_string (of_Z (Z.of_nat idx + 1)).

(** Second copy: the five lines of one project, description cut to 55
    units and tech list to 50, each in a field of 57. *)
Definition inline_project_block (idx : nat) (info : project_info)
  : jsstring :=
  unlines
    [ js "│  " ++ project_number idx ++ js ". " ++ padded (p_name info) 67
        ++ js "  │";
      js "│     Description: " ++ padded (firstn 55 (p_description info)) 57
        ++ js "  │";
      js "│     Tech Stack:  "
        ++ padded (firstn 50 (bullets (p_tech info))) 57 ++ js "  │";
      js "│     Status:      " ++ padded (p_status info) 57 ++ js "  │";
      js "│                                                                           │" ].

Fixpoint inline_project_blocks (idx : nat) (infos : list project_info)
  : jsstring :=
  match infos with
  | [] => []
  | info :: rest =>
      inline_project_block idx info ++ inline_project_blocks (S idx) rest
  end.

Definition inline_projects_text (infos : list project_info) : jsstring :=
  unlines
    [ [];
      js "┌─ 📁 CURRENT PROJECTS ───────────────────────────────────────────────────┐";
      js "│                                                                           │" ]
  ++ inline_project_blocks 0 infos
  ++ unlines
       [ js "└───────────────────────────────────────────────────────────────────────────┘" ].

(** Second copy: the tech box, frontend and tools cut to 47 units, every
    summary in a field of 50. *)
Definition inline_tech_text
  (languages frontend backend databases tools : list jsstring) : jsstring :=
  unlines
    [ [];
      js "┌─ 🛠️  TECH ARSENAL ────────────────────────────────────────────────────────┐";
      js "│                                                                           │";
      js "│  Languages:        " ++ padded (bullets languages) 50 ++ js "  │";
      js "│  Frontend:         " ++ padded (firstn 47 (bullets frontend)) 50
        ++ js "  │";
      js "│  Backend:          " ++ padded (bullets backend) 50 ++ js "  │";
      js "│  Databases:        " ++ padded (bullets databases) 50 ++ js "  │";
      js "│  Tools:            " ++ padded (firstn 47 (bullets tools)) 50
        ++ js "  │";
      js "│                                                                           │";
      js "└───────────────────────────────────────────────────────────────────────────┘" ].

(** First copy: a content between the bars, padded to 73 units. *)
Definition bar_row (content : jsstring) : jsstring :=
  [9474] ++ padded content 73 ++ [9474].

(** First copy: the five rows of one project, every field in full. *)
Definition helpers_project_rows (idx : nat) (info : project_info)
  : list jsstring :=
  [ bar_row (js "  " ++ project_number idx ++ js ". " ++ p_name info);
    bar_row (js "     Description: " ++ p_description info);
    bar_row (js "     Tech Stack:  " ++ bullets (p_tech info));
    bar_row (js "     Status:      " ++ p_status info);
    bar_row [] ].

Fixpoint helpers_projects_rows (idx : nat) (infos : list project_info)
  : list jsstring :=
  match infos with
  | [] => []
  | info :: rest =>
      helpers_project_rows idx info ++ helpers_projects_rows (S idx) rest
  end.

(** With no project the template's line for the rows stays empty. *)
Definition helpers_projects_text (infos : list project_info) : jsstring :=
  unlines
    ([ [];
       js "┌─ 📁 CURRENT PROJECTS ───────────────────────────────────────────────────┐";
       bar_row [] ]
     ++ match infos with
        | [] => [[]]
        | _ => helpers_projects_rows 0 infos
        end
     ++ [ js "└─────────────────────────────────────────────────────────────────────────┘" ]).

(** First copy: the tech box, every summary in full. *)
Definition helpers_tech_text
  (languages frontend backend databases tools : list jsstring) : jsstring :=
  unlines
    [ [];
      js "┌─ 🛠️  TECH ARSENAL ─────────────────────────────────────────────────────┐";
      bar_row [];
      bar_row (js "  Languages:        " ++ bullets languages);
      bar_row (js "  Frontend:         " ++ bullets frontend);
      bar_row (js "  Backend:          " ++ bullets backend);
      bar_row (js "  Databases:        " ++ bullets databases);
      bar_row (js "  Tools:            " ++ bullets tools);
      bar_row [];
      js "└─────────────────────────────────────────────────────────────────────────┘" ].

(** The sample projects and tech stack as the data model has them. *)
Definition sample_project_info : project_info :=
  mkProject (js "Blem") (js "Landing page builder")
    [js "Next.js"; js "Tailwind"] (js "Active").

(** A project record whose description has 100 units. *)
Definition long_description_projects : value :=
  VObj [(js "blem", sample_project (repeat 97 100))].

(** ** Mission, goals and social links of the data model *)

(** A field of the loaded document: a text, or absent. *)
Definition text_or_absent (f : option jsstring) : value :=
  match f with
  | Some s => VStr s
  | None => VUndefined
  end.

(** What [f || d] shows for such a field: the text unless it is absent
    or empty. *)
Definition text_else (f : option jsstring) (d : jsstring) : jsstring :=
  match f with
  | Some (c :: t) => c :: t
  | _ => d
  end.

(** A list field: a list of texts, or absent. *)
Definition texts_or_absent (l : option (list jsstring)) : value :=
  match l with
  | Some items => VArr (map VStr items)
  | None => VUndefined
  end.

Definition texts_else_none (l : option (list jsstring)) : list jsstring :=
  match l with
  | Some items => items
  | None => []
  end.

(** The rows a list gives in a template: with no row the template's
    line stays empty. *)
Definition rows_or_blank (rows : list jsstring) : list jsstring :=
  match rows with
  | [] => [[]]
  | _ => rows
  end.

(** The social box of the first copy. *)
Definition helpers_social_text (github linkedin twitter email portfolio
                                : option jsstring) : jsstring :=
  unlines
    [ [];
      js "┌─ 📞 CONNECT & COLLABORATE ──────────────────────────────────────────────┐";
      bar_row [];
      bar_row (js "  GitHub:           " ++ text_else github (js "N/A"));
      bar_row (js "  LinkedIn:         " ++ text_else linkedin (js "N/A"));
      bar_row (js "  Twitter:          " ++ text_else twitter (js "N/A"));
      bar_row (js "  Email:            " ++ text_else email (js "N/A"));
      bar_row (js "  Portfolio:        " ++ text_else portfolio (js "N/A"));
      bar_row [];
      bar_row (js "  Let's collaborate on building scalable systems! 🚀");
      bar_row [];
      js "└─────────────────────────────────────────────────────────────────────────┘" ].

(** The social box of the second copy. *)
Definition inline_social_text (github linkedin twitter email portfolio
                               : option jsstring) : jsstring :=
  unlines
    [ [];
      js "┌─ 📞 CONNECT & COLLABORATE ──────────────────────────────────────────────┐";
      js "│                                                                           │";
      js "│  GitHub:           " ++ padded (text_else github (js "N/A")) 50
        ++ js "  │";
      js "│  LinkedIn:         " ++ padded (text_else linkedin (js "N/A")) 50
        ++ js "  │";
      js "│  Twitter:          " ++ padded (text_else twitter (js "N/A")) 50
        ++ js "  │";
      js "│  Email:            " ++ padded (text_else email (js "N/A")) 50
        ++ js "  │";
      js "│  Portfolio:        " ++ padded (text_else portfolio (js "N/A")) 50
        ++ js "  │";
      js "│                                                                           │";
      js "│  Let's collaborate on building scalable systems! 🚀                      │";
      js "│                                                                           │";
      js "└───────────────────────────────────────────────────────────────────────────┘" ].

(** The goals box of the first copy: one row per goal, in order. *)
Definition helpers_goals_text (short long : list jsstring) : jsstring :=
  unlines
    ([ [];
       js "┌─ 🎯 GOALS & ASPIRATIONS ────────────────────────────────────────────────┐";
       bar_row [];
       bar_row (js "  Short Term:") ]
     ++ rows_or_blank (map (fun g => bar_row (js "    ✓ " ++ g)) short)
     ++ [ bar_row []; bar_row (js "  Long Term:") ]
     ++ rows_or_blank (map (fun g => bar_row (js "    ★ " ++ g)) long)
     ++ [ bar_row []; js "└─────────────────────────────────────────────────────────────────────────┘" ]).

(** The goals box of the second copy. *)
Definition inline_goals_text (short long : list jsstring) : jsstring :=
  unlines
    ([ [];
       js "┌─ 🎯 GOALS & ASPIRATIONS ────────────────────────────────────────────────┐";
       js "│                                                                           │";
       js "│  Short Term:                                                             │" ]
     ++ rows_or_blank
          (map (fun g => js "│    ✓ " ++ padded g 65 ++ js "  │") short)
     ++ [ js "│                                                                           │";
          js "│  Long Term:                                                              │" ]
     ++ rows_or_blank
          (map (fun g => js "│    ★ " ++ padded g 65 ++ js "  │") long)
     ++ [ js "│                                                                           │";
          js "└───────────────────────────────────────────────────────────────────────────┘" ]).

(** The mission box of the first copy. *)
Definition helpers_mission_text (status mode : option jsstring)
  (weapons weaknesses : list jsstring) (next_level : option jsstring)
  : jsstring :=
  unlines
    ([ [];
       js "┌─ 🚀 CURRENT MISSION STATUS ─────────────────────────────────────────────┐";
       bar_row [];
       bar_row (js "  Status:           " ++ text_else status []);
       bar_row (js "  Mode:             " ++ text_else mode []);
       bar_row [];
       bar_row (js "  Weapons Arsenal:") ]
     ++ rows_or_blank (map (fun x => bar_row (js "    ⚡ " ++ x)) weapons)
     ++ [ bar_row []; bar_row (js "  Known Weaknesses:") ]
     ++ rows_or_blank (map (fun x => bar_row (js "    ⚠️  " ++ x)) weaknesses)
     ++ [ bar_row [];
          bar_row (js "  Next Level:       " ++ text_else next_level []);
          bar_row [];
          js "└─────────────────────────────────────────────────────────────────────────┘" ]).

(** The mission box of the second copy. *)
Definition inline_mission_text (status mode : option jsstring)
  (weapons weaknesses : list jsstring) (next_level : option jsstring)
  : jsstring :=
  unlines
    ([ [];
       js "┌─ 🚀 CURRENT MISSION STATUS ─────────────────────────────────────────────┐";
       js "│                                                                           │";
       js "│  Status:            " ++ padded (text_else status []) 50
         ++ js "  │";
       js "│  Mode:              " ++ padded (text_else mode []) 50
         ++ js "  │";
       js "│                                                                           │";
       js "│  Weapons Arsenal:                                                        │" ]
     ++ rows_or_blank
          (map (fun x => js "│    ⚡ " ++ padded x 63 ++ js "  │") weapons)
     ++ [ js "│                                                                           │";
          js "│  Known Weaknesses:                                                       │" ]
     ++ rows_or_blank
          (map (fun x => js "│    ⚠️  " ++ padded x 63 ++ js "  │")
             weaknesses)
     ++ [ js "│                                                                           │";
          js "│  Next Level:        " ++ padded (text_else next_level []) 50
            ++ js "  │";
          js "│                                                                           │";
          js "└───────────────────────────────────────────────────────────────────────────┘" ]).

(** [mission] is a record holding the five fields. *)
Definition mission_holds (w : world) (mission : value)
  (status mode : option jsstring) (weapons weaknesses : option (list jsstring))
  (next_level : option jsstring) : Prop :=
  truthy mission = true
  /\ prop_of w mission (js "status") = text_or_absent status
  /\ prop_of w mission (js "mode") = text_or_absent mode
  /\ prop_of w mission (js "weapons") = texts_or_absent weapons
  /\ prop_of w mission (js "weaknesses") = texts_or_absent weaknesses
  /\ prop_of w mission (js "next_level") = text_or_absent next_level.

(** [social], or the empty record that stands for a missing one, holds
    the five links. *)
Definition social_holds (w : world) (social : value)
  (github linkedin twitter email portfolio : option jsstring) : Prop :=
  let s := if truthy social then social else VObj [] in
  prop_of w s (js "github") = text_or_absent github
  /\ prop_of w s (js "linkedin") = text_or_absent linkedin
  /\ prop_of w s (js "twitter") = text_or_absent twitter
  /\ prop_of w s (js "email") = text_or_absent email
  /\ prop_of w s (js "portfolio") = text_or_absent portfolio.

(* ================================================================= *)
(** * Properties *)

(** ** Running the monad *)

Lemma bind_Ok {A B} (m : M A) (k : A -> M B) w a w' :
  m w = Ok a w' -> bind m k w = k a w'.
Proof. unfold bind; intros ->; reflexivity. Qed.

Lemma bind_Throw {A B} (m : M A) (k : A -> M B) w e w' :
  m w = Throw e w' -> bind m k w = Throw e w'.
Proof. unfold bind; intros ->; reflexivity. Qed.

Lemma auth_headers_run w : auth_headers w = Ok (token_headers w) w.
Proof.
  unfold auth_headers, token_headers, process_env_GH_TOKEN, bind.
  destruct (gh_token w) as [[|c t]|]; reflexivity.
Qed.

Lemma fetchAPI_run url headers w :
  fetchAPI url headers w =
  match network w url (assign_all user_agent headers) with
  | ConnectionError msg => Throw (TransportError msg) w
  | Body (Some parsed) => Ok parsed w
  | Body None => Ok VNull w
  end.
Proof.
  unfold fetchAPI, http_get, bind, user_agent.
  destruct (network w url _) as [msg|[parsed|]]; reflexivity.
Qed.

(** ** Induction on values, through arrays and objects *)

Section ValueInduction.
Variable P : value -> Prop.
Hypothesis Pundefined : P VUndefined.
Hypothesis Pnull : P VNull.
Hypothesis Pbool : forall b, P (VBool b).
Hypothesis Pnum : forall x, P (VNum x).
Hypothesis Pstr : forall s, P (VStr s).
Hypothesis Parr : forall l, Forall P l -> P (VArr l).
Hypothesis Pobj : forall o, Forall (fun kv => P (snd kv)) o -> P (VObj o).
Hypothesis Pref : forall l, P (VRef l).

Fixpoint value_nested_ind (v : value) : P v :=
  match v with
  | VUndefined => Pundefined
  | VNull => Pnull
  | VBool b => Pbool b
  | VNum x => Pnum x
  | VStr s => Pstr s
  | VArr l =>
      Parr l ((fix all (l : list value) : Forall P l :=
                 match l with
                 | [] => Forall_nil P
                 | x :: r => Forall_cons x (value_nested_ind x) (all r)
                 end) l)
  | VObj o =>
      Pobj o ((fix all (o : obj) : Forall (fun kv => P (snd kv)) o :=
                 match o with
                 | [] => Forall_nil _
                 | kv :: r => Forall_cons kv (value_nested_ind (snd kv)) (all r)
                 end) o)
  | VRef l => Pref l
  end.
End ValueInduction.

(** A computation that only reads the heap: it leaves the world as it
    found it. *)
Definition stable {A} (m : M A) : Prop :=
  forall w, (exists a, m w = Ok a w) \/ (exists e, m w = Throw e w).

Lemma stable_ret {A} (a : A) : stable (ret a).
Proof. intros w; left; eexists; reflexivity. Qed.

Lemma stable_throw {A} e : stable (@throw A e).
Proof. intros w; right; eexists; reflexivity. Qed.

Lemma stable_bind {A B} (m : M A) (k : A -> M B) :
  stable m -> (forall a, stable (k a)) -> stable (bind m k).
Proof.
  intros Hm Hk w. unfold bind.
  destruct (Hm w) as [[a ->]|[e ->]]; [apply Hk | right; eexists; reflexivity].
Qed.

Lemma stable_read_heap l : stable (read_heap l).
Proof. intros w; left; eexists; reflexivity. Qed.

Lemma stable_get_prop v k : stable (get_prop v k).
Proof.
  destruct v; cbn [get_prop];
    auto using stable_ret, stable_throw, stable_bind, stable_read_heap.
Qed.

Lemma stable_object_to_string o : stable (object_to_string o).
Proof.
  unfold object_to_string; destruct (lookup o _);
    auto using stable_ret, stable_throw.
Qed.

Lemma stable_join_with f sep l :
  Forall (fun v => stable (f v)) l -> stable (join_with f sep l).
Proof.
  induction 1 as [|x r Hx Hr IH]; cbn [join_with]; [apply stable_ret|].
  apply stable_bind.
  - unfold join_elem; destruct (is_nullish x); auto using stable_ret.
  - intros s; destruct r; [apply stable_ret|].
    apply stable_bind; [exact IH | intros; apply stable_ret].
Qed.

Lemma stable_to_string v : stable (to_string v).
Proof.
  induction v using value_nested_ind; cbn [to_string];
    auto using stable_ret, stable_join_with, stable_object_to_string.
  - destruct b; apply stable_ret.
  - apply stable_bind; auto using stable_read_heap, stable_object_to_string.
Qed.

Lemma stable_parseInt v : stable (parseInt v).
Proof.
  unfold parseInt; apply stable_bind;
    [apply stable_to_string | intros; apply stable_ret].
Qed.

Lemma stable_parseFloat v : stable (parseFloat v).
Proof.
  unfold parseFloat; apply stable_bind;
    [apply stable_to_string | intros; apply stable_ret].
Qed.

Lemma stable_console_log m : stable m -> stable (console_log m).
Proof.
  intros H; unfold console_log; apply stable_bind;
    [exact H | intros; apply stable_ret].
Qed.

Lemma stable_try_catch {A} (body : M A) handler :
  stable body -> (forall e, stable (handler e)) -> stable (try_catch body handler).
Proof.
  intros Hb Hh w; unfold try_catch.
  destruct (Hb w) as [[a ->]|[e ->]]; [left; eexists; reflexivity | apply Hh].
Qed.

Create HintDb stable.
#[local] Hint Resolve stable_ret stable_throw stable_read_heap stable_get_prop
  stable_to_string stable_parseInt stable_parseFloat stable_object_to_string
  : stable.

(** A caught body never throws: whatever happens inside, the handler's
    value comes out. *)
Lemma try_catch_total {A} (body : M A) (handler : error -> M A) (d : A) w :
  stable body -> (forall e w', handler e w' = Ok d w') ->
  exists a, try_catch body handler w = Ok a w.
Proof.
  intros Hb Hh; unfold try_catch.
  destruct (Hb w) as [[a ->]|[e ->]]; eexists; [reflexivity | apply Hh].
Qed.

(** ** What each collector returns, read off the network's answer *)

Ltac run := cbv beta iota zeta.

Lemma get_prop_defined v k w :
  is_nullish v = false -> get_prop v k w = Ok (prop_of w v k) w.
Proof. destruct v; intros H; try discriminate; reflexivity. Qed.

Lemma truthy_not_nullish v : truthy v = true -> is_nullish v = false.
Proof. destruct v; intros H; try discriminate; reflexivity. Qed.

Lemma get_prop_truthy v k w :
  truthy v = true -> get_prop v k w = Ok (prop_of w v k) w.
Proof. intros H; apply get_prop_defined, truthy_not_nullish, H. Qed.

Lemma to_string_text v w s : text_of w v = Some s -> to_string v w = Ok s w.
Proof.
  unfold text_of.
  destruct (stable_to_string v w) as [[s' H]|[e H]]; rewrite H; congruence.
Qed.

Lemma to_string_fails v w :
  text_of w v = None -> exists e, to_string v w = Throw e w.
Proof.
  unfold text_of.
  destruct (stable_to_string v w) as [[s' H]|[e H]]; rewrite H;
    [discriminate | eauto].
Qed.

Lemma fetchGitHubStats_run w :
  fetchGitHubStats w =
  match answer HostStats w with
  | Body (Some data) =>
      if truthy data then
        match text_of w (prop_of w data (js "followers")) with
        | Some _ => Ok (github_result w data) w
        | None => Ok VNull w
        end
      else Ok VNull w
  | _ => Ok VNull w
  end.
Proof.
  cbv beta iota zeta delta
    [fetchGitHubStats answer bind try_catch console_log ret].
  rewrite auth_headers_run; run. rewrite fetchAPI_run.
  change (js "https://api.github.com/users/" ++ GITHUB_USERNAME)
    with (js "https://api.github.com/users/AbirpandA").
  destruct (network w _ _) as [msg|[data|]]; try reflexivity.
  destruct (truthy data) eqn:Ht; [|reflexivity].
  rewrite !(get_prop_truthy _ _ _ Ht); run.
  destruct (text_of w _) as [s|] eqn:Hs.
  - rewrite (to_string_text _ _ _ Hs); run.
    rewrite !(get_prop_truthy _ _ _ Ht). reflexivity.
  - destruct (to_string_fails _ _ Hs) as [e ->]. reflexivity.
Qed.

Lemma success_marker_spec w data :
  success_marker w data
  = truthy data && is_success (prop_of w data (js "status")).
Proof.
  destruct data as [| |b|x|s|l|o|l]; cbn [success_marker prop_of truthy];
    try reflexivity.
  - destruct b; reflexivity.
  - destruct (truthy_number x); reflexivity.
  - destruct s; reflexivity.
Qed.

Lemma parseInt_run v w :
  parseInt v w = match text_of w v with
                 | Some s => Ok (VNum (parseInt_string s)) w
                 | None => parseInt v w
                 end.
Proof.
  destruct (text_of w v) as [s|] eqn:Hs; [|reflexivity].
  unfold parseInt, bind. rewrite (to_string_text _ _ _ Hs). reflexivity.
Qed.

Lemma parseInt_fails v w :
  text_of w v = None -> exists e, parseInt v w = Throw e w.
Proof.
  intros Hs. destruct (to_string_fails _ _ Hs) as [e He].
  exists e. unfold parseInt, bind. rewrite He. reflexivity.
Qed.

Lemma parseFloat_run v w s :
  text_of w v = Some s -> parseFloat v w = Ok (VNum (parseFloat_string s)) w.
Proof.
  intros Hs. unfold parseFloat, bind. rewrite (to_string_text _ _ _ Hs).
  reflexivity.
Qed.

Lemma parseFloat_fails v w :
  text_of w v = None -> exists e, parseFloat v w = Throw e w.
Proof.
  intros Hs. destruct (to_string_fails _ _ Hs) as [e He].
  exists e. unfold parseFloat, bind. rewrite He. reflexivity.
Qed.

Lemma stable_get_prop_opt v k : stable (get_prop_opt v k).
Proof.
  unfold get_prop_opt; destruct (is_nullish v); auto with stable.
Qed.

(** The "no data" log line of the practice-stats collector, whatever it
    prints or throws, leaves the collector on its way to [null]. *)
Lemma leetcode_warning_run data w :
  exists r, (console_log
     (m <- get_prop_opt data (js "message") ;;
      s <- to_string (or_else m (str "user not found or API error")) ;;
      ret (js "   ⚠️  LeetCode: " ++ s))) w = r
  /\ (r = Ok tt w \/ exists e, r = Throw e w).
Proof.
  eexists; split; [reflexivity|].
  match goal with |- ?m w = _ \/ _ => assert (H : stable m) end.
  { apply stable_console_log, stable_bind; [apply stable_get_prop_opt|].
    intros m; apply stable_bind; auto with stable. }
  destruct (H w) as [[[] ->]|[e ->]]; eauto.
Qed.

Lemma fetchLeetCodeStats_run w :
  fetchLeetCodeStats w =
  match answer PracticeStats w with
  | Body (Some data) =>
      if success_marker w data then
        match leetcode_result w data with
        | Some r => Ok r w
        | None => Ok VNull w
        end
      else Ok VNull w
  | _ => Ok VNull w
  end.
Proof.
  unfold fetchLeetCodeStats.
  unfold bind at 1, try_catch at 1.
  unfold bind at 1. change (console_log (ret ?s) w) with (Ok tt w); run.
  unfold bind at 1. rewrite fetchAPI_run.
  change (js "https://leetcode-stats-api.herokuapp.com/" ++ LEETCODE_USERNAME)
    with (js "https://leetcode-stats-api.herokuapp.com/CTp4b4787R").
  change (assign_all user_agent []) with user_agent. unfold answer.
  destruct (network w _ _) as [msg|[data|]].
  1: reflexivity.
  2: reflexivity.
  rewrite success_marker_spec.
  destruct (truthy data) eqn:Ht.
  2:{ unfold bind at 1. unfold ret at 1. cbn [andb]. unfold bind at 1.
      destruct (leetcode_warning_run data w) as (r & <- & [->|[e ->]]);
        reflexivity. }
  unfold bind at 1. rewrite (get_prop_truthy _ _ _ Ht); run.
  cbn [andb]. destruct (is_success _).
  2:{ unfold bind at 1.
      destruct (leetcode_warning_run data w) as (r & <- & [->|[e ->]]);
        reflexivity. }
  unfold leetcode_result, int_or_zero, float_or_zero.
  cbv beta iota zeta delta [bind console_log ret].
  rewrite (get_prop_truthy _ _ _ Ht); run.
  destruct (text_of w (prop_of w data (js "totalSolved"))) as [t|] eqn:H1.
  2:{ destruct (to_string_fails _ _ H1) as [e ->]. reflexivity. }
  rewrite (to_string_text _ _ _ H1); run.
  rewrite (get_prop_truthy _ _ _ Ht); run.
  rewrite parseInt_run, H1; run.
  rewrite (get_prop_truthy _ _ _ Ht); run.
  destruct (text_of w (prop_of w data (js "easySolved"))) as [t2|] eqn:H2.
  2:{ destruct (parseInt_fails _ _ H2) as [e ->]. reflexivity. }
  rewrite parseInt_run, H2; run.
  rewrite (get_prop_truthy _ _ _ Ht); run.
  destruct (text_of w (prop_of w data (js "mediumSolved"))) as [t3|] eqn:H3.
  2:{ destruct (parseInt_fails _ _ H3) as [e ->]. reflexivity. }
  rewrite parseInt_run, H3; run.
  rewrite (get_prop_truthy _ _ _ Ht); run.
  destruct (text_of w (prop_of w data (js "hardSolved"))) as [t4|] eqn:H4.
  2:{ destruct (parseInt_fails _ _ H4) as [e ->]. reflexivity. }
  rewrite parseInt_run, H4; run.
  rewrite (get_prop_truthy _ _ _ Ht); run.
  destruct (text_of w (prop_of w data (js "acceptanceRate"))) as [t5|] eqn:H5.
  2:{ destruct (parseFloat_fails _ _ H5) as [e ->]. reflexivity. }
  rewrite (parseFloat_run _ _ _ H5). reflexivity.
Qed.

Lemma fetchContributions_run w :
  fetchContributions w =
  match answer ContributionCount w with
  | Body (Some data) =>
      if truthy data
         && negb (is_undefined (prop_of w data (js "total_count")))
      then
        match text_of w (prop_of w data (js "total_count")) with
        | Some _ => Ok (prop_of w data (js "total_count")) w
        | None => Ok (num 0) w
        end
      else Ok (num 0) w
  | _ => Ok (num 0) w
  end.
Proof.
  cbv beta iota zeta delta
    [fetchContributions answer bind try_catch console_log ret].
  rewrite auth_headers_run; run. rewrite fetchAPI_run.
  change (js "https://api.github.com/search/commits?q=author:"
          ++ GITHUB_USERNAME)
    with (js "https://api.github.com/search/commits?q=author:AbirpandA").
  destruct (network w _ _) as [msg|[data|]]; try reflexivity.
  destruct (truthy data) eqn:Ht; [|reflexivity].
  rewrite (get_prop_truthy _ _ _ Ht); run. cbn [andb].
  destruct (negb _); [|reflexivity].
  destruct (text_of w _) as [s|] eqn:Hs.
  - rewrite (to_string_text _ _ _ Hs). reflexivity.
  - destruct (to_string_fails _ _ Hs) as [e ->]. reflexivity.
Qed.

(** C1: whenever the fetch behind a collector fails with a transport
    error, the body is not valid JSON, or (practice stats) the success
    marker is missing, the collector returns its documented default
    ([null], [null], [0]) and no exception leaves it: the run continues
    in the same world. *)
Theorem collectors_degrade_to_default (c : collector) (w : world) :
  fetch_failed w c (answer c w) ->
  run_collector c w = Ok (documented_default c) w.
Proof.
  intros H. destruct c; cbn [run_collector documented_default].
  - rewrite fetchGitHubStats_run.
    revert H; generalize (answer HostStats w); intros r H.
    inversion H; reflexivity.
  - rewrite fetchLeetCodeStats_run.
    revert H; generalize (answer PracticeStats w); intros r H.
    inversion H as [c msg Hc Hr|c Hc Hr|data Hm Hc Hr]; try reflexivity.
    rewrite Hm. reflexivity.
  - rewrite fetchContributions_run.
    revert H; generalize (answer ContributionCount w); intros r H.
    inversion H; reflexivity.
Qed.

Lemma collectors_degrade_witness :
  fetch_failed
    (answering (VObj [(js "status", str "error");
                      (js "message", str "user not found")]))
    PracticeStats
    (answer PracticeStats
       (answering (VObj [(js "status", str "error");
                         (js "message", str "user not found")])))
  /\ run_collector PracticeStats
       (answering (VObj [(js "status", str "error");
                         (js "message", str "user not found")]))
     = Ok VNull
         (answering (VObj [(js "status", str "error");
                           (js "message", str "user not found")])).
Proof.
  assert (H : fetch_failed
    (answering (VObj [(js "status", str "error");
                      (js "message", str "user not found")]))
    PracticeStats
    (answer PracticeStats
       (answering (VObj [(js "status", str "error");
                         (js "message", str "user not found")])))).
  { apply failed_no_marker. vm_compute. reflexivity. }
  split; [exact H |].
  exact (collectors_degrade_to_default PracticeStats _ H).
Defined.

(** ** Objects as association lists *)

Lemma str_eqb_refl s : str_eqb s s = true.
Proof.
  induction s as [|c s IH]; [reflexivity|].
  cbn [str_eqb]. rewrite Z.eqb_refl, IH. reflexivity.
Qed.

Lemma str_eqb_eq a b : str_eqb a b = true -> a = b.
Proof.
  revert b; induction a as [|x a IH]; intros [|y b] H; try discriminate;
    [reflexivity|].
  cbn [str_eqb] in H. apply andb_true_iff in H as [Hxy Hab].
  apply Z.eqb_eq in Hxy. f_equal; [exact Hxy | apply IH, Hab].
Qed.

Lemma str_eqb_neq a b : a <> b -> str_eqb a b = false.
Proof.
  intros H. destruct (str_eqb a b) eqn:E; [|reflexivity].
  elim H. apply str_eqb_eq, E.
Qed.

Lemma lookup_set_own_same o k v : lookup (set_own o k v) k = Some v.
Proof.
  induction o as [|[k' v'] o IH]; cbn [set_own lookup].
  - rewrite str_eqb_refl. reflexivity.
  - destruct (str_eqb k' k) eqn:E; cbn [lookup]; rewrite E;
      [reflexivity | exact IH].
Qed.

Lemma lookup_set_own_other o k v k' :
  k' <> k -> lookup (set_own o k v) k' = lookup o k'.
Proof.
  intros Hk. induction o as [|[k0 v0] o IH]; cbn [set_own lookup].
  - rewrite str_eqb_neq by congruence. reflexivity.
  - destruct (str_eqb k0 k) eqn:E; cbn [lookup].
    + apply str_eqb_eq in E; subst k0.
      rewrite str_eqb_neq by congruence. reflexivity.
    + rewrite IH. reflexivity.
Qed.

Lemma own_set_own_same o k v : own (set_own o k v) k = v.
Proof. unfold own. rewrite lookup_set_own_same. reflexivity. Qed.

Lemma own_set_own_other o k v k' :
  k' <> k -> own (set_own o k v) k' = own o k'.
Proof. intros H. unfold own. rewrite lookup_set_own_other by exact H. reflexivity. Qed.

Lemma lookup_ensure_other o k d k' :
  k' <> k -> lookup (ensure o k d) k' = lookup o k'.
Proof.
  intros H. unfold ensure. destruct (truthy (own o k)); [reflexivity|].
  apply lookup_set_own_other, H.
Qed.

Lemma truthy_ensure o k d : truthy d = true -> truthy (own (ensure o k d) k) = true.
Proof.
  intros Hd. unfold ensure. destruct (truthy (own o k)) eqn:E; [exact E|].
  rewrite own_set_own_same. exact Hd.
Qed.

(** Setting a key never removes another, and keeps the number of keys
    when the key was there. *)
Lemma set_own_length_present o k v v' :
  lookup o k = Some v' -> length (set_own o k v) = length o.
Proof.
  induction o as [|[k0 v0] o IH]; cbn [lookup set_own]; [discriminate|].
  destruct (str_eqb k0 k); cbn [length]; [reflexivity|].
  intros H. rewrite (IH H). reflexivity.
Qed.

Lemma spread_run v w : spread v w = Ok (props_at w v) w.
Proof. destruct v; reflexivity. Qed.

(** ** The merge step, stage by stage *)

Lemma merge_run pd g l c w :
  merge pd g l c w = Ok (fst (merged pd g l c w)) (snd (merged pd g l c w)).
Proof.
  unfold merge, merged.
  change (if truthy (own pd (js "github_stats")) then pd
          else set_own pd (js "github_stats") (VObj []))
    with (ensure pd (js "github_stats") (VObj [])).
  set (pd1 := ensure pd (js "github_stats") (VObj [])).
  assert (H1 : truthy (own pd1 (js "github_stats")) = true)
    by (apply truthy_ensure; reflexivity).
  unfold bind at 1.
  destruct (truthy g).
  - unfold take_github.
    cbv beta iota zeta delta [bind ret]. rewrite spread_run; run.
    rewrite spread_run; run. unfold Date_now; run.
    change (mkWorld (heap w) (clock w) (S (ticks w)) (network w) (gh_token w)
              (disk w)) with (later 1 w).
    destruct (truthy l); [|reflexivity].
    rewrite spread_run; run. rewrite spread_run; run. reflexivity.
  - run. unfold bind at 1. rewrite (get_prop_truthy _ _ _ H1); run.
    unfold keep_github.
    destruct (own pd1 (js "github_stats")) as [| |b|x|s|a|o|r] eqn:E;
      try discriminate H1;
      cbv beta iota zeta delta [assign_member bind ret read_heap write_heap
                                heap clock ticks network gh_token disk];
      try (destruct (truthy l); [|reflexivity];
           cbv beta iota zeta delta [bind ret]; rewrite spread_run; run;
           rewrite spread_run; run; reflexivity).
Qed.

Ltac keys_differ :=
  let H := fresh in intro H; vm_compute in H; discriminate H.




Lemma ensure_missing pd k d :
  lookup pd k = None -> ensure pd k d = set_own pd k d.
Proof. intros H. unfold ensure, own. rewrite H. reflexivity. Qed.

Lemma ensure_present pd k d :
  truthy (own pd k) = true -> ensure pd k d = pd.
Proof. intros H. unfold ensure. rewrite H. reflexivity. Qed.

Lemma set_own_twice o k v v' : set_own (set_own o k v) k v' = set_own o k v'.
Proof.
  induction o as [|[k0 v0] o IH]; cbn [set_own].
  - rewrite str_eqb_refl. reflexivity.
  - destruct (str_eqb k0 k) eqn:E; cbn [set_own]; rewrite E;
      [reflexivity | rewrite IH; reflexivity].
Qed.

(** As stated, C3 asks for a [last_updated] stamp in both sub-records
    after a merge without fetch results.  The record with no entries
    refutes it: the merged [github_stats] holds [total_contributions]
    alone and [leetcode_stats] the five zero fields, neither a stamp. *)
Lemma merge_without_results_stamps_nothing :
  ~ (forall pd w pd' w',
       lookup pd (js "github_stats") = None ->
       lookup pd (js "leetcode_stats") = None ->
       merge pd VNull VNull (num 0) w = Ok pd' w' ->
       prop_of w' (own pd' (js "github_stats")) (js "last_updated")
         <> VUndefined
       /\ prop_of w' (own pd' (js "leetcode_stats")) (js "last_updated")
         <> VUndefined).
Proof.
  intros H.
  destruct (H [] offline
              [(js "github_stats", VObj [(js "total_contributions", num 0)]);
               (js "leetcode_stats", zero_leetcode)]
              offline eq_refl eq_refl) as [Hg _].
  - vm_compute. reflexivity.
  - apply Hg. vm_compute. reflexivity.
Qed.

(** C3 (amended): after a merge in which no fetch result is available,
    a record that lacked both sub-records has [github_stats] with
    [total_contributions = 0] and [leetcode_stats] with the five zero
    stat fields, and no [last_updated] in either; a record that had them
    keeps [leetcode_stats] and every stored field of [github_stats], a
    falsy [total_contributions] becoming 0.  The merge never throws. *)
Theorem merge_without_fetch_results (pd : obj) (w : world) (stored : bool) :
  stats_state pd stored ->
  exists pd' w',
    merge pd VNull VNull (num 0) w = Ok pd' w'
    /\ if stored then
         own pd' (js "leetcode_stats") = own pd (js "leetcode_stats")
         /\ (forall k, k <> js "total_contributions" ->
               prop_of w' (own pd' (js "github_stats")) k
               = prop_of w (own pd (js "github_stats")) k)
         /\ (is_object (own pd (js "github_stats")) = true ->
               prop_of w' (own pd' (js "github_stats"))
                 (js "total_contributions")
               = or_else (prop_of w (own pd (js "github_stats"))
                            (js "total_contributions")) (num 0))
       else
         pd' = set_own (set_own pd (js "github_stats")
                          (VObj [(js "total_contributions", num 0)]))
                 (js "leetcode_stats") zero_leetcode
         /\ w' = w.
Proof.
  intros Hs.
  exists (fst (merged pd VNull VNull (num 0) w)),
         (snd (merged pd VNull VNull (num 0) w)).
  split; [apply merge_run|].
  unfold merged. cbn [truthy].
  destruct Hs as [Hg Hl|Hg Hl].
  - rewrite (ensure_missing _ _ _ Hg). unfold keep_github.
    rewrite own_set_own_same. cbn [fst snd prop_of].
    rewrite set_own_twice.
    rewrite ensure_missing; [split; reflexivity|].
    rewrite lookup_set_own_other by keys_differ. exact Hl.
  - rewrite (ensure_present _ _ _ Hg). unfold keep_github.
    assert (Hls : forall v, own (set_own pd (js "github_stats") v)
                              (js "leetcode_stats")
                            = own pd (js "leetcode_stats"))
      by (intros v; apply own_set_own_other; keys_differ).
    destruct (own pd (js "github_stats")) as [| |b|x|s|a|o|r] eqn:E;
      try discriminate Hg;
      (rewrite ensure_present by (rewrite Hls; exact Hl));
      cbn [fst snd]; rewrite Hls, own_set_own_same;
      (split; [reflexivity|]); cbn [prop_of is_object];
      try (split; [reflexivity | discriminate]).
    + split; [intros k Hk; apply own_set_own_other, Hk|].
      intros _. apply own_set_own_same.
    + cbn [with_object heap]. rewrite Nat.eqb_refl.
      split; [intros k Hk; apply own_set_own_other, Hk|].
      intros _. apply own_set_own_same.
Qed.

Lemma merge_without_fetch_results_witness :
  stats_state [(js "profile", VObj [(js "name", str "Abir Panda")])] false
  /\ exists pd' w',
       merge [(js "profile", VObj [(js "name", str "Abir Panda")])]
             VNull VNull (num 0) offline = Ok pd' w'
       /\ pd' = [(js "profile", VObj [(js "name", str "Abir Panda")]);
                 (js "github_stats",
                  VObj [(js "total_contributions", num 0)]);
                 (js "leetcode_stats", zero_leetcode)]
       /\ w' = offline.
Proof.
  assert (H : stats_state
                [(js "profile", VObj [(js "name", str "Abir Panda")])] false)
    by (apply stats_missing; vm_compute; reflexivity).
  split; [exact H|].
  destruct (merge_without_fetch_results _ offline false H)
    as (pd' & w' & Hm & Hpd & Hw).
  exists pd', w'. split; [exact Hm|]. split; [|exact Hw].
  rewrite Hpd. vm_compute. reflexivity.
Defined.

(** ** Computations that see the world only through a relation *)

Section Respect.

Variable R : world -> world -> Prop.
Hypothesis R_heap : forall w1 w2, R w1 w2 -> same_heap w1 w2.

(** Started in related worlds, [m] gives the same result and ends in
    related worlds. *)
Definition respects {A} (m : M A) : Prop :=
  forall w1 w2, R w1 w2 ->
    match m w1, m w2 with
    | Ok a w1', Ok b w2' => a = b /\ R w1' w2'
    | Throw e w1', Throw e' w2' => e = e' /\ R w1' w2'
    | _, _ => False
    end.

Lemma respects_ret {A} (a : A) : respects (ret a).
Proof. intros w1 w2 H; cbn; auto. Qed.

Lemma respects_throw {A} e : respects (@throw A e).
Proof. intros w1 w2 H; cbn; auto. Qed.

Lemma respects_bind {A B} (m : M A) (k : A -> M B) :
  respects m -> (forall a, respects (k a)) -> respects (bind m k).
Proof.
  intros Hm Hk w1 w2 H. unfold bind. specialize (Hm w1 w2 H).
  destruct (m w1) as [a w1'|e w1'], (m w2) as [b w2'|e' w2'];
    try contradiction.
  - destruct Hm as [<- H']. apply Hk, H'.
  - exact Hm.
Qed.

Lemma respects_try_catch {A} (body : M A) handler :
  respects body -> (forall e, respects (handler e)) ->
  respects (try_catch body handler).
Proof.
  intros Hb Hh w1 w2 H. unfold try_catch. specialize (Hb w1 w2 H).
  destruct (body w1) as [a w1'|e w1'], (body w2) as [b w2'|e' w2'];
    try contradiction.
  - exact Hb.
  - destruct Hb as [<- H']. apply Hh, H'.
Qed.

Lemma respects_read_heap l : respects (read_heap l).
Proof. intros w1 w2 H; cbn. split; [apply R_heap, H | exact H]. Qed.

Lemma respects_get_prop v k : respects (get_prop v k).
Proof.
  destruct v; cbn [get_prop];
    auto using respects_ret, respects_throw.
  apply respects_bind; [apply respects_read_heap|].
  intros; apply respects_ret.
Qed.

Lemma respects_get_prop_opt v k : respects (get_prop_opt v k).
Proof.
  unfold get_prop_opt; destruct (is_nullish v);
    auto using respects_ret, respects_get_prop.
Qed.

Lemma respects_object_to_string o : respects (object_to_string o).
Proof.
  unfold object_to_string; destruct (lookup o _);
    auto using respects_ret, respects_throw.
Qed.

Lemma respects_join_with f sep l :
  Forall (fun v => respects (f v)) l -> respects (join_with f sep l).
Proof.
  induction 1 as [|x r Hx Hr IH]; cbn [join_with]; [apply respects_ret|].
  apply respects_bind.
  - unfold join_elem; destruct (is_nullish x); auto using respects_ret.
  - intros s; destruct r; [apply respects_ret|].
    apply respects_bind; [exact IH | intros; apply respects_ret].
Qed.

Lemma respects_to_string v : respects (to_string v).
Proof.
  induction v using value_nested_ind; cbn [to_string];
    auto using respects_ret, respects_join_with, respects_object_to_string.
  - destruct b; apply respects_ret.
  - apply respects_bind; [apply respects_read_heap|].
    intros; apply respects_object_to_string.
Qed.

Lemma respects_call_toString v : respects (call_toString v).
Proof.
  unfold call_toString; destruct (is_nullish v);
    auto using respects_throw, respects_to_string.
Qed.

Lemma respects_call_join v sep : respects (call_join v sep).
Proof.
  destruct v; cbn [call_join]; auto using respects_throw.
  apply respects_join_with. apply Forall_forall.
  intros; apply respects_to_string.
Qed.

Lemma respects_call_padEnd v n : respects (call_padEnd v n).
Proof. destruct v; cbn; auto using respects_ret, respects_throw. Qed.

Lemma respects_call_slice0 v n : respects (call_slice0 v n).
Proof. destruct v; cbn; auto using respects_ret, respects_throw. Qed.

Lemma respects_call_toFixed v n : respects (call_toFixed v n).
Proof. destruct v; cbn; auto using respects_ret, respects_throw. Qed.

Lemma respects_call_repeat s n : respects (call_repeat s n).
Proof.
  unfold call_repeat; destruct (n <? 0);
    auto using respects_ret, respects_throw.
Qed.

Lemma respects_map_rows f l :
  (forall v, respects (f v)) -> respects (map_rows f l).
Proof.
  intros Hf. induction l as [|x r IH]; cbn [map_rows]; [apply respects_ret|].
  apply respects_bind; [apply Hf|]. intros s.
  apply respects_bind; [exact IH|]. intros; apply respects_ret.
Qed.

Lemma respects_call_map_join v f :
  (forall x, respects (f x)) -> respects (call_map_join v f).
Proof.
  intros Hf. destruct v; cbn [call_map_join]; auto using respects_throw.
  apply respects_bind; [apply respects_map_rows, Hf|].
  intros; apply respects_ret.
Qed.

Lemma respects_Object_values v : respects (Object_values v).
Proof.
  destruct v; cbn [Object_values]; auto using respects_ret, respects_throw.
  apply respects_bind; [apply respects_read_heap|].
  intros; apply respects_ret.
Qed.

End Respect.

(** ** Rendering sees the world only through the heap and the clock *)

Lemma frozen_view_heap w1 w2 : same_frozen_view w1 w2 -> same_heap w1 w2.
Proof. intros [H _]; exact H. Qed.

Lemma respects_Date_now : respects same_frozen_view Date_now.
Proof.
  intros w1 w2 (Hh & t & H1 & H2). unfold Date_now.
  split; [rewrite H1, H2; reflexivity|].
  split; [exact Hh | exists t; split; assumption].
Qed.

Ltac respect_step :=
  lazymatch goal with
  | |- respects _ (ret _) => apply respects_ret
  | |- respects _ (throw _) => apply respects_throw
  | |- respects _ Date_now => apply respects_Date_now
  | |- respects _ (get_prop _ _) =>
      apply (respects_get_prop _ frozen_view_heap)
  | |- respects _ (get_prop_opt _ _) =>
      apply (respects_get_prop_opt _ frozen_view_heap)
  | |- respects _ (to_string _) =>
      apply (respects_to_string _ frozen_view_heap)
  | |- respects _ (call_toString _) =>
      apply (respects_call_toString _ frozen_view_heap)
  | |- respects _ (call_join _ _) =>
      apply (respects_call_join _ frozen_view_heap)
  | |- respects _ (call_padEnd _ _) => apply respects_call_padEnd
  | |- respects _ (call_slice0 _ _) => apply respects_call_slice0
  | |- respects _ (call_toFixed _ _) => apply respects_call_toFixed
  | |- respects _ (call_repeat _ _) => apply respects_call_repeat
  | |- respects _ (Object_values _) =>
      apply (respects_Object_values _ frozen_view_heap)
  | |- respects _ (call_map_join _ _) =>
      apply respects_call_map_join; intro
  | |- respects _ (bind _ _) => apply respects_bind; [|intro]
  | |- respects _ (if ?b then _ else _) => destruct b
  | |- respects _ (let _ := _ in _) => cbv zeta
  end.

Ltac respect := repeat respect_step.

Lemma respects_sectionHeader emoji title :
  respects same_frozen_view (Helpers.sectionHeader emoji title).
Proof. unfold Helpers.sectionHeader. respect. Qed.

Lemma respects_labelRow label v :
  respects same_frozen_view (Helpers.labelRow label v).
Proof. unfold Helpers.labelRow, Helpers.labelRow_width. respect. Qed.

Lemma respects_statRow label v :
  respects same_frozen_view (Helpers.statRow label v).
Proof. unfold Helpers.statRow. respect. Qed.

Lemma respects_bullet_row bullet v :
  respects same_frozen_view (Helpers.bullet_row bullet v).
Proof. unfold Helpers.bullet_row. respect. Qed.

Ltac respect_helpers :=
  repeat lazymatch goal with
    | |- respects _ (Helpers.sectionHeader _ _) =>
        apply respects_sectionHeader
    | |- respects _ (Helpers.labelRow _ _) => apply respects_labelRow
    | |- respects _ (Helpers.statRow _ _) => apply respects_statRow
    | |- respects _ (Helpers.bullet_row _ _) => apply respects_bullet_row
    | |- _ => respect_step
    end.

Lemma respects_generateProfileSection profile :
  respects same_frozen_view (Helpers.generateProfileSection profile).
Proof. unfold Helpers.generateProfileSection. respect_helpers. Qed.

Lemma respects_generateTechSection techStack :
  respects same_frozen_view (Helpers.generateTechSection techStack).
Proof.
  unfold Helpers.generateTechSection, Helpers.tech_row, Helpers.formatArray.
  respect_helpers.
Qed.

Lemma respects_generateStatsSection github leetcode profile :
  respects same_frozen_view
    (Helpers.generateStatsSection github leetcode profile).
Proof.
  unfold Helpers.generateStatsSection, Helpers.stat_of. respect_helpers.
Qed.

Lemma respects_generateMissionSection mission :
  respects same_frozen_view (Helpers.generateMissionSection mission).
Proof. unfold Helpers.generateMissionSection. respect_helpers. Qed.

Lemma respects_project_rows proj idx :
  respects same_frozen_view (Helpers.project_rows proj idx).
Proof. unfold Helpers.project_rows. respect_helpers. Qed.

Lemma respects_forEach_project projs :
  forall idx rows,
    respects same_frozen_view (Helpers.forEach_project projs idx rows).
Proof.
  induction projs as [|proj rest IH]; intros idx rows;
    cbn [Helpers.forEach_project]; [apply respects_ret|].
  apply respects_bind; [apply respects_project_rows|].
  intros pushed. apply IH.
Qed.

Lemma respects_generateProjectsSection projects :
  respects same_frozen_view (Helpers.generateProjectsSection projects).
Proof.
  unfold Helpers.generateProjectsSection.
  apply respects_bind; [apply (respects_Object_values _ frozen_view_heap)|].
  intros projs.
  apply respects_bind; [apply respects_forEach_project|].
  intros rows. respect_helpers.
Qed.

Lemma respects_generateGoalsSection goals :
  respects same_frozen_view (Helpers.generateGoalsSection goals).
Proof. unfold Helpers.generateGoalsSection. respect_helpers. Qed.

Lemma respects_generateSocialSection social :
  respects same_frozen_view (Helpers.generateSocialSection social).
Proof.
  unfold Helpers.generateSocialSection, Helpers.social_row. respect_helpers.
Qed.

Lemma respects_generateFooter :
  respects same_frozen_view Helpers.generateFooter.
Proof. unfold Helpers.generateFooter. respect_helpers. Qed.

Lemma respects_generateREADME profile techStack mission projects goals
  social stats :
  respects same_frozen_view
    (Helpers.generateREADME profile techStack mission projects goals social
       stats).
Proof.
  unfold Helpers.generateREADME.
  repeat lazymatch goal with
    | |- respects _ (Helpers.generateProfileSection _) =>
        apply respects_generateProfileSection
    | |- respects _ (Helpers.generateTechSection _) =>
        apply respects_generateTechSection
    | |- respects _ (Helpers.generateStatsSection _ _ _) =>
        apply respects_generateStatsSection
    | |- respects _ (Helpers.generateMissionSection _) =>
        apply respects_generateMissionSection
    | |- respects _ (Helpers.generateProjectsSection _) =>
        apply respects_generateProjectsSection
    | |- respects _ (Helpers.generateGoalsSection _) =>
        apply respects_generateGoalsSection
    | |- respects _ (Helpers.generateSocialSection _) =>
        apply respects_generateSocialSection
    | |- respects _ Helpers.generateFooter => apply respects_generateFooter
    | |- _ => respect_step
    end.
Qed.

(** C8: two runs of the render function on the same input record (the
    same arguments over the same loaded objects), each under a clock
    frozen to the same instant, produce the same document, unit for
    unit; if one fails, so does the other, with the same error. *)
Theorem render_deterministic_under_frozen_clock
  (profile techStack mission projects goals social stats : value)
  (w1 w2 : world) (t : instant) :
  same_heap w1 w2 -> frozen_at t w1 -> frozen_at t w2 ->
  produced (Helpers.generateREADME profile techStack mission projects goals
              social stats w1)
  = produced (Helpers.generateREADME profile techStack mission projects
                goals social stats w2).
Proof.
  intros Hh H1 H2.
  assert (H : same_frozen_view w1 w2) by (split; [exact Hh | eauto]).
  pose proof (respects_generateREADME profile techStack mission projects
                goals social stats w1 w2 H) as Hr.
  destruct (Helpers.generateREADME _ _ _ _ _ _ _ w1),
           (Helpers.generateREADME _ _ _ _ _ _ _ w2);
    try contradiction; destruct Hr as [-> _]; reflexivity.
Qed.

Lemma render_deterministic_witness :
  same_heap offline (later 3 offline)
  /\ frozen_at 1793516645123 offline
  /\ frozen_at 1793516645123 (later 3 offline)
  /\ produced (Helpers.generateREADME sample_profile sample_tech
                 sample_mission sample_projects sample_goals sample_social
                 sample_stats offline)
     = produced (Helpers.generateREADME sample_profile sample_tech
                   sample_mission sample_projects sample_goals sample_social
                   sample_stats (later 3 offline)).
Proof.
  assert (Hh : same_heap offline (later 3 offline)) by (intros l; reflexivity).
  assert (H1 : frozen_at 1793516645123 offline) by (intros n; reflexivity).
  assert (H2 : frozen_at 1793516645123 (later 3 offline))
    by (intros n; reflexivity).
  split; [exact Hh|]. split; [exact H1|]. split; [exact H2|].
  exact (render_deterministic_under_frozen_clock sample_profile sample_tech
           sample_mission sample_projects sample_goals sample_social
           sample_stats offline (later 3 offline) 1793516645123 Hh H1 H2).
Defined.

(** ** Padding, truncation and the width of rows *)

Lemma padEnd_length s n : length (padEnd s n) = Nat.max (length s) n.
Proof. unfold padEnd. rewrite length_app, repeat_length. lia. Qed.

Lemma padEnd_keeps s n : firstn (length s) (padEnd s n) = s.
Proof.
  unfold padEnd. rewrite firstn_app, Nat.sub_diag, firstn_all.
  cbn [firstn]. apply app_nil_r.
Qed.

Lemma padEnd_fits s n : (length s <= n)%nat -> length (padEnd s n) = n.
Proof. intros H. rewrite padEnd_length. lia. Qed.

Lemma slice0_length s n : length (slice0 s n) = Nat.min n (length s).
Proof. unfold slice0. apply length_firstn. Qed.

Lemma slice0_short s n : (length s <= n)%nat -> slice0 s n = s.
Proof. intros H. unfold slice0. apply firstn_all2, H. Qed.

Lemma cut_then_pad_length s cut width :
  (cut <= width)%nat -> length (padEnd (slice0 s cut) width) = width.
Proof. intros H. apply padEnd_fits. rewrite slice0_length. lia. Qed.

Lemma createRow_length content :
  length (Helpers.createRow content)
  = (Nat.max (length content) Helpers.CONTENT_WIDTH + 2)%nat.
Proof.
  unfold Helpers.createRow. rewrite !length_app, padEnd_length.
  change (length (js "│")) with 1%nat. lia.
Qed.

Lemma doubleRow_length content :
  length (Helpers.doubleRow content)
  = (Nat.max (length content) Helpers.CONTENT_WIDTH + 2)%nat.
Proof.
  unfold Helpers.doubleRow. rewrite !length_app, padEnd_length.
  change (length (js "║")) with 1%nat. lia.
Qed.

Lemma str_repeat_unit_length c n : length (str_repeat [c] n) = n.
Proof.
  induction n as [|n IH]; cbn [str_repeat length app]; [reflexivity|].
  rewrite IH. reflexivity.
Qed.

(** ** Truncation of free text (second copy) and its absence (first) *)

Lemma stable_call_join v sep : stable (call_join v sep).
Proof.
  destruct v; cbn [call_join]; try apply stable_throw.
  apply stable_join_with, Forall_forall. intros; apply stable_to_string.
Qed.

Lemma call_join_joined v w s :
  joined_of w v = Some s -> call_join v (js " • ") w = Ok s w.
Proof.
  unfold joined_of.
  destruct (stable_call_join v (js " • ") w) as [[s' H]|[e H]]; rewrite H;
    congruence.
Qed.

(** ** Fixed-point notation *)

Lemma digits_fuel_digits fuel :
  forall n acc, 0 <= n -> forallb is_digit acc = true ->
    forallb is_digit (digits_fuel fuel n acc) = true.
Proof.
  induction fuel as [|fuel IH]; intros n acc Hn Hacc; cbn [digits_fuel];
    [exact Hacc|].
  assert (Hd : forallb is_digit (digit_char (n mod 10) :: acc) = true).
  { cbn [forallb]. rewrite Hacc, andb_true_r.
    unfold is_digit, digit_char.
    pose proof (Z.mod_pos_bound n 10 ltac:(lia)).
    apply andb_true_iff; split; apply Z.leb_le; lia. }
  destruct (n <? 10); [exact Hd|].
  apply IH; [apply Z.div_pos; lia | exact Hd].
Qed.

Lemma digits_fuel_grows fuel n acc :
  (length acc < length (digits_fuel (S fuel) n acc))%nat.
Proof.
  revert n acc. induction fuel as [|fuel IH]; intros n acc.
  - cbn [digits_fuel]. destruct (n <? 10); cbn [length]; lia.
  - change (digits_fuel (S (S fuel)) n acc)
      with (if n <? 10 then digit_char (n mod 10) :: acc
            else digits_fuel (S fuel) (n / 10)
                   (digit_char (n mod 10) :: acc)).
    destruct (n <? 10); [cbn [length]; lia|].
    specialize (IH (n / 10) (digit_char (n mod 10) :: acc)).
    cbn [length] in IH. lia.
Qed.

Lemma decimal_digits n : 0 <= n -> forallb is_digit (decimal n) = true.
Proof. intros H. unfold decimal. apply digits_fuel_digits; auto. Qed.

Lemma decimal_nonempty n : (0 < length (decimal n))%nat.
Proof.
  unfold decimal.
  pose proof (digits_fuel_grows (Z.to_nat (Z.log2 n)) n []) as H.
  cbn [length] in H. lia.
Qed.

Lemma forallb_firstn {A} (f : A -> bool) n l :
  forallb f l = true -> forallb f (firstn n l) = true.
Proof.
  revert n; induction l as [|x l IH]; intros [|n] H; cbn in *; auto.
  apply andb_true_iff in H as [Hx Hl]. rewrite Hx. cbn. apply IH, Hl.
Qed.

Lemma forallb_skipn {A} (f : A -> bool) n l :
  forallb f l = true -> forallb f (skipn n l) = true.
Proof.
  revert n; induction l as [|x l IH]; intros [|n] H; cbn in *; auto.
  apply andb_true_iff in H as [Hx Hl]. apply IH, Hl.
Qed.

Lemma fixed_digits_two n :
  0 <= n ->
  exists int d1 d2,
    fixed_digits n 2 = int ++ js "." ++ [d1; d2]
    /\ int <> [] /\ forallb is_digit int = true
    /\ is_digit d1 = true /\ is_digit d2 = true.
Proof.
  intros Hn. unfold fixed_digits.
  set (m := decimal n).
  set (m' := repeat (digit_char 0) (3 - length m) ++ m).
  assert (Hm : forallb is_digit m' = true).
  { unfold m'. rewrite forallb_app. apply andb_true_iff; split.
    - apply forallb_forall. intros c Hc. apply repeat_spec in Hc.
      subst c. reflexivity.
    - apply decimal_digits, Hn. }
  assert (Hk : (3 <= length m')%nat).
  { unfold m'. rewrite length_app, repeat_length. lia. }
  set (k := length m') in *.
  assert (Hs : length (skipn (k - 2) m') = 2%nat)
    by (rewrite length_skipn; fold k; lia).
  assert (Hds : forallb is_digit (skipn (k - 2) m') = true)
    by (apply forallb_skipn, Hm).
  destruct (skipn (k - 2) m') as [|d1 [|d2 [|d3 r]]]; try discriminate Hs.
  exists (firstn (k - 2) m'), d1, d2.
  cbn [forallb] in Hds.
  apply andb_true_iff in Hds as [H1 H2].
  apply andb_true_iff in H2 as [H2 _].
  repeat split; auto.
  - intros Hf. apply (f_equal (@length _)) in Hf.
    rewrite length_firstn in Hf. fold k in Hf. cbn [length] in Hf. lia.
  - apply forallb_firstn, Hm.
Qed.

Lemma num_of_pos m e : 0 < num_of m e.
Proof.
  unfold num_of. destruct (0 <=? e) eqn:E; [|lia].
  apply Z.leb_le in E. apply Z.mul_pos_pos; [lia|].
  apply Z.pow_pos_nonneg; lia.
Qed.

Lemma den_of_pos e : 0 < den_of e.
Proof.
  unfold den_of. destruct (0 <=? e) eqn:E; [lia|].
  apply Z.leb_gt in E. apply Z.pow_pos_nonneg; lia.
Qed.

Lemma rounded_scaled_nonneg m e f : 0 <= rounded_scaled m e f.
Proof.
  unfold rounded_scaled.
  pose proof (num_of_pos m e). pose proof (den_of_pos e).
  apply Z.div_pos; [|lia].
  assert (0 < 10 ^ Z.of_nat f) by (apply Z.pow_pos_nonneg; lia).
  nia.
Qed.

(** [toFixed(2)] of a finite number below 10^21 has exactly two fraction
    digits. *)
Lemma toFixed_two_decimals x :
  fixed_range x = true -> two_decimals (toFixed x 2).
Proof.
  intros Hx. destruct x as [s|s| |s m e]; try discriminate Hx.
  - cbn [toFixed].
    destruct (fixed_digits_two 0 ltac:(lia)) as (int & d1 & d2 & E & H).
    exists [], int, d1, d2. rewrite E. split; [reflexivity|]. tauto.
  - cbn [toFixed fixed_range] in *. rewrite Hx.
    destruct (fixed_digits_two (rounded_scaled m e 2)
                (rounded_scaled_nonneg m e 2))
      as (int & d1 & d2 & E & H).
    exists (if s then js "-" else []), int, d1, d2. rewrite E.
    split; [reflexivity|]. split; [destruct s; auto | tauto].
Qed.

(** ** The metrics box, row by row *)

Lemma text_of_same_heap w1 w2 v :
  same_heap w1 w2 -> text_of w1 v = text_of w2 v.
Proof.
  intros H. unfold text_of.
  pose proof (respects_to_string same_heap (fun _ _ h => h) v w1 w2 H) as Hr.
  destruct (to_string v w1), (to_string v w2); try contradiction;
    [destruct Hr as [-> _]|]; reflexivity.
Qed.

Lemma text_of_later n w v : text_of (later n w) v = text_of w v.
Proof. apply text_of_same_heap. intros l. reflexivity. Qed.

Lemma get_prop_opt_run v k w : get_prop_opt v k w = Ok (prop_opt w v k) w.
Proof.
  unfold get_prop_opt, prop_opt. destruct (is_nullish v) eqn:E;
    [reflexivity | apply get_prop_defined, E].
Qed.

Lemma truthy_or_else v d : truthy d = true -> truthy (or_else v d) = true.
Proof. intros H. unfold or_else. destruct (truthy v) eqn:E; auto. Qed.

Lemma sectionHeader_run emoji title w :
  (length (js "─ " ++ emoji ++ js " " ++ title ++ js " ")
   <= Helpers.CONTENT_WIDTH)%nat ->
  Helpers.sectionHeader emoji title w = Ok (header_text emoji title) w.
Proof.
  intros H. unfold Helpers.sectionHeader, header_text, call_repeat, bind.
  cbv zeta.
  set (headerText := js "─ " ++ emoji ++ js " " ++ title ++ js " ") in *.
  unfold Helpers.CONTENT_WIDTH in *. clearbody headerText.
  destruct (Z.of_nat 73 - Z.of_nat (length headerText) <? 0)
    eqn:E; [apply Z.ltb_lt in E; exfalso; lia|].
  replace (Z.to_nat (Z.of_nat 73 - Z.of_nat (length headerText)))
    with (73 - length headerText)%nat by lia.
  reflexivity.
Qed.

Lemma statRow_run label v w s :
  text_of w v = Some s -> Helpers.statRow label v w = Ok (stat_line label s) w.
Proof.
  intros H. unfold Helpers.statRow, bind. rewrite (to_string_text _ _ _ H).
  reflexivity.
Qed.

Lemma statRow_fails label v w :
  text_of w v = None -> exists e, Helpers.statRow label v w = Throw e w.
Proof.
  intros H. destruct (to_string_fails _ _ H) as [e He].
  exists e. unfold Helpers.statRow, bind. rewrite He. reflexivity.
Qed.

Lemma stat_of_run label o k w s :
  truthy o = true -> stat_text w o k = Some s ->
  Helpers.stat_of label o k w = Ok (stat_line label s) w.
Proof.
  intros Ho H. unfold Helpers.stat_of, bind.
  rewrite (get_prop_truthy _ _ _ Ho). apply statRow_run, H.
Qed.

Lemma stat_of_fails label o k w :
  truthy o = true -> stat_text w o k = None ->
  exists e, Helpers.stat_of label o k w = Throw e w.
Proof.
  intros Ho H. unfold Helpers.stat_of, bind.
  rewrite (get_prop_truthy _ _ _ Ho). apply statRow_fails, H.
Qed.

Lemma call_toFixed_rate v w :
  call_toFixed (or_else v (num 0)) 2 w
  = match or_else v (num 0) with
    | VNum x => Ok (toFixed x 2) w
    | _ => Throw TypeError w
    end.
Proof. destruct (or_else v (num 0)); reflexivity. Qed.

Lemma stat_text_later n w o k : stat_text (later n w) o k = stat_text w o k.
Proof. unfold stat_text. rewrite text_of_later. reflexivity. Qed.

Ltac stat_step Hgh :=
  match goal with
  | |- context [Helpers.stat_of ?label ?o ?k (later 1 ?w)] =>
      let s := fresh "s" in
      let E := fresh "E" in
      destruct (stat_text w o k) as [s|] eqn:E;
      [ rewrite (stat_of_run label o k (later 1 w) s Hgh)
          by (rewrite stat_text_later; exact E); run
      | let e := fresh "e" in
        let He := fresh "He" in
        destruct (stat_of_fails label o k (later 1 w) Hgh) as [e He];
        [ rewrite stat_text_later; exact E
        | rewrite He; eexists; reflexivity ] ]
  end.

Lemma generateStatsSection_run github leetcode profile w :
  match stats_rows_of w github leetcode profile with
  | Some rows =>
      Helpers.generateStatsSection github leetcode profile w
      = Ok (template_lines rows) (later 1 w)
  | None =>
      exists e, Helpers.generateStatsSection github leetcode profile w
                = Throw e (later 1 w)
  end.
Proof.
  unfold stats_rows_of.
  cbv beta iota zeta delta [Helpers.generateStatsSection bind].
  set (gh := or_else github Helpers.default_github).
  set (lc := or_else leetcode Helpers.default_leetcode).
  assert (Hgh : truthy gh = true) by (apply truthy_or_else; reflexivity).
  assert (Hlc : truthy lc = true) by (apply truthy_or_else; reflexivity).
  rewrite get_prop_opt_run; run. rewrite get_prop_opt_run; run.
  change (Date_now w) with (Ok (clock w (ticks w)) (later 1 w)); run.
  rewrite sectionHeader_run by (apply Nat.leb_le; vm_compute; reflexivity).
  run.
  stat_step Hgh. stat_step Hgh. stat_step Hgh.
  fold (shown_contributions w profile).
  destruct (text_of w (shown_contributions w profile)) as [c|] eqn:Ec.
  2:{ destruct (statRow_fails (js "Contributions:")
                  (shown_contributions w profile) (later 1 w)) as [e He];
      [rewrite text_of_later; exact Ec | rewrite He; eexists; reflexivity]. }
  rewrite (statRow_run _ _ (later 1 w) c)
    by (rewrite text_of_later; exact Ec); run.
  stat_step Hlc. stat_step Hlc. stat_step Hlc. stat_step Hlc.
  rewrite (get_prop_truthy _ _ _ Hlc); run.
  rewrite call_toFixed_rate. unfold rate_text.
  change (prop_of (later 1 w) lc (js "acceptance_rate"))
    with (prop_of w lc (js "acceptance_rate")).
  destruct (or_else (prop_of w lc (js "acceptance_rate")) (num 0));
    first [reflexivity | eexists; reflexivity].
Qed.

Lemma stats_rows_of_inv w github leetcode profile rows :
  stats_rows_of w github leetcode profile = Some rows ->
  exists x,
    or_else (prop_of w (or_else leetcode Helpers.default_leetcode)
               (js "acceptance_rate")) (num 0) = VNum x
    /\ nth 14 rows []
       = stat_line (js "Acceptance Rate:") (toFixed x 2 ++ js "%")
    /\ length rows = 18%nat.
Proof.
  unfold stats_rows_of, rate_text.
  repeat match goal with
         | |- context [match stat_text ?w ?o ?k with _ => _ end] =>
             destruct (stat_text w o k); [|discriminate]
         end.
  destruct (text_of w (shown_contributions w profile)); [|discriminate].
  repeat match goal with
         | |- context [match stat_text ?w ?o ?k with _ => _ end] =>
             destruct (stat_text w o k); [|discriminate]
         end.
  destruct (or_else (prop_of w _ (js "acceptance_rate")) (num 0));
    try discriminate.
  intros [= <-]. exists x. repeat split.
Qed.

Lemma not_two_decimals_without_point s :
  ~ In 46 s -> ~ two_decimals s.
Proof.
  intros Hs (sign & int & d1 & d2 & E & _). apply Hs. rewrite E.
  apply in_or_app; right. apply in_or_app; right. left. reflexivity.
Qed.

(** ** Coercion of the collected figures *)

Lemma number_or_zero x : is_stat_number (or_else (VNum x) (num 0)) = true.
Proof. destruct x as [s|s| |s m e]; reflexivity. Qed.

Lemma int_or_zero_number w v r :
  int_or_zero w v = Some r -> is_stat_number r = true.
Proof.
  unfold int_or_zero. destruct (text_of w v); [|discriminate].
  intros [= <-]. apply number_or_zero.
Qed.

Lemma float_or_zero_number w v r :
  float_or_zero w v = Some r -> is_stat_number r = true.
Proof.
  unfold float_or_zero. destruct (text_of w v); [|discriminate].
  intros [= <-]. apply number_or_zero.
Qed.

Lemma leetcode_result_numbers w data r k :
  leetcode_result w data = Some r ->
  In k [js "total_solved"; js "easy"; js "medium"; js "hard";
        js "acceptance_rate"] ->
  is_stat_number (prop_of w r k) = true.
Proof.
  unfold leetcode_result.
  destruct (int_or_zero w (prop_of w data (js "totalSolved"))) as [t|] eqn:Et;
    [|discriminate].
  destruct (int_or_zero w (prop_of w data (js "easySolved"))) as [e|] eqn:Ee;
    [|discriminate].
  destruct (int_or_zero w (prop_of w data (js "mediumSolved"))) as [m|] eqn:Em;
    [|discriminate].
  destruct (int_or_zero w (prop_of w data (js "hardSolved"))) as [h|] eqn:Eh;
    [|discriminate].
  destruct (float_or_zero w (prop_of w data (js "acceptanceRate")))
    as [a|] eqn:Ea; [|discriminate].
  intros [= <-] Hk.
  apply int_or_zero_number in Et, Ee, Em, Eh.
  apply float_or_zero_number in Ea.
  cbn [In] in Hk.
  destruct Hk as [<-|[<-|[<-|[<-|[<-|[]]]]]]; assumption.
Qed.

(** As stated, C7 has every collected stat field a number, non-numeric
    API values becoming 0.  The host-stats collector refutes it: a
    payload whose [followers] is the text "many" comes back with that
    text. *)
Lemma host_stats_are_passed_through :
  ~ (forall w v,
       fetchGitHubStats w = Ok v w ->
       v = VNull \/ is_number (prop_of w v (js "followers")) = true).
Proof.
  intros H.
  destruct (H (answering (VObj [(js "followers", str "many")]))
              (VObj [(js "followers", str "many"); (js "following", num 0);
                     (js "public_repos", num 0); (js "total_stars", num 0)]))
    as [Hn|Hn].
  - vm_compute. reflexivity.
  - discriminate Hn.
  - vm_compute in Hn. discriminate Hn.
Qed.

(** ** The scenario of the spec *)

Lemma own_ensure_other o k d k' :
  k' <> k -> own (ensure o k d) k' = own o k'.
Proof. intros H. unfold own. rewrite lookup_ensure_other by exact H. reflexivity. Qed.

Ltac own_simpl :=
  repeat first
    [ rewrite own_set_own_same
    | rewrite own_set_own_other by keys_differ
    | rewrite own_ensure_other by keys_differ ].

Lemma scenario_collectors w :
  answer HostStats w = Body (Some host_payload) ->
  answer PracticeStats w = Body (Some practice_payload) ->
  answer ContributionCount w = Body (Some contribution_payload) ->
  fetchGitHubStats w = Ok scenario_github w
  /\ fetchLeetCodeStats w = Ok scenario_leetcode w
  /\ fetchContributions w = Ok (num 310) w.
Proof.
  intros Hg Hl Hc. split; [|split].
  - rewrite fetchGitHubStats_run, Hg. vm_compute. reflexivity.
  - rewrite fetchLeetCodeStats_run, Hl. vm_compute. reflexivity.
  - rewrite fetchContributions_run, Hc. vm_compute. reflexivity.
Qed.

Lemma scenario_merged pd w :
  exists gs ls,
    merge pd scenario_github scenario_leetcode (num 310) w
    = Ok (fst (merged pd scenario_github scenario_leetcode (num 310) w))
         (later 2 w)
    /\ own (fst (merged pd scenario_github scenario_leetcode (num 310) w))
           (js "github_stats") = VObj gs
    /\ own (fst (merged pd scenario_github scenario_leetcode (num 310) w))
           (js "leetcode_stats") = VObj ls
    /\ own gs (js "followers") = num 8
    /\ own gs (js "following") = num 5
    /\ own gs (js "public_repos") = num 45
    /\ own gs (js "total_contributions") = num 310
    /\ own gs (js "last_updated") = today w
    /\ own ls (js "total_solved") = num 145
    /\ own ls (js "easy") = num 63
    /\ own ls (js "medium") = num 75
    /\ own ls (js "hard") = num 7
    /\ own ls (js "acceptance_rate") = VNum (of_decimal false 523 (-1))
    /\ own ls (js "last_updated") = today (later 1 w).
Proof.
  rewrite merge_run. unfold merged.
  change (truthy scenario_github) with true.
  change (truthy scenario_leetcode) with true. run.
  unfold take_github, take_leetcode. cbn [fst snd].
  eexists. eexists. split; [reflexivity|].
  split; [own_simpl; reflexivity|]. split; [own_simpl; reflexivity|].
  change (props_at w scenario_github)
    with [(js "followers", num 8); (js "following", num 5);
          (js "public_repos", num 45); (js "total_stars", num 45)].
  change (props_at (later 1 w) scenario_leetcode)
    with [(js "total_solved", num 145); (js "easy", num 63);
          (js "medium", num 75); (js "hard", num 7);
          (js "acceptance_rate", VNum (of_decimal false 523 (-1)))].
  change (or_else (num 310) (num 0)) with (num 310).
  cbn [assign_all fold_left fst snd].
  repeat split; own_simpl; reflexivity.
Qed.

Lemma scenario_rows w gs ls profile c :
  own gs (js "followers") = num 8 ->
  own gs (js "following") = num 5 ->
  own gs (js "public_repos") = num 45 ->
  own ls (js "total_solved") = num 145 ->
  own ls (js "easy") = num 63 ->
  own ls (js "medium") = num 75 ->
  own ls (js "hard") = num 7 ->
  own ls (js "acceptance_rate") = VNum (of_decimal false 523 (-1)) ->
  text_of w (shown_contributions w profile) = Some c ->
  stats_rows_of w (VObj gs) (VObj ls) profile
  = Some (stats_rows (utc_date (clock w (ticks w))) (js "8") (js "5")
            (js "45") c (js "145") (js "63") (js "75") (js "7")
            (js "52.30%")).
Proof.
  intros H1 H2 H3 H4 H5 H6 H7 H8 Hc.
  unfold stats_rows_of, stat_text.
  change (or_else (VObj gs) Helpers.default_github) with (VObj gs).
  change (or_else (VObj ls) Helpers.default_leetcode) with (VObj ls).
  cbn [prop_of]. rewrite H1, H2, H3, H4, H5, H6, H7, H8, Hc.
  generalize (utc_date (clock w (ticks w))); intros date.
  vm_compute. reflexivity.
Qed.

(** ** Missing sub-records *)

(** C4 (the code at the failing input): the sections for the profile,
    the tech stack, the projects and the goals read their sub-record
    without a fallback, so a missing sub-record, or a missing list in
    it, raises a TypeError; the render function then fails as a whole
    and [main] ends with status 1, the profile file written and the
    README not. *)
Theorem render_throws_on_missing_sub_record (w : world) :
  Helpers.generateProfileSection VUndefined w = Throw TypeError w
  /\ Helpers.generateTechSection VUndefined w = Throw TypeError w
  /\ Helpers.generateTechSection (VObj []) w = Throw TypeError w
  /\ Helpers.generateProjectsSection VUndefined w = Throw TypeError w
  /\ Helpers.generateGoalsSection VUndefined w = Throw TypeError w
  /\ Helpers.generateGoalsSection (VObj []) w = Throw TypeError w
  /\ (forall mission projects goals social stats,
        Helpers.generateREADME sample_profile VUndefined mission projects
          goals social stats w = Throw TypeError w)
  /\ exists w',
       main Helpers.generateREADME (Some record_without_tech) offline
       = Ok 1 w'
       /\ map fst (disk w') = [paths_profileData].
Proof.
  split; [vm_compute; reflexivity|].
  split; [vm_compute; reflexivity|].
  split; [vm_compute; reflexivity|].
  split; [vm_compute; reflexivity|].
  split; [vm_compute; reflexivity|].
  split; [vm_compute; reflexivity|].
  split; [intros; vm_compute; reflexivity|].
  eexists. split; vm_compute; reflexivity.
Qed.

(* ================================================================= *)
(** * Further properties of the script *)

(** ** Section headers and label rows *)


(** X2: [labelRow] draws two spaces, the label padded to 18 units and
    the value's text, padded to the content width between the borders.
    Nothing is cut: a label longer than 18 units pushes the value to the
    right, and a row whose text exceeds 73 units is longer than 75.  The
    call throws only when the value has no text. *)
Theorem labelRow_layout (label : jsstring) (v : value) (w : world) :
  match text_of w v with
  | Some s =>
      let text := js "  " ++ label ++ repeat space (18 - length label) ++ s in
      Helpers.labelRow label v w
      = Ok (js "│" ++ text
              ++ repeat space (Helpers.CONTENT_WIDTH - length text)
              ++ js "│") w
      /\ length text = (2 + Nat.max (length label) 18 + length s)%nat
  | None => exists e, Helpers.labelRow label v w = Throw e w
  end.
Proof.
  unfold Helpers.labelRow, Helpers.labelRow_width, bind.
  destruct (text_of w v) as [s|] eqn:E.
  - rewrite (to_string_text _ _ _ E). cbv zeta. split.
    + unfold ret, Helpers.createRow, padEnd.
      rewrite <- !app_assoc. reflexivity.
    + change (js "  ") with [32; 32].
      rewrite !length_app, repeat_length. cbn [length]. lia.
  - destruct (to_string_fails _ _ E) as [e ->]. exists e. reflexivity.
Qed.

(** ** What the collectors send and bring back *)

Lemma same_heap_with_token t w : same_heap (with_token t w) w.
Proof. intros l. reflexivity. Qed.

(** X3: the practice-stats request never carries the GH_TOKEN: whatever
    the variable holds, the collector asks the same question and
    returns the same value. *)
Theorem practice_stats_never_use_the_token (w : world) (t : option jsstring) :
  answer PracticeStats (with_token t w) = answer PracticeStats w
  /\ produced (fetchLeetCodeStats (with_token t w))
     = produced (fetchLeetCodeStats w).
Proof.
  split; [reflexivity|].
  rewrite !fetchLeetCodeStats_run.
  change (answer PracticeStats (with_token t w))
    with (answer PracticeStats w).
  destruct (answer PracticeStats w) as [msg|[data|]]; try reflexivity.
  change (success_marker (with_token t w) data)
    with (success_marker w data).
  destruct (success_marker w data); [|reflexivity].
  assert (E : leetcode_result (with_token t w) data = leetcode_result w data).
  { unfold leetcode_result, int_or_zero, float_or_zero.
    rewrite !(text_of_same_heap _ _ _ (same_heap_with_token t w)).
    reflexivity. }
  rewrite E. destruct (leetcode_result w data); reflexivity.
Qed.


(** X5: the host-stats collector never reads a star count: whenever it
    returns a record, [total_stars] is the value of [public_repos]. *)
Theorem total_stars_repeat_public_repos (w : world) :
  exists v,
    fetchGitHubStats w = Ok v w
    /\ (v = VNull
        \/ prop_of w v (js "total_stars") = prop_of w v (js "public_repos")
           /\ is_object v = true).
Proof.
  rewrite fetchGitHubStats_run.
  destruct (answer HostStats w) as [msg|[data|]];
    try (exists VNull; split; [reflexivity | left; reflexivity]).
  destruct (truthy data);
    [|exists VNull; split; [reflexivity | left; reflexivity]].
  destruct (text_of w (prop_of w data (js "followers")));
    [|exists VNull; split; [reflexivity | left; reflexivity]].
  exists (github_result w data). split; [reflexivity|]. right.
  split; reflexivity.
Qed.

(** ** Invariants of the merge step *)

Lemma or_else_zero v :
  or_else v (num 0) = num 0 \/ truthy (or_else v (num 0)) = true.
Proof.
  unfold or_else. destruct (truthy v) eqn:E; [right; exact E | left; reflexivity].
Qed.

Lemma props_at_falsy w v : truthy v = false -> props_at w v = [].
Proof.
  destruct v as [| |b|x|s|a|o|r]; cbn [truthy props_at]; try reflexivity;
    try discriminate.
  destruct s; [reflexivity | discriminate].
Qed.

(** X6: after every merge, whatever the collectors returned, both stat
    sub-records exist, and when [github_stats] is an object its
    [total_contributions] is defined: it is 0 or a truthy value. *)
Theorem stats_exist_after_every_merge
  (pd : obj) (g l c : value) (w : world) :
  exists pd' w',
    merge pd g l c w = Ok pd' w'
    /\ truthy (own pd' (js "github_stats")) = true
    /\ truthy (own pd' (js "leetcode_stats")) = true
    /\ (is_object (own pd' (js "github_stats")) = true ->
        let total :=
          prop_of w' (own pd' (js "github_stats"))
            (js "total_contributions") in
        total = num 0 \/ truthy total = true).
Proof.
  exists (fst (merged pd g l c w)), (snd (merged pd g l c w)).
  split; [apply merge_run|].
  unfold merged.
  set (pd1 := ensure pd (js "github_stats") (VObj [])).
  assert (T1 : truthy (own pd1 (js "github_stats")) = true)
    by (apply truthy_ensure; reflexivity).
  assert (H2 : forall pd2 w2,
             (if truthy g then take_github pd1 g c w else keep_github pd1 w)
             = (pd2, w2) ->
             truthy (own pd2 (js "github_stats")) = true
             /\ (is_object (own pd2 (js "github_stats")) = true ->
                 forall n,
                   let total :=
                     prop_of (later n w2) (own pd2 (js "github_stats"))
                       (js "total_contributions") in
                   total = num 0 \/ truthy total = true)).
  { intros pd2 w2. destruct (truthy g).
    - unfold take_github. intros [= <- <-]. rewrite own_set_own_same.
      split; [reflexivity|]. intros _ n. cbn [prop_of].
      rewrite own_set_own_other by keys_differ.
      rewrite own_set_own_same. apply or_else_zero.
    - unfold keep_github.
      destruct (own pd1 (js "github_stats")) as [| |b|x|s|a|o|r] eqn:E;
        intros [= <- <-]; rewrite own_set_own_same;
        (split; [exact T1 || reflexivity|]); cbn [is_object];
        try discriminate; intros _ n; cbn [prop_of later heap with_object].
      + rewrite own_set_own_same. apply or_else_zero.
      + rewrite Nat.eqb_refl, own_set_own_same. apply or_else_zero. }
  destruct (if truthy g then take_github pd1 g c w else keep_github pd1 w)
    as [pd2 w2]. destruct (H2 pd2 w2 eq_refl) as [T2 C2]. clear H2.
  set (pd3 := ensure pd2 (js "leetcode_stats") zero_leetcode).
  assert (G3 : own pd3 (js "github_stats") = own pd2 (js "github_stats"))
    by (apply own_ensure_other; keys_differ).
  assert (T3 : truthy (own pd3 (js "leetcode_stats")) = true)
    by (apply truthy_ensure; reflexivity).
  destruct (truthy l); cbn [fst snd take_leetcode].
  - rewrite own_set_own_other by keys_differ. rewrite own_set_own_same, G3.
    split; [exact T2|]. split; [reflexivity|].
    intros O. exact (C2 O 1%nat).
  - rewrite G3. split; [exact T2|]. split; [exact T3|].
    intros O. specialize (C2 O 0%nat). cbv zeta in *.
    destruct (own pd2 (js "github_stats")); exact C2.
Qed.

(** X7: when the host stats were fetched, the merged [github_stats] is
    the stored record overwritten field by field: the four fetched
    fields, then the contribution count (0 when it is falsy) and the
    date stamp; every other stored field stays as it was. *)
Theorem fetched_host_stats_overwrite_stored
  (pd : obj) (data l c : value) (w : world) :
  exists pd' w' gs,
    merge pd (github_result w data) l c w = Ok pd' w'
    /\ own pd' (js "github_stats") = VObj gs
    /\ (forall k, In k [js "followers"; js "following"; js "public_repos"] ->
          own gs k = or_else (prop_of w data k) (num 0))
    /\ own gs (js "total_stars")
       = or_else (prop_of w data (js "public_repos")) (num 0)
    /\ own gs (js "total_contributions") = or_else c (num 0)
    /\ own gs (js "last_updated") = today w
    /\ (forall k, ~ In k host_stat_keys ->
          own gs k = own (props_at w (own pd (js "github_stats"))) k).
Proof.
  set (stored := props_at w (own (ensure pd (js "github_stats") (VObj []))
                               (js "github_stats"))).
  set (gs := set_own
               (set_own (assign_all stored (props_at w (github_result w data)))
                  (js "total_contributions") (or_else c (num 0)))
               (js "last_updated") (today w)).
  assert (Es : forall k, own stored k
                         = own (props_at w (own pd (js "github_stats"))) k).
  { intros k. subst stored. unfold ensure.
    destruct (truthy (own pd (js "github_stats"))) eqn:E; [reflexivity|].
    rewrite own_set_own_same, (props_at_falsy _ _ E). reflexivity. }
  exists (fst (merged pd (github_result w data) l c w)),
         (snd (merged pd (github_result w data) l c w)), gs.
  split; [apply merge_run|].
  split.
  { unfold merged. cbn [truthy github_result]. unfold take_github.
    fold stored. fold (github_result w data). fold gs.
    destruct (truthy l); cbn [fst take_leetcode];
      repeat first [ rewrite own_set_own_other by keys_differ
                   | rewrite own_ensure_other by keys_differ ];
      apply own_set_own_same. }
  subst gs. unfold github_result.
  cbn [props_at assign_all fold_left fst snd].
  split.
  { intros k [<-|[<-|[<-|[]]]];
      repeat rewrite own_set_own_other by keys_differ;
      apply own_set_own_same. }
  split; [repeat rewrite own_set_own_other by keys_differ;
          apply own_set_own_same|].
  split; [repeat rewrite own_set_own_other by keys_differ;
          apply own_set_own_same|].
  split; [apply own_set_own_same|].
  intros k Hk. unfold host_stat_keys in Hk.
  rewrite !own_set_own_other, Es; [reflexivity| | | | | |];
    intros ->; apply Hk; cbn [In]; tauto.
Qed.

(** ** Rendering only reads: the heap, and the clock *)

Lemma stable_call_repeat s n : stable (call_repeat s n).
Proof.
  unfold call_repeat. destruct (n <? 0); [apply stable_throw | apply stable_ret].
Qed.

Lemma stable_call_toString v : stable (call_toString v).
Proof.
  unfold call_toString.
  destruct (is_nullish v); [apply stable_throw | apply stable_to_string].
Qed.

Lemma stable_call_padEnd v n : stable (call_padEnd v n).
Proof. destruct v; cbn [call_padEnd]; auto using stable_ret, stable_throw. Qed.

Lemma stable_call_slice0 v n : stable (call_slice0 v n).
Proof. destruct v; cbn [call_slice0]; auto using stable_ret, stable_throw. Qed.

Lemma stable_call_toFixed v n : stable (call_toFixed v n).
Proof. destruct v; cbn [call_toFixed]; auto using stable_ret, stable_throw. Qed.

Lemma stable_Object_values v : stable (Object_values v).
Proof.
  destruct v; cbn [Object_values]; auto using stable_ret, stable_throw.
  apply stable_bind; [apply stable_read_heap | intros; apply stable_ret].
Qed.

Lemma stable_map_rows f l :
  (forall v, stable (f v)) -> stable (map_rows f l).
Proof.
  intros Hf. induction l as [|x r IH]; cbn [map_rows]; [apply stable_ret|].
  apply stable_bind; [apply Hf | intros s].
  apply stable_bind; [exact IH | intros; apply stable_ret].
Qed.

Lemma stable_call_map_join v f :
  (forall x, stable (f x)) -> stable (call_map_join v f).
Proof.
  intros Hf. destruct v; cbn [call_map_join]; try apply stable_throw.
  apply stable_bind; [apply stable_map_rows, Hf | intros; apply stable_ret].
Qed.

Ltac stable_step :=
  lazymatch goal with
  | |- stable (ret _) => apply stable_ret
  | |- stable (throw _) => apply stable_throw
  | |- stable (get_prop _ _) => apply stable_get_prop
  | |- stable (get_prop_opt _ _) => apply stable_get_prop_opt
  | |- stable (to_string _) => apply stable_to_string
  | |- stable (call_toString _) => apply stable_call_toString
  | |- stable (call_join _ _) => apply stable_call_join
  | |- stable (call_padEnd _ _) => apply stable_call_padEnd
  | |- stable (call_slice0 _ _) => apply stable_call_slice0
  | |- stable (call_toFixed _ _) => apply stable_call_toFixed
  | |- stable (call_repeat _ _) => apply stable_call_repeat
  | |- stable (Object_values _) => apply stable_Object_values
  | |- stable (call_map_join _ _) => apply stable_call_map_join; intro
  | |- stable (console_log _) => apply stable_console_log
  | |- stable (bind _ _) => apply stable_bind; [|intro]
  | |- stable (if ?b then _ else _) => destruct b
  | |- stable (let _ := _ in _) => cbv zeta
  | |- stable (Helpers.sectionHeader _ _) => unfold Helpers.sectionHeader
  | |- stable (Helpers.labelRow _ _) =>
      unfold Helpers.labelRow, Helpers.labelRow_width
  | |- stable (Helpers.statRow _ _) => unfold Helpers.statRow
  | |- stable (Helpers.stat_of _ _ _) => unfold Helpers.stat_of
  | |- stable (Helpers.bullet_row _ _) => unfold Helpers.bullet_row
  | |- stable (Helpers.tech_row _ _ _) => unfold Helpers.tech_row
  | |- stable (Helpers.formatArray _) => unfold Helpers.formatArray
  | |- stable (Helpers.social_row _ _ _) => unfold Helpers.social_row
  | |- stable (Helpers.project_rows _ _) => unfold Helpers.project_rows
  | |- stable (Inline.padded_field _ _ _ _) => unfold Inline.padded_field
  | |- stable (Inline.formatArray _) => unfold Inline.formatArray
  | |- stable (Inline.tech_row _ _ _ _) => unfold Inline.tech_row
  | |- stable (Inline.tech_row_cut _ _ _ _) => unfold Inline.tech_row_cut
  | |- stable (Inline.and_then _ _) => unfold Inline.and_then
  | |- stable (Inline.stat_row _ _ _ _) => unfold Inline.stat_row
  | |- stable (Inline.mission_row _ _ _ _) => unfold Inline.mission_row
  | |- stable (Inline.bullet_row _ _ _) => unfold Inline.bullet_row
  | |- stable (Inline.goal_row _ _ _) => unfold Inline.goal_row
  | |- stable (Inline.social_row _ _ _ _) => unfold Inline.social_row
  | |- stable (Inline.project_text _ _) => unfold Inline.project_text
  end.

Ltac stable_run := repeat stable_step.

Lemma stable_Helpers_forEach_project projs :
  forall idx rows, stable (Helpers.forEach_project projs idx rows).
Proof.
  induction projs as [|proj rest IH]; intros idx rows;
    cbn [Helpers.forEach_project]; [apply stable_ret|].
  apply stable_bind; [stable_run | intros; apply IH].
Qed.

Lemma stable_Inline_forEach_project projs :
  forall idx section, stable (Inline.forEach_project projs idx section).
Proof.
  induction projs as [|proj rest IH]; intros idx section;
    cbn [Inline.forEach_project]; [apply stable_ret|].
  apply stable_bind; [stable_run | intros; apply IH].
Qed.

Lemma stable_Helpers_generateProfileSection profile :
  stable (Helpers.generateProfileSection profile).
Proof. unfold Helpers.generateProfileSection. stable_run. Qed.

Lemma stable_Helpers_generateTechSection techStack :
  stable (Helpers.generateTechSection techStack).
Proof. unfold Helpers.generateTechSection. stable_run. Qed.

Lemma stable_Helpers_generateMissionSection mission :
  stable (Helpers.generateMissionSection mission).
Proof. unfold Helpers.generateMissionSection. stable_run. Qed.

Lemma stable_Helpers_generateProjectsSection projects :
  stable (Helpers.generateProjectsSection projects).
Proof.
  unfold Helpers.generateProjectsSection.
  apply stable_bind; [apply stable_Object_values | intros projs].
  apply stable_bind; [apply stable_Helpers_forEach_project | intros rows].
  stable_run.
Qed.

Lemma stable_Helpers_generateGoalsSection goals :
  stable (Helpers.generateGoalsSection goals).
Proof. unfold Helpers.generateGoalsSection. stable_run. Qed.

Lemma stable_Helpers_generateSocialSection social :
  stable (Helpers.generateSocialSection social).
Proof. unfold Helpers.generateSocialSection. stable_run. Qed.

Lemma stable_Inline_generateProfileSection profile :
  stable (Inline.generateProfileSection profile).
Proof. unfold Inline.generateProfileSection. stable_run. Qed.

Lemma stable_Inline_generateTechSection techStack :
  stable (Inline.generateTechSection techStack).
Proof. unfold Inline.generateTechSection. stable_run. Qed.

Lemma stable_Inline_generateMissionSection mission :
  stable (Inline.generateMissionSection mission).
Proof. unfold Inline.generateMissionSection. stable_run. Qed.

Lemma stable_Inline_generateProjectsSection projects :
  stable (Inline.generateProjectsSection projects).
Proof.
  unfold Inline.generateProjectsSection. cbv zeta.
  apply stable_bind; [apply stable_Object_values | intros projs].
  apply stable_bind; [apply stable_Inline_forEach_project | intros rows].
  apply stable_ret.
Qed.

Lemma stable_Inline_generateGoalsSection goals :
  stable (Inline.generateGoalsSection goals).
Proof. unfold Inline.generateGoalsSection. stable_run. Qed.

Lemma stable_Inline_generateSocialSection social :
  stable (Inline.generateSocialSection social).
Proof. unfold Inline.generateSocialSection. stable_run. Qed.

Lemma later_zero w : later 0 w = w.
Proof. destruct w; reflexivity. Qed.

Lemma later_later n m w : later n (later m w) = later (n + m) w.
Proof.
  unfold later; cbn [heap clock ticks network gh_token disk].
  rewrite Nat.add_assoc. reflexivity.
Qed.

Lemma advances_stable {A} (m : M A) : stable m -> advances 0 m.
Proof.
  intros H w. rewrite later_zero.
  destruct (H w) as [[a E]|[e E]]; [left; exists a; exact E|].
  right. exists e, 0%nat. rewrite later_zero. split; [lia | exact E].
Qed.

Lemma advances_Date_now : advances 1 Date_now.
Proof. intros w. left. eexists. reflexivity. Qed.

Lemma advances_bind {A B} n n' (m : M A) (k : A -> M B) :
  advances n m -> (forall a, advances n' (k a)) ->
  advances (n' + n) (bind m k).
Proof.
  intros Hm Hk w. unfold bind.
  destruct (Hm w) as [[a ->]|(e & j & Hj & ->)].
  - destruct (Hk a (later n w)) as [[b ->]|(e & j & Hj & ->)];
      rewrite later_later.
    + left. exists b. reflexivity.
    + right. exists e, (j + n)%nat. split; [lia | reflexivity].
  - right. exists e, j. split; [lia | reflexivity].
Qed.

Lemma advances_bind0 {A B} n (m : M A) (k : A -> M B) :
  stable m -> (forall a, advances n (k a)) -> advances n (bind m k).
Proof.
  intros Hm Hk. rewrite <- (Nat.add_0_r n).
  apply advances_bind; [apply advances_stable, Hm | exact Hk].
Qed.

Lemma advances_bind1 {A B} n (m : M A) (k : A -> M B) :
  advances 1 m -> (forall a, advances n (k a)) -> advances (S n) (bind m k).
Proof.
  intros Hm Hk. rewrite <- (Nat.add_1_r n).
  apply advances_bind; [exact Hm | exact Hk].
Qed.

Lemma advances_Helpers_generateStatsSection github leetcode profile :
  advances 1 (Helpers.generateStatsSection github leetcode profile).
Proof.
  unfold Helpers.generateStatsSection. cbv zeta.
  apply advances_bind0; [stable_run | intros github_stats].
  apply advances_bind0; [stable_run | intros total].
  apply advances_bind1; [apply advances_Date_now | intros now].
  apply advances_stable. stable_run.
Qed.

Lemma advances_Helpers_generateFooter : advances 1 Helpers.generateFooter.
Proof.
  unfold Helpers.generateFooter.
  apply advances_bind1; [apply advances_Date_now | intros now].
  apply advances_stable. stable_run.
Qed.

Lemma advances_date_row prefix suffix :
  advances 1 (Inline.date_row prefix suffix).
Proof.
  unfold Inline.date_row.
  apply advances_bind1; [apply advances_Date_now | intros now].
  apply advances_stable. stable_run.
Qed.

Lemma advances_Inline_generateStatsSection github leetcode profile :
  advances 2 (Inline.generateStatsSection github leetcode profile).
Proof.
  unfold Inline.generateStatsSection. cbv zeta.
  do 5 (apply advances_bind0; [stable_run | intro]).
  apply advances_bind1; [apply advances_date_row | intro].
  do 6 (apply advances_bind0; [stable_run | intro]).
  apply advances_bind1; [apply advances_date_row | intro].
  apply advances_stable. stable_run.
Qed.

Lemma advances_Inline_generateFooter : advances 1 Inline.generateFooter.
Proof.
  unfold Inline.generateFooter.
  apply advances_bind1; [apply advances_Date_now | intros now].
  apply advances_stable. stable_run.
Qed.

Lemma advances_Helpers_generateREADME profile techStack mission projects
  goals social stats :
  advances 2 (Helpers.generateREADME profile techStack mission projects goals
                social stats).
Proof.
  unfold Helpers.generateREADME. cbv zeta.
  apply advances_bind0;
    [apply stable_Helpers_generateProfileSection | intro].
  apply advances_bind0; [apply stable_Helpers_generateTechSection | intro].
  apply advances_bind0; [apply stable_get_prop | intro].
  apply advances_bind0; [apply stable_get_prop | intro].
  apply advances_bind1;
    [apply advances_Helpers_generateStatsSection | intro].
  apply advances_bind0;
    [apply stable_Helpers_generateMissionSection | intro].
  apply advances_bind0;
    [apply stable_Helpers_generateProjectsSection | intro].
  apply advances_bind0; [apply stable_Helpers_generateGoalsSection | intro].
  apply advances_bind0;
    [apply stable_Helpers_generateSocialSection | intro].
  apply advances_bind1; [apply advances_Helpers_generateFooter | intro].
  apply advances_stable, stable_ret.
Qed.

Lemma advances_Inline_generateREADME profile techStack mission projects
  goals social stats :
  advances 3 (Inline.generateREADME profile techStack mission projects goals
                social stats).
Proof.
  unfold Inline.generateREADME. cbv zeta.
  apply advances_bind0; [apply stable_Inline_generateProfileSection | intro].
  apply advances_bind0; [apply stable_Inline_generateTechSection | intro].
  apply advances_bind0; [apply stable_get_prop | intro].
  apply advances_bind0; [apply stable_get_prop | intro].
  change 3%nat with (1 + 2)%nat.
  apply advances_bind;
    [apply advances_Inline_generateStatsSection | intro].
  apply advances_bind0; [apply stable_Inline_generateMissionSection | intro].
  apply advances_bind0;
    [apply stable_Inline_generateProjectsSection | intro].
  apply advances_bind0; [apply stable_Inline_generateGoalsSection | intro].
  apply advances_bind0; [apply stable_Inline_generateSocialSection | intro].
  apply advances_bind1; [apply advances_Inline_generateFooter | intro].
  apply advances_stable, stable_ret.
Qed.

(** X8: rendering has one effect, reading the clock.  The first copy
    reads it twice in a render that returns (metrics box and footer),
    the second copy three times (the metrics box stamps each of its two
    date lines separately); a render that throws has read it at most as
    often.  Loaded objects, files, network and environment are as they
    were. *)
Theorem rendering_only_reads_the_clock
  (profile techStack mission projects goals social stats : value)
  (w : world) :
  (exists k,
     world_of (Helpers.generateREADME profile techStack mission projects
                 goals social stats w) = later k w
     /\ (k <= 2)%nat
     /\ forall text w',
          Helpers.generateREADME profile techStack mission projects goals
            social stats w = Ok text w' -> w' = later 2 w)
  /\ (exists k,
        world_of (Inline.generateREADME profile techStack mission projects
                    goals social stats w) = later k w
        /\ (k <= 3)%nat
        /\ forall text w',
             Inline.generateREADME profile techStack mission projects goals
               social stats w = Ok text w' -> w' = later 3 w).
Proof.
  split.
  - destruct (advances_Helpers_generateREADME profile techStack mission
                projects goals social stats w) as [[a E]|(e & k & Hk & E)];
      rewrite E.
    + exists 2%nat. split; [reflexivity|]. split; [lia|].
      intros text w' [= _ <-]. reflexivity.
    + exists k. split; [reflexivity|]. split; [exact Hk | discriminate].
  - destruct (advances_Inline_generateREADME profile techStack mission
                projects goals social stats w) as [[a E]|(e & k & Hk & E)];
      rewrite E.
    + exists 3%nat. split; [reflexivity|]. split; [lia|].
      intros text w' [= _ <-]. reflexivity.
    + exists k. split; [reflexivity|]. split; [exact Hk | discriminate].
Qed.

(* ================================================================= *)
(** * The frame of the merge step, through to save and render *)






(* ================================================================= *)
(** * What the collectors make of the API values *)

Lemma or_else_number x : or_else (VNum x) (num 0) = number_else_zero x.
Proof. destruct x as [s|s| |s m e]; reflexivity. Qed.

Lemma or_else_value v : or_else v (num 0) = value_else_zero v.
Proof. reflexivity. Qed.

Lemma number_else_zero_stat x : is_stat_number (number_else_zero x) = true.
Proof. destruct x as [s|s| |s m e]; reflexivity. Qed.

Lemma int_or_zero_text w v s :
  text_of w v = Some s ->
  int_or_zero w v = Some (number_else_zero (parseInt_string s)).
Proof.
  intros H. unfold int_or_zero. rewrite H, or_else_number. reflexivity.
Qed.

Lemma float_or_zero_text w v s :
  text_of w v = Some s ->
  float_or_zero w v = Some (number_else_zero (parseFloat_string s)).
Proof.
  intros H. unfold float_or_zero. rewrite H, or_else_number. reflexivity.
Qed.

Lemma leetcode_result_unprintable w data k :
  In k practice_api_fields -> text_of w (prop_of w data k) = None ->
  leetcode_result w data = None.
Proof.
  unfold leetcode_result, int_or_zero, float_or_zero, practice_api_fields.
  intros [<-|[<-|[<-|[<-|[<-|[]]]]]] H; rewrite H;
    repeat match goal with
           | |- context [match text_of ?w ?v with _ => _ end] =>
               destruct (text_of w v)
           end; reflexivity.
Qed.

(** C7 (amended): the practice-stats collector coerces: from a payload
    that carries the success marker it returns the five stat fields as
    [parseInt] ([parseFloat] for the acceptance rate) of the text of the
    API value, a result of NaN or 0 (an absent or non-numeric value)
    becoming 0, so each field is a number and never NaN.  The two GitHub
    collectors do not coerce: from a truthy payload the host-stats
    collector returns each API value as it is when truthy and 0
    otherwise ([total_stars] repeating [public_repos]), and the
    contribution collector returns [total_count] as it is when it is
    defined.  A collector whose payload holds a value without a text
    (its log line throws) returns its default. *)
Theorem collectors_coerce_or_pass_through (w : world) :
  (forall data t e m h a,
     answer PracticeStats w = Body (Some data) ->
     success_marker w data = true ->
     text_of w (prop_of w data (js "totalSolved")) = Some t ->
     text_of w (prop_of w data (js "easySolved")) = Some e ->
     text_of w (prop_of w data (js "mediumSolved")) = Some m ->
     text_of w (prop_of w data (js "hardSolved")) = Some h ->
     text_of w (prop_of w data (js "acceptanceRate")) = Some a ->
     fetchLeetCodeStats w
     = Ok (VObj
             [(js "total_solved", number_else_zero (parseInt_string t));
              (js "easy", number_else_zero (parseInt_string e));
              (js "medium", number_else_zero (parseInt_string m));
              (js "hard", number_else_zero (parseInt_string h));
              (js "acceptance_rate",
               number_else_zero (parseFloat_string a))]) w)
  /\ (forall x, is_stat_number (number_else_zero x) = true)
  /\ (forall data,
        answer PracticeStats w = Body (Some data) ->
        success_marker w data = true ->
        (forall k, In k practice_api_fields ->
                   prop_of w data k = VUndefined) ->
        fetchLeetCodeStats w
        = Ok (VObj [(js "total_solved", VNum (S754_zero false));
                    (js "easy", VNum (S754_zero false));
                    (js "medium", VNum (S754_zero false));
                    (js "hard", VNum (S754_zero false));
                    (js "acceptance_rate", VNum (S754_zero false))]) w)
  /\ (forall data k,
        answer PracticeStats w = Body (Some data) ->
        In k practice_api_fields ->
        text_of w (prop_of w data k) = None ->
        fetchLeetCodeStats w = Ok VNull w)
  /\ (forall data,
        answer HostStats w = Body (Some data) ->
        truthy data = true ->
        text_of w (prop_of w data (js "followers")) <> None ->
        fetchGitHubStats w
        = Ok (VObj
                [(js "followers",
                  value_else_zero (prop_of w data (js "followers")));
                 (js "following",
                  value_else_zero (prop_of w data (js "following")));
                 (js "public_repos",
                  value_else_zero (prop_of w data (js "public_repos")));
                 (js "total_stars",
                  value_else_zero (prop_of w data (js "public_repos")))])
             w)
  /\ (forall data,
        answer HostStats w = Body (Some data) ->
        truthy data = false
        \/ text_of w (prop_of w data (js "followers")) = None ->
        fetchGitHubStats w = Ok VNull w)
  /\ (forall data,
        answer ContributionCount w = Body (Some data) ->
        truthy data = true ->
        prop_of w data (js "total_count") <> VUndefined ->
        text_of w (prop_of w data (js "total_count")) <> None ->
        fetchContributions w = Ok (prop_of w data (js "total_count")) w)
  /\ (forall data,
        answer ContributionCount w = Body (Some data) ->
        truthy data = false
        \/ prop_of w data (js "total_count") = VUndefined
        \/ text_of w (prop_of w data (js "total_count")) = None ->
        fetchContributions w = Ok (VNum (S754_zero false)) w).
Proof.
  split.
  { intros data t e m h a Ha Hs Ht He Hm Hh Hr.
    rewrite fetchLeetCodeStats_run, Ha, Hs. unfold leetcode_result.
    rewrite (int_or_zero_text _ _ _ Ht), (int_or_zero_text _ _ _ He),
      (int_or_zero_text _ _ _ Hm), (int_or_zero_text _ _ _ Hh),
      (float_or_zero_text _ _ _ Hr). reflexivity. }
  split; [exact number_else_zero_stat|].
  split.
  { intros data Ha Hs Hk.
    rewrite fetchLeetCodeStats_run, Ha, Hs. unfold leetcode_result.
    rewrite !Hk by (unfold practice_api_fields; cbn [In]; tauto).
    vm_compute. reflexivity. }
  split.
  { intros data k Ha Hk Hn.
    rewrite fetchLeetCodeStats_run, Ha.
    destruct (success_marker w data); [|reflexivity].
    rewrite (leetcode_result_unprintable _ _ _ Hk Hn). reflexivity. }
  split.
  { intros data Ha Ht Hf. rewrite fetchGitHubStats_run, Ha, Ht.
    destruct (text_of w (prop_of w data (js "followers")));
      [reflexivity | elim Hf; reflexivity]. }
  split.
  { intros data Ha [Ht|Hf]; rewrite fetchGitHubStats_run, Ha.
    - rewrite Ht. reflexivity.
    - rewrite Hf. destruct (truthy data); reflexivity. }
  split.
  { intros data Ha Ht Hd Hf. rewrite fetchContributions_run, Ha, Ht.
    destruct (prop_of w data (js "total_count")) eqn:E;
      try (elim Hd; reflexivity); cbn [is_undefined negb andb];
      destruct (text_of w _); try reflexivity; elim Hf; reflexivity. }
  intros data Ha H. rewrite fetchContributions_run, Ha.
  destruct (truthy data); [|reflexivity]. cbn [andb].
  destruct H as [H|[H|H]]; [discriminate H | |].
  - rewrite H. reflexivity.
  - rewrite H. destruct (negb _); reflexivity.
Qed.

(** The theorem at the scenario's payloads. *)
Lemma collectors_coerce_witness :
  fetchLeetCodeStats scenario_world = Ok scenario_leetcode scenario_world
  /\ fetchGitHubStats scenario_world = Ok scenario_github scenario_world
  /\ fetchContributions scenario_world = Ok (num 310) scenario_world.
Proof.
  destruct (collectors_coerce_or_pass_through scenario_world)
    as (P & _ & _ & _ & H & _ & C & _).
  split; [|split].
  - exact (P practice_payload (js "145") (js "63") (js "75") (js "7")
             (js "52.3") eq_refl eq_refl eq_refl eq_refl eq_refl eq_refl
             eq_refl).
  - refine (H host_payload eq_refl eq_refl _). discriminate.
  - refine (C contribution_payload eq_refl eq_refl _ _); discriminate.
Defined.

(* ================================================================= *)
(** * The rows of the rendered document *)

Lemma unlines_app a b : unlines (a ++ b) = unlines a ++ unlines b.
Proof. unfold unlines. rewrite map_app, concat_app. reflexivity. Qed.

Lemma block_app a b : block a -> block b -> block (a ++ b).
Proof.
  intros (ra & -> & Ha) (rb & -> & Hb). exists (ra ++ rb).
  split; [symmetry; apply unlines_app | apply Forall_app; auto].
Qed.

Lemma block_line_feed : block [10].
Proof. exists [[]]. split; [reflexivity | repeat constructor]. Qed.

Lemma draws_row r : drawn_row r -> draws r.
Proof.
  intros H. exists [r]. split; [|constructor; [exact H | constructor]].
  unfold unlines. cbn [map concat]. rewrite app_nil_r. reflexivity.
Qed.

Lemma join_cons2 sep (r r' : jsstring) rest :
  join sep (r :: r' :: rest) = r ++ sep ++ join sep (r' :: rest).
Proof. reflexivity. Qed.

Lemma draws_join rows : Forall draws rows -> draws (join newline rows).
Proof.
  induction 1 as [|r rest Hr Hrest IH].
  - apply draws_row, row_blank.
  - destruct rest as [|r' rest']; [exact Hr|].
    rewrite join_cons2. unfold draws in *. change newline with [10] in *.
    rewrite <- !app_assoc. rewrite (app_assoc r [10]).
    apply block_app; [exact Hr | exact IH].
Qed.

Lemma draws_join_rows rows :
  Forall drawn_row rows -> draws (join newline rows).
Proof.
  intros H. apply draws_join. revert H. apply Forall_impl. exact draws_row.
Qed.

Lemma block_template_lines rows :
  Forall draws rows -> block (template_lines rows).
Proof.
  intros H. unfold template_lines. change newline with [10].
  apply block_app; [apply block_line_feed | apply draws_join, H].
Qed.

Lemma createRow_drawn content : drawn_row (Helpers.createRow content).
Proof. exact (row_single content). Qed.

Lemma doubleRow_drawn content : drawn_row (Helpers.doubleRow content).
Proof. exact (row_double content). Qed.

Lemma sectionFooter_drawn : drawn_row Helpers.sectionFooter.
Proof. apply row_border; vm_compute; [reflexivity | tauto]. Qed.

Lemma doubleHeader_drawn : drawn_row Helpers.doubleHeader.
Proof. apply row_border; vm_compute; [reflexivity | tauto]. Qed.

Lemma doubleFooter_drawn : drawn_row Helpers.doubleFooter.
Proof. apply row_border; vm_compute; [reflexivity | tauto]. Qed.

Lemma header_text_length emoji title :
  (length (js "─ " ++ emoji ++ js " " ++ title ++ js " ")
   <= Helpers.CONTENT_WIDTH)%nat ->
  length (header_text emoji title) = 75%nat.
Proof.
  intros H. unfold header_text.
  set (headerText := js "─ " ++ emoji ++ js " " ++ title ++ js " ") in *.
  change (js "─") with [9472]. change (js "┌") with [9484].
  change (js "┐") with [9488].
  rewrite !length_app, str_repeat_unit_length. cbn [length].
  unfold Helpers.CONTENT_WIDTH in *. lia.
Qed.

Lemma sectionHeader_cases emoji title w :
  (exists line,
     Helpers.sectionHeader emoji title w = Ok line w
     /\ length line = 75%nat /\ hd 0 line = 9484)
  \/ Helpers.sectionHeader emoji title w = Throw RangeError w.
Proof.
  destruct (Nat.leb_spec
              (length (js "─ " ++ emoji ++ js " " ++ title ++ js " "))
              Helpers.CONTENT_WIDTH) as [H|H].
  - left. exists (header_text emoji title).
    split; [apply sectionHeader_run, H|].
    split; [apply header_text_length, H | reflexivity].
  - right. unfold Helpers.sectionHeader, call_repeat, bind. cbv zeta.
    set (headerText := js "─ " ++ emoji ++ js " " ++ title ++ js " ") in *.
    unfold Helpers.CONTENT_WIDTH in *.
    destruct (Z.of_nat 73 - Z.of_nat (length headerText) <? 0) eqn:E;
      [reflexivity|].
    apply Z.ltb_ge in E. exfalso. lia.
Qed.

Lemma ensures_ret {A} (Q : A -> Prop) a : Q a -> ensures Q (ret a).
Proof. intros H w b w' [= <- _]. exact H. Qed.

Lemma ensures_any {A} (m : M A) : ensures (fun _ => True) m.
Proof. intros w a w' _. exact I. Qed.

Lemma ensures_bind {A B} (P : A -> Prop) (Q : B -> Prop) m k :
  ensures P m -> (forall a, P a -> ensures Q (k a)) -> ensures Q (bind m k).
Proof.
  intros Hm Hk w b w'. unfold bind.
  destruct (m w) as [a w1|e w1] eqn:E; [|discriminate].
  apply (Hk a (Hm _ _ _ E)).
Qed.

Lemma ensures_sectionHeader emoji title :
  ensures drawn_row (Helpers.sectionHeader emoji title).
Proof.
  intros w line w' H.
  destruct (sectionHeader_cases emoji title w)
    as [(line' & E & Hl & Hh)|E]; rewrite E in H; [|discriminate].
  injection H as <- _. apply row_border; [exact Hl|].
  rewrite Hh. cbn [In]. tauto.
Qed.

Ltac bind_any :=
  apply (ensures_bind (fun _ => True)); [apply ensures_any | intros ? _].

Lemma ensures_labelRow label v :
  ensures drawn_row (Helpers.labelRow label v).
Proof.
  unfold Helpers.labelRow, Helpers.labelRow_width. bind_any.
  apply ensures_ret, createRow_drawn.
Qed.

Lemma ensures_statRow label v : ensures drawn_row (Helpers.statRow label v).
Proof.
  unfold Helpers.statRow. bind_any. apply ensures_ret, createRow_drawn.
Qed.

Lemma ensures_stat_of label o k :
  ensures drawn_row (Helpers.stat_of label o k).
Proof. unfold Helpers.stat_of. bind_any. apply ensures_statRow. Qed.

Lemma ensures_tech_row label techStack k :
  ensures drawn_row (Helpers.tech_row label techStack k).
Proof.
  unfold Helpers.tech_row. bind_any. bind_any. apply ensures_labelRow.
Qed.

Lemma ensures_social_row label s k :
  ensures drawn_row (Helpers.social_row label s k).
Proof. unfold Helpers.social_row. bind_any. apply ensures_labelRow. Qed.

Lemma ensures_bullet_row bullet v :
  ensures drawn_row (Helpers.bullet_row bullet v).
Proof.
  unfold Helpers.bullet_row. bind_any. apply ensures_ret, createRow_drawn.
Qed.

Lemma ensures_map_rows f l :
  (forall x, ensures drawn_row (f x)) ->
  ensures (Forall drawn_row) (map_rows f l).
Proof.
  intros Hf. induction l as [|x r IH]; cbn [map_rows].
  - apply ensures_ret. constructor.
  - apply (ensures_bind drawn_row); [apply Hf | intros s Hs].
    apply (ensures_bind (Forall drawn_row)); [exact IH | intros rest Hrest].
    apply ensures_ret. constructor; assumption.
Qed.

Lemma ensures_call_map_join v f :
  (forall x, ensures drawn_row (f x)) -> ensures draws (call_map_join v f).
Proof.
  intros Hf. destruct v; cbn [call_map_join];
    try (intros w a w' H; discriminate H).
  apply (ensures_bind (Forall drawn_row));
    [apply ensures_map_rows, Hf | intros rows Hrows].
  apply ensures_ret, draws_join_rows, Hrows.
Qed.

Lemma ensures_project_rows proj idx :
  ensures (Forall drawn_row) (Helpers.project_rows proj idx).
Proof.
  unfold Helpers.project_rows. do 8 bind_any.
  apply ensures_ret. repeat constructor; apply createRow_drawn.
Qed.

Lemma ensures_forEach_project projs :
  forall idx rows,
    Forall drawn_row rows ->
    ensures (Forall drawn_row) (Helpers.forEach_project projs idx rows).
Proof.
  induction projs as [|proj rest IH]; intros idx rows Hrows;
    cbn [Helpers.forEach_project]; [apply ensures_ret, Hrows|].
  apply (ensures_bind (Forall drawn_row));
    [apply ensures_project_rows | intros pushed Hp].
  apply IH, Forall_app. auto.
Qed.

(** The rows of a template, each drawn or made of drawn rows. *)
Ltac row_item :=
  lazymatch goal with
  | |- draws (Helpers.createRow _) => apply draws_row, createRow_drawn
  | |- draws (Helpers.doubleRow _) => apply draws_row, doubleRow_drawn
  | |- draws Helpers.sectionFooter => apply draws_row, sectionFooter_drawn
  | |- draws Helpers.doubleHeader => apply draws_row, doubleHeader_drawn
  | |- draws Helpers.doubleFooter => apply draws_row, doubleFooter_drawn
  | |- draws (join newline _) => apply draws_join_rows; assumption
  | |- draws ?x =>
      is_var x;
      lazymatch goal with
      | H : draws x |- _ => exact H
      | H : drawn_row x |- _ => exact (draws_row x H)
      end
  end.

Ltac rows_list :=
  repeat lazymatch goal with
    | |- Forall _ [] => apply Forall_nil
    | |- Forall _ (_ :: _) => apply Forall_cons; [row_item|]
    end.

Ltac rows_step :=
  lazymatch goal with
  | |- ensures _ (let _ := _ in _) => cbv zeta
  | |- ensures _ (bind (Helpers.sectionHeader _ _) _) =>
      apply (ensures_bind drawn_row);
      [apply ensures_sectionHeader | intros ? ?]
  | |- ensures _ (bind (Helpers.labelRow _ _) _) =>
      apply (ensures_bind drawn_row); [apply ensures_labelRow | intros ? ?]
  | |- ensures _ (bind (Helpers.statRow _ _) _) =>
      apply (ensures_bind drawn_row); [apply ensures_statRow | intros ? ?]
  | |- ensures _ (bind (Helpers.stat_of _ _ _) _) =>
      apply (ensures_bind drawn_row); [apply ensures_stat_of | intros ? ?]
  | |- ensures _ (bind (Helpers.tech_row _ _ _) _) =>
      apply (ensures_bind drawn_row); [apply ensures_tech_row | intros ? ?]
  | |- ensures _ (bind (Helpers.social_row _ _ _) _) =>
      apply (ensures_bind drawn_row); [apply ensures_social_row | intros ? ?]
  | |- ensures _ (bind (call_map_join _ (Helpers.bullet_row _)) _) =>
      apply (ensures_bind draws);
      [ apply ensures_call_map_join; intro; apply ensures_bullet_row
      | intros ? ?]
  | |- ensures _ (bind (Helpers.forEach_project _ _ _) _) =>
      apply (ensures_bind (Forall drawn_row));
      [ apply ensures_forEach_project; constructor | intros ? ?]
  | |- ensures _ (bind _ _) => bind_any
  | |- ensures _ (ret (template_lines _)) =>
      apply ensures_ret, block_template_lines; rows_list
  end.

Ltac rows := repeat rows_step.












(* ================================================================= *)
(** * The metrics box of the second copy *)

Lemma unlines_join rows :
  rows <> [] -> join newline rows ++ newline = unlines rows.
Proof.
  induction rows as [|r rest IH]; [congruence | intros _].
  destruct rest as [|r' rest'].
  - unfold unlines. cbn [join map concat]. rewrite app_nil_r. reflexivity.
  - rewrite join_cons2. rewrite <- !app_assoc. rewrite IH by discriminate.
    change (unlines (r :: r' :: rest'))
      with ((r ++ [10]) ++ unlines (r' :: rest')).
    rewrite <- app_assoc. reflexivity.
Qed.

Lemma template_lines_unlines rows :
  rows <> [] -> template_lines rows = unlines ([] :: rows).
Proof.
  intros H. unfold template_lines. rewrite (unlines_join rows H). reflexivity.
Qed.

Lemma or_else_zero_not_nullish v : is_nullish (or_else v (num 0)) = false.
Proof.
  unfold or_else. destruct (truthy v) eqn:E;
    [apply truthy_not_nullish, E | reflexivity].
Qed.

Lemma Inline_stat_row_run prefix o k suffix w s :
  truthy o = true -> stat_text w o k = Some s ->
  Inline.stat_row prefix o k suffix w = Ok (prefix ++ padded s 46 ++ suffix) w.
Proof.
  intros Ho H. unfold Inline.stat_row, bind.
  rewrite (get_prop_truthy _ _ _ Ho). unfold call_toString.
  rewrite or_else_zero_not_nullish.
  rewrite (to_string_text _ _ _ H). reflexivity.
Qed.

Lemma Inline_stat_row_fails prefix o k suffix w :
  truthy o = true -> stat_text w o k = None ->
  exists e, Inline.stat_row prefix o k suffix w = Throw e w.
Proof.
  intros Ho H. unfold Inline.stat_row, bind.
  rewrite (get_prop_truthy _ _ _ Ho). unfold call_toString.
  rewrite or_else_zero_not_nullish.
  destruct (to_string_fails _ _ H) as [e ->]. exists e. reflexivity.
Qed.

(** [(profile && profile.github_stats &&
      profile.github_stats.total_contributions) || 0] is the figure the
    first copy reads with [?.]. *)
Lemma Inline_contributions_run profile w :
  exists c,
    Inline.and_then profile
      (github_stats <- get_prop profile (js "github_stats") ;;
       Inline.and_then github_stats
         (get_prop github_stats (js "total_contributions"))) w = Ok c w
    /\ or_else c (num 0) = shown_contributions w profile.
Proof.
  unfold Inline.and_then, shown_contributions, prop_opt.
  destruct (truthy profile) eqn:Tp.
  - unfold bind. rewrite (get_prop_truthy _ _ _ Tp).
    rewrite (truthy_not_nullish _ Tp).
    destruct (truthy (prop_of w profile (js "github_stats"))) eqn:Tg.
    + rewrite (get_prop_truthy _ _ _ Tg), (truthy_not_nullish _ Tg).
      eexists. split; reflexivity.
    + eexists. split; [reflexivity|]. unfold or_else at 1. rewrite Tg.
      destruct (prop_of w profile (js "github_stats"))
        as [| |b|x|s|a|o|r]; try discriminate Tg; reflexivity.
  - exists profile. split; [reflexivity|]. unfold or_else at 1. rewrite Tp.
    destruct profile as [| |b|x|s|a|o|r]; try discriminate Tp; reflexivity.
Qed.

Ltac inline_stat_step Ho w0 w :=
  match goal with
  | |- context [Inline.stat_row ?p ?o ?k ?sfx w0] =>
      let s := fresh "s" in
      let E := fresh "E" in
      destruct (stat_text w o k) as [s|] eqn:E;
      [ rewrite (Inline_stat_row_run p o k sfx w0 s Ho)
          by (first [exact E | rewrite stat_text_later; exact E]); run
      | let e := fresh "e" in
        let He := fresh "He" in
        destruct (Inline_stat_row_fails p o k sfx w0 Ho) as [e He];
        [ first [exact E | rewrite stat_text_later; exact E]
        | rewrite He; eexists; eexists; reflexivity ] ]
  end.

Lemma Inline_generateStatsSection_run github leetcode profile w :
  match inline_stats_of w github leetcode profile with
  | Some box =>
      Inline.generateStatsSection github leetcode profile w
      = Ok box (later 2 w)
  | None =>
      exists e w',
        Inline.generateStatsSection github leetcode profile w = Throw e w'
  end.
Proof.
  unfold inline_stats_of.
  cbv beta iota zeta delta [Inline.generateStatsSection].
  destruct (Inline_contributions_run profile w) as (c0 & Hc & Ec).
  rewrite (bind_Ok _ _ _ _ _ Hc). rewrite Ec.
  cbv beta iota zeta delta [bind].
  set (gh := or_else github Inline.default_github).
  set (lc := or_else leetcode Inline.default_leetcode).
  assert (Hgh : truthy gh = true) by (apply truthy_or_else; reflexivity).
  assert (Hlc : truthy lc = true) by (apply truthy_or_else; reflexivity).
  inline_stat_step Hgh w w. inline_stat_step Hgh w w.
  inline_stat_step Hgh w w.
  unfold call_toString.
  assert (Hn : is_nullish (shown_contributions w profile) = false)
    by apply or_else_zero_not_nullish.
  rewrite Hn.
  destruct (text_of w (shown_contributions w profile)) as [c|] eqn:Etc.
  2:{ destruct (to_string_fails _ _ Etc) as [e ->].
      eexists; eexists; reflexivity. }
  rewrite (to_string_text _ _ _ Etc); run.
  change (Inline.date_row (js "│  ╰─ Last Updated: ") (js "│") w)
    with (Ok (js "│  ╰─ Last Updated: "
              ++ padded (utc_date (clock w (ticks w))) 34 ++ js "│")
             (later 1 w)); run.
  inline_stat_step Hlc (later 1 w) w. inline_stat_step Hlc (later 1 w) w.
  inline_stat_step Hlc (later 1 w) w. inline_stat_step Hlc (later 1 w) w.
  rewrite (get_prop_truthy _ _ _ Hlc); run.
  rewrite call_toFixed_rate.
  change (prop_of (later 1 w) lc (js "acceptance_rate"))
    with (prop_of w lc (js "acceptance_rate")).
  destruct (or_else (prop_of w lc (js "acceptance_rate")) (num 0));
    try (eexists; eexists; reflexivity).
  run.
  change (Inline.date_row (js "│  ╰─ Last Updated: ") (js "│") (later 1 w))
    with (Ok (js "│  ╰─ Last Updated: "
              ++ padded (utc_date (clock w (S (ticks w)))) 34 ++ js "│")
             (later 2 w)); run.
  unfold ret. rewrite template_lines_unlines by discriminate. reflexivity.
Qed.

(* ================================================================= *)
(** * Lines of the metrics box and of the document *)

Lemma has_line_In first rows line :
  In line rows -> has_line (unlines (first :: rows)) line.
Proof.
  revert first. induction rows as [|r rest IH]; intros first H; [elim H|].
  destruct H as [->|H].
  - exists first, (unlines rest). unfold unlines. cbn [map concat].
    rewrite <- !app_assoc. reflexivity.
  - destruct (IH r H) as (before & after & E).
    exists (first ++ [10] ++ before), after.
    change (unlines (first :: r :: rest))
      with ((first ++ [10]) ++ unlines (r :: rest)).
    rewrite E, <- !app_assoc. reflexivity.
Qed.

Lemma has_line_app pre text post line :
  has_line text line -> has_line (pre ++ text ++ post) line.
Proof.
  intros (before & after & ->). exists (pre ++ before), (after ++ post).
  rewrite <- !app_assoc. reflexivity.
Qed.

Lemma bind_Ok_inv {A B} (m : M A) (k : A -> M B) w b w' :
  bind m k w = Ok b w' -> exists a w1, m w = Ok a w1 /\ k a w1 = Ok b w'.
Proof.
  unfold bind. destruct (m w) as [a w1|e w1]; [|discriminate].
  intros H. exists a, w1. auto.
Qed.

Lemma Ok_inj {A} (a b : A) w w' : Ok a w = Ok b w' -> a = b.
Proof. intros [= -> _]. reflexivity. Qed.

Lemma stable_Ok {A} (m : M A) w a w' : stable m -> m w = Ok a w' -> w' = w.
Proof.
  intros Hs H. destruct (Hs w) as [[a' E]|[e E]]; rewrite E in H;
    [injection H as _ <-; reflexivity | discriminate].
Qed.

Lemma get_prop_Ok v k w a w' :
  get_prop v k w = Ok a w' -> a = prop_of w v k /\ w' = w.
Proof.
  destruct v; cbn [get_prop]; intros H; try discriminate H;
    injection H as <- <-; split; reflexivity.
Qed.

(** The document of the first copy holds the metrics box drawn from
    [stats.github] and [stats.leetcode] in the world the render began
    in. *)
Lemma Helpers_document_box profile techStack mission projects goals social
  stats w doc w' :
  Helpers.generateREADME profile techStack mission projects goals social
    stats w = Ok doc w' ->
  exists box w1 pre post,
    Helpers.generateStatsSection (prop_of w stats (js "github"))
      (prop_of w stats (js "leetcode")) profile w = Ok box w1
    /\ doc = pre ++ box ++ post.
Proof.
  unfold Helpers.generateREADME. cbv zeta. intros H.
  apply bind_Ok_inv in H as (s1 & w1 & E1 & H).
  apply stable_Ok in E1; [subst w1 | apply stable_Helpers_generateProfileSection].
  apply bind_Ok_inv in H as (s2 & w2 & E2 & H).
  apply stable_Ok in E2; [subst w2 | apply stable_Helpers_generateTechSection].
  apply bind_Ok_inv in H as (github & w3 & E3 & H).
  apply get_prop_Ok in E3 as [-> ->].
  apply bind_Ok_inv in H as (leetcode & w4 & E4 & H).
  apply get_prop_Ok in E4 as [-> ->].
  apply bind_Ok_inv in H as (box & w5 & E5 & H).
  apply bind_Ok_inv in H as (s4 & w6 & _ & H).
  apply bind_Ok_inv in H as (s5 & w7 & _ & H).
  apply bind_Ok_inv in H as (s6 & w8 & _ & H).
  apply bind_Ok_inv in H as (s7 & w9 & _ & H).
  apply bind_Ok_inv in H as (s8 & w10 & _ & H).
  unfold ret in H. apply Ok_inj in H. subst doc.
  exists box, w5,
    ((((js "```yml" ++ newline) ++ Helpers.generateMatrixHeader) ++ s1)
     ++ s2),
    (s4 ++ s5 ++ s6 ++ s7 ++ s8 ++ newline ++ js "```").
  split; [exact E5|].
  generalize ((((js "```yml" ++ newline) ++ Helpers.generateMatrixHeader)
               ++ s1) ++ s2).
  intros pre. rewrite <- !app_assoc. reflexivity.
Qed.

Lemma Inline_document_box profile techStack mission projects goals social
  stats w doc w' :
  Inline.generateREADME profile techStack mission projects goals social
    stats w = Ok doc w' ->
  exists box w1 pre post,
    Inline.generateStatsSection (prop_of w stats (js "github"))
      (prop_of w stats (js "leetcode")) profile w = Ok box w1
    /\ doc = pre ++ box ++ post.
Proof.
  unfold Inline.generateREADME. cbv zeta. intros H.
  apply bind_Ok_inv in H as (s1 & w1 & E1 & H).
  apply stable_Ok in E1; [subst w1 | apply stable_Inline_generateProfileSection].
  apply bind_Ok_inv in H as (s2 & w2 & E2 & H).
  apply stable_Ok in E2; [subst w2 | apply stable_Inline_generateTechSection].
  apply bind_Ok_inv in H as (github & w3 & E3 & H).
  apply get_prop_Ok in E3 as [-> ->].
  apply bind_Ok_inv in H as (leetcode & w4 & E4 & H).
  apply get_prop_Ok in E4 as [-> ->].
  apply bind_Ok_inv in H as (box & w5 & E5 & H).
  apply bind_Ok_inv in H as (s4 & w6 & _ & H).
  apply bind_Ok_inv in H as (s5 & w7 & _ & H).
  apply bind_Ok_inv in H as (s6 & w8 & _ & H).
  apply bind_Ok_inv in H as (s7 & w9 & _ & H).
  apply bind_Ok_inv in H as (s8 & w10 & _ & H).
  unfold ret in H. apply Ok_inj in H. subst doc.
  exists box, w5, ((Inline.generateMatrixHeader ++ s1) ++ s2),
    (s4 ++ s5 ++ s6 ++ s7 ++ s8).
  split; [exact E5|].
  generalize ((Inline.generateMatrixHeader ++ s1) ++ s2).
  intros pre. rewrite <- !app_assoc. reflexivity.
Qed.

Lemma shown_rate_Helpers w leetcode :
  or_else (prop_of w (or_else leetcode Helpers.default_leetcode)
             (js "acceptance_rate")) (num 0)
  = shown_rate w leetcode.
Proof.
  unfold shown_rate. unfold or_else at 2.
  destruct (truthy leetcode); reflexivity.
Qed.

Lemma shown_rate_Inline w leetcode :
  or_else (prop_of w (or_else leetcode Inline.default_leetcode)
             (js "acceptance_rate")) (num 0)
  = shown_rate w leetcode.
Proof.
  unfold shown_rate. unfold or_else at 2.
  destruct (truthy leetcode); reflexivity.
Qed.

(** The rate row of the first copy's box. *)
Lemma Helpers_box_rate github leetcode profile w box w' :
  Helpers.generateStatsSection github leetcode profile w = Ok box w' ->
  exists x,
    shown_rate w leetcode = VNum x
    /\ has_line box
         ([9474]
          ++ padded (js "  │  Acceptance Rate:  " ++ toFixed x 2 ++ js "%") 73
          ++ [9474]).
Proof.
  intros H.
  pose proof (generateStatsSection_run github leetcode profile w) as Hr.
  destruct (stats_rows_of w github leetcode profile) as [rows|] eqn:E.
  2:{ destruct Hr as [e He]. rewrite He in H. discriminate H. }
  rewrite Hr in H. injection H as <- _.
  destruct (stats_rows_of_inv _ _ _ _ _ E) as (x & Hx & Hrow & Hlen).
  exists x. split; [rewrite <- shown_rate_Helpers; exact Hx|].
  rewrite template_lines_unlines
    by (intros ->; discriminate Hlen).
  apply has_line_In.
  change ([9474]
          ++ padded (js "  │  Acceptance Rate:  " ++ toFixed x 2 ++ js "%") 73
          ++ [9474])
    with (stat_line (js "Acceptance Rate:") (toFixed x 2 ++ js "%")).
  rewrite <- Hrow. apply nth_In. rewrite Hlen. lia.
Qed.

Lemma inline_stats_of_inv w github leetcode profile box :
  inline_stats_of w github leetcode profile = Some box ->
  exists f1 f2 f3 c t e m h x,
    shown_rate w leetcode = VNum x
    /\ box = inline_stats_box (utc_date (clock w (ticks w)))
               (utc_date (clock w (S (ticks w)))) f1 f2 f3 c t e m h
               (toFixed x 2).
Proof.
  unfold inline_stats_of. rewrite shown_rate_Inline.
  repeat match goal with
         | |- context [match stat_text ?w ?o ?k with _ => _ end] =>
             destruct (stat_text w o k); [|discriminate]
         end.
  destruct (text_of w (shown_contributions w profile)); [|discriminate].
  repeat match goal with
         | |- context [match stat_text ?w ?o ?k with _ => _ end] =>
             destruct (stat_text w o k); [|discriminate]
         end.
  destruct (shown_rate w leetcode); try discriminate.
  intros [= <-]. do 9 eexists. split; reflexivity.
Qed.

(** The second copy's box, whenever it is drawn. *)
Lemma Inline_box_inv github leetcode profile w box w' :
  Inline.generateStatsSection github leetcode profile w = Ok box w' ->
  exists f1 f2 f3 c t e m h x,
    shown_rate w leetcode = VNum x
    /\ box = inline_stats_box (utc_date (clock w (ticks w)))
               (utc_date (clock w (S (ticks w)))) f1 f2 f3 c t e m h
               (toFixed x 2).
Proof.
  intros H.
  pose proof (Inline_generateStatsSection_run github leetcode profile w)
    as Hr.
  destruct (inline_stats_of w github leetcode profile) as [box'|] eqn:E.
  2:{ destruct Hr as (e & w1 & He). rewrite He in H. discriminate H. }
  rewrite Hr in H. injection H as <- _.
  exact (inline_stats_of_inv _ _ _ _ _ E).
Qed.

Lemma Inline_box_rate github leetcode profile w box w' :
  Inline.generateStatsSection github leetcode profile w = Ok box w' ->
  exists x,
    shown_rate w leetcode = VNum x
    /\ has_line box
         (js "│  │  Acceptance Rate:  "
          ++ (toFixed x 2 ++ js "%" ++ repeat 32 43) ++ js "│").
Proof.
  intros H.
  destruct (Inline_box_inv _ _ _ _ _ _ H)
    as (f1 & f2 & f3 & c & t & e & m & h & x & Hx & ->).
  exists x. split; [exact Hx|].
  unfold inline_stats_box. apply has_line_In.
  do 14 right. left. reflexivity.
Qed.

(* ================================================================= *)
(** * The acceptance rate in the rendered document *)

(** As stated, C9 has every rendered acceptance rate carry exactly two
    decimals.  A stored rate of 10^21 refutes it: [toFixed] falls back
    to exponent notation and the document's row reads "1e+21%". *)
Lemma acceptance_rate_beyond_fixed_notation :
  exists doc w',
    Helpers.generateREADME sample_profile sample_tech sample_mission
      sample_projects sample_goals sample_social huge_rate_stats offline
    = Ok doc w'
    /\ has_line doc
         (js "│  │  Acceptance Rate:  1e+21%                                            │")
    /\ ~ two_decimals (js "1e+21").
Proof.
  destruct (Helpers.generateREADME sample_profile sample_tech sample_mission
              sample_projects sample_goals sample_social huge_rate_stats
              offline) as [doc w'|e w'] eqn:E;
    [|exfalso; vm_compute in E; discriminate E].
  exists doc, w'. split; [reflexivity|].
  destruct (Helpers_document_box _ _ _ _ _ _ _ _ _ _ E)
    as (box & w1 & pre & post & Hb & ->).
  destruct (Helpers_box_rate _ _ _ _ _ _ Hb) as (x & Hx & Hl).
  vm_compute in Hx. injection Hx as <-.
  split.
  - apply has_line_app. vm_compute. vm_compute in Hl. exact Hl.
  - apply not_two_decimals_without_point. vm_compute. intuition discriminate.
Qed.

(** C9 (amended): in every rendered document, of either copy, the
    acceptance-rate row shows [(rate || 0).toFixed(2)] followed by a
    percent sign, where [rate] is [stats.leetcode.acceptance_rate] (0
    for a missing record); for every finite rate of magnitude below
    10^21 (every percentage) that is a numeral with exactly two fraction
    digits, as in "52.30%". *)
Theorem acceptance_rate_has_two_decimals
  (profile techStack mission projects goals social stats : value)
  (w : world) :
  (forall doc w',
     Helpers.generateREADME profile techStack mission projects goals social
       stats w = Ok doc w' ->
     exists x,
       shown_rate w (prop_of w stats (js "leetcode")) = VNum x
       /\ has_line doc
            ([9474]
             ++ padded (js "  │  Acceptance Rate:  " ++ toFixed x 2
                        ++ js "%") 73
             ++ [9474])
       /\ (fixed_range x = true -> two_decimals (toFixed x 2)))
  /\ (forall doc w',
        Inline.generateREADME profile techStack mission projects goals
          social stats w = Ok doc w' ->
        exists x,
          shown_rate w (prop_of w stats (js "leetcode")) = VNum x
          /\ has_line doc
               (js "│  │  Acceptance Rate:  "
                ++ (toFixed x 2 ++ js "%" ++ repeat 32 43) ++ js "│")
          /\ (fixed_range x = true -> two_decimals (toFixed x 2))).
Proof.
  split; intros doc w' H.
  - destruct (Helpers_document_box _ _ _ _ _ _ _ _ _ _ H)
      as (box & w1 & pre & post & Hb & ->).
    destruct (Helpers_box_rate _ _ _ _ _ _ Hb) as (x & Hx & Hl).
    exists x. split; [exact Hx|].
    split; [apply has_line_app, Hl | apply toFixed_two_decimals].
  - destruct (Inline_document_box _ _ _ _ _ _ _ _ _ _ H)
      as (box & w1 & pre & post & Hb & ->).
    destruct (Inline_box_rate _ _ _ _ _ _ Hb) as (x & Hx & Hl).
    exists x. split; [exact Hx|].
    split; [apply has_line_app, Hl | apply toFixed_two_decimals].
Qed.

(** The theorem at the sample record, whose rate is 52.3. *)
Lemma acceptance_rate_witness :
  (exists doc w',
     Helpers.generateREADME sample_profile sample_tech sample_mission
       sample_projects sample_goals sample_social sample_stats offline
     = Ok doc w'
     /\ has_line doc
          (js "│  │  Acceptance Rate:  52.30%                                            │"))
  /\ (exists doc w',
        Inline.generateREADME sample_profile sample_tech sample_mission
          sample_projects sample_goals sample_social sample_stats offline
        = Ok doc w'
        /\ has_line doc
             (js "│  │  Acceptance Rate:  52.30%                                           │"))
  /\ two_decimals (js "52.30").
Proof.
  destruct (acceptance_rate_has_two_decimals sample_profile sample_tech
              sample_mission sample_projects sample_goals sample_social
              sample_stats offline) as [Hh Hi].
  split; [|split].
  - destruct (Helpers.generateREADME sample_profile sample_tech
                sample_mission sample_projects sample_goals sample_social
                sample_stats offline) as [doc w'|e w'] eqn:E;
      [|exfalso; vm_compute in E; discriminate E].
    exists doc, w'. split; [reflexivity|].
    destruct (Hh doc w' eq_refl) as (x & Hx & Hl & _).
    vm_compute in Hx. injection Hx as <-.
    clear E Hh Hi. vm_compute. vm_compute in Hl. exact Hl.
  - destruct (Inline.generateREADME sample_profile sample_tech
                sample_mission sample_projects sample_goals sample_social
                sample_stats offline) as [doc w'|e w'] eqn:E;
      [|exfalso; vm_compute in E; discriminate E].
    exists doc, w'. split; [reflexivity|].
    destruct (Hi doc w' eq_refl) as (x & Hx & Hl & _).
    vm_compute in Hx. injection Hx as <-.
    clear E Hh Hi. vm_compute. vm_compute in Hl. exact Hl.
  - destruct (Helpers.generateREADME sample_profile sample_tech
                sample_mission sample_projects sample_goals sample_social
                sample_stats offline) as [doc w'|e w'] eqn:E;
      [|exfalso; vm_compute in E; discriminate E].
    destruct (Hh doc w' eq_refl) as (x & Hx & _ & Htwo).
    vm_compute in Hx. injection Hx as <-.
    match type of Htwo with
    | ?P -> _ =>
        assert (F : P) by (vm_compute; reflexivity); specialize (Htwo F)
    end.
    clear E Hh Hi F. vm_compute. vm_compute in Htwo. exact Htwo.
Defined.

(* ================================================================= *)
(** * The scenario, through to the metrics box of both copies *)

Lemma scenario_inline_box w gs ls profile c :
  own gs (js "followers") = num 8 ->
  own gs (js "following") = num 5 ->
  own gs (js "public_repos") = num 45 ->
  own ls (js "total_solved") = num 145 ->
  own ls (js "easy") = num 63 ->
  own ls (js "medium") = num 75 ->
  own ls (js "hard") = num 7 ->
  own ls (js "acceptance_rate") = VNum (of_decimal false 523 (-1)) ->
  text_of w (shown_contributions w profile) = Some c ->
  inline_stats_of w (VObj gs) (VObj ls) profile
  = Some (inline_stats_box (utc_date (clock w (ticks w)))
            (utc_date (clock w (S (ticks w)))) (js "8") (js "5") (js "45")
            c (js "145") (js "63") (js "75") (js "7") (js "52.30")).
Proof.
  intros H1 H2 H3 H4 H5 H6 H7 H8 Hc.
  unfold inline_stats_of, stat_text.
  change (or_else (VObj gs) Inline.default_github) with (VObj gs).
  change (or_else (VObj ls) Inline.default_leetcode) with (VObj ls).
  cbn [prop_of]. rewrite H1, H2, H3, H4, H5, H6, H7, H8, Hc.
  generalize (utc_date (clock w (ticks w))); intros date1.
  generalize (utc_date (clock w (S (ticks w)))); intros date2.
  vm_compute. reflexivity.
Qed.

(** C2: when the three fetches yield the payloads of the scenario, then
    for every loaded record the collectors return the figures, the merge
    step stores [followers = 8], [total_solved = 145] and
    [total_contributions = 310] with [last_updated] set to the UTC date
    the clock shows, and the metrics box that either copy draws from the
    merged stats has the line that shows 145 for Total Solved and the
    line that shows 52.30% for the acceptance rate.  ([profile] is the
    profile sub-record handed to the renderer; its contributions figure
    must be printable, which it is whenever the sub-record has no
    [github_stats] of its own.) *)
Theorem scenario_merge_and_metrics
  (pd : obj) (profile : value) (w : world) (c : jsstring) :
  answer HostStats w = Body (Some host_payload) ->
  answer PracticeStats w = Body (Some practice_payload) ->
  answer ContributionCount w = Body (Some contribution_payload) ->
  text_of w (shown_contributions w profile) = Some c ->
  exists g l n pd' gs ls box box2,
    fetchGitHubStats w = Ok g w
    /\ fetchLeetCodeStats w = Ok l w
    /\ fetchContributions w = Ok n w
    /\ merge pd g l n w = Ok pd' (later 2 w)
    /\ own pd' (js "github_stats") = VObj gs
    /\ own pd' (js "leetcode_stats") = VObj ls
    /\ own gs (js "followers") = num 8
    /\ own ls (js "total_solved") = num 145
    /\ own gs (js "total_contributions") = num 310
    /\ own gs (js "last_updated") = today w
    /\ own ls (js "last_updated") = today (later 1 w)
    /\ Helpers.generateStatsSection (VObj gs) (VObj ls) profile (later 2 w)
       = Ok box (later 3 w)
    /\ has_line box
         (js "│  │  Total Solved:     145                                               │")
    /\ has_line box
         (js "│  │  Acceptance Rate:  52.30%                                            │")
    /\ Inline.generateStatsSection (VObj gs) (VObj ls) profile (later 2 w)
       = Ok box2 (later 4 w)
    /\ has_line box2
         (js "│  │  Total Solved:     145                                           │")
    /\ has_line box2
         (js "│  │  Acceptance Rate:  52.30%                                           │").
Proof.
  intros Hg Hl Hc Hp.
  destruct (scenario_collectors w Hg Hl Hc) as (Fg & Fl & Fc).
  destruct (scenario_merged pd w)
    as (gs & ls & Hm & Hgs & Hls & G1 & G2 & G3 & G4 & G5
        & L1 & L2 & L3 & L4 & L5 & L6).
  assert (Hp2 : text_of (later 2 w)
                  (shown_contributions (later 2 w) profile) = Some c)
    by (rewrite text_of_later; exact Hp).
  pose proof (scenario_rows (later 2 w) gs ls profile c
                G1 G2 G3 L1 L2 L3 L4 L5 Hp2) as Hrows.
  pose proof (generateStatsSection_run (VObj gs) (VObj ls) profile
                (later 2 w)) as Hrun.
  rewrite Hrows in Hrun.
  pose proof (scenario_inline_box (later 2 w) gs ls profile c
                G1 G2 G3 L1 L2 L3 L4 L5 Hp2) as Hbox.
  pose proof (Inline_generateStatsSection_run (VObj gs) (VObj ls) profile
                (later 2 w)) as Hrun2.
  rewrite Hbox in Hrun2.
  exists scenario_github, scenario_leetcode, (num 310).
  eexists. exists gs, ls. eexists. eexists.
  split; [exact Fg|]. split; [exact Fl|]. split; [exact Fc|].
  split; [exact Hm|]. split; [exact Hgs|]. split; [exact Hls|].
  split; [exact G1|]. split; [exact L1|]. split; [exact G4|].
  split; [exact G5|]. split; [exact L6|].
  split; [exact Hrun|].
  split.
  { rewrite template_lines_unlines by discriminate. apply has_line_In.
    unfold stats_rows. do 10 right. left. vm_compute. reflexivity. }
  split.
  { rewrite template_lines_unlines by discriminate. apply has_line_In.
    unfold stats_rows. do 14 right. left. vm_compute. reflexivity. }
  split; [exact Hrun2|].
  split.
  - unfold inline_stats_box. apply has_line_In.
    do 10 right. left. vm_compute. reflexivity.
  - unfold inline_stats_box. apply has_line_In.
    do 14 right. left. vm_compute. reflexivity.
Qed.

(** The theorem at the sample record, in a world whose network answers
    with the scenario's payloads on 2026-11-01. *)
Lemma scenario_witness :
  exists pd' gs ls box box2,
    merge sample_record scenario_github scenario_leetcode (num 310)
      scenario_world = Ok pd' (later 2 scenario_world)
    /\ own pd' (js "github_stats") = VObj gs
    /\ own gs (js "followers") = num 8
    /\ own gs (js "last_updated") = str "2026-11-01"
    /\ Helpers.generateStatsSection (VObj gs) (VObj ls) sample_profile
         (later 2 scenario_world) = Ok box (later 3 scenario_world)
    /\ has_line box
         (js "│  │  Acceptance Rate:  52.30%                                            │")
    /\ Inline.generateStatsSection (VObj gs) (VObj ls) sample_profile
         (later 2 scenario_world) = Ok box2 (later 4 scenario_world)
    /\ has_line box2
         (js "│  │  Total Solved:     145                                           │").
Proof.
  destruct (scenario_merge_and_metrics sample_record sample_profile
              scenario_world (js "0") eq_refl eq_refl eq_refl eq_refl)
    as (g & l & n & pd' & gs & ls & box & box2 & Fg & Fl & Fc & Hm & Hgs
        & Hls & G1 & L1 & G4 & G5 & L6 & Hrun & R10 & R14 & Hrun2 & I10
        & I14).
  injection Fg as <-. injection Fl as <-. injection Fc as <-.
  exists pd', gs, ls, box, box2.
  split; [exact Hm|]. split; [exact Hgs|]. split; [exact G1|].
  split; [rewrite G5; vm_compute; reflexivity|].
  split; [exact Hrun|]. split; [exact R14|].
  split; [exact Hrun2 | exact I10].
Defined.

(* ================================================================= *)
(** * Padding without truncation *)


Lemma padded_length s n : length (padded s n) = Nat.max (length s) n.
Proof. unfold padded. rewrite length_app, repeat_length. lia. Qed.






(* ================================================================= *)
(** * Free text: cut in the second copy, drawn in full in the first *)

Lemma join_with_texts sep items w :
  join_with to_string sep (map VStr items) w
  = Ok (match items with
        | [] => []
        | _ => join sep items
        end) w.
Proof.
  induction items as [|x rest IH]; [reflexivity|].
  cbn [map join_with]. unfold bind at 1.
  change (join_elem to_string (VStr x) w) with (Ok x w).
  cbv beta iota.
  destruct rest as [|y rest']; [reflexivity|].
  change (map VStr (y :: rest')) with (VStr y :: map VStr rest') in *.
  cbv beta iota. unfold bind at 1. rewrite IH. reflexivity.
Qed.

Lemma join_bullets items : join (js " • ") items = bullets items.
Proof.
  induction items as [|x rest IH]; [reflexivity|].
  destruct rest as [|y rest']; [reflexivity|].
  rewrite join_cons2, IH. reflexivity.
Qed.

Lemma call_join_texts items w :
  call_join (VArr (map VStr items)) (js " • ") w = Ok (bullets items) w.
Proof.
  cbn [call_join]. rewrite join_with_texts.
  destruct items; [reflexivity | rewrite join_bullets; reflexivity].
Qed.

Lemma holds_not_nullish w v k x : prop_of w v k = VStr x -> is_nullish v = false.
Proof. destruct v; cbn [prop_of is_nullish]; congruence. Qed.

Lemma tech_holds_not_nullish w v k items :
  tech_holds w v k items -> is_nullish v = false.
Proof. unfold tech_holds. destruct v; cbn [prop_of is_nullish]; congruence. Qed.

Lemma Object_values_entries w v entries :
  entries_of w v = Some entries ->
  Object_values v w = Ok (map snd entries) w.
Proof. destruct v; cbn [entries_of]; intros [= <-]; reflexivity. Qed.

Lemma cut_padded_length s n m :
  (n <= m)%nat -> length (padded (firstn n s) m) = m.
Proof.
  intros H. rewrite padded_length, length_firstn. lia.
Qed.

(** Two texts that differ in how their pieces are grouped. *)
Ltac texts_equal :=
  change newline with [10];
  repeat match goal with
         | |- context [js ?s] => generalize (js s); intro
         end;
  repeat first [ rewrite <- app_assoc | rewrite app_nil_r
               | progress cbn [app] ];
  reflexivity.

(** *** The second copy *)

Lemma Inline_project_text_run proj idx info w :
  project_holds w proj info ->
  Inline.project_text proj idx w = Ok (inline_project_block idx info) w.
Proof.
  intros (Hname & Hdesc & Htech & Hstatus).
  pose proof (holds_not_nullish _ _ _ _ Hname) as Hn.
  cbv beta iota zeta delta
    [Inline.project_text Inline.padded_field bind ret].
  rewrite (get_prop_defined _ _ _ Hn), Hname; run.
  cbn [call_padEnd]; cbv beta iota zeta delta [ret].
  rewrite (get_prop_defined _ _ _ Hn), Hdesc; run.
  do 2 (cbn [call_slice0 call_padEnd]; cbv beta iota zeta delta [ret]).
  rewrite (get_prop_defined _ _ _ Hn), Htech; run.
  rewrite call_join_texts; run.
  rewrite (get_prop_defined _ _ _ Hn), Hstatus; run.
  cbn [call_padEnd]; cbv beta iota zeta delta [ret].
  unfold inline_project_block, unlines, project_number.
  cbn [map concat]. texts_equal.
Qed.

Lemma Inline_forEach_project_run w projs :
  forall infos idx section,
    Forall2 (project_holds w) projs infos ->
    Inline.forEach_project projs idx section w
    = Ok (section ++ inline_project_blocks idx infos) w.
Proof.
  induction projs as [|proj rest IH]; intros infos idx section H;
    inversion H as [|p i0 ps infos0 Hp Hrest]; subst.
  - cbn [Inline.forEach_project inline_project_blocks].
    rewrite app_nil_r. reflexivity.
  - cbn [Inline.forEach_project inline_project_blocks]. unfold bind.
    rewrite (Inline_project_text_run _ _ _ _ Hp).
    rewrite (IH _ _ _ Hrest). rewrite <- app_assoc. reflexivity.
Qed.

Lemma Inline_generateProjectsSection_run projects entries infos w :
  entries_of w projects = Some entries ->
  Forall2 (project_holds w) (map snd entries) infos ->
  Inline.generateProjectsSection projects w
  = Ok (inline_projects_text infos) w.
Proof.
  intros He Hi. unfold Inline.generateProjectsSection. cbv zeta.
  unfold bind. rewrite (Object_values_entries _ _ _ He).
  rewrite (Inline_forEach_project_run _ _ _ _ _ Hi).
  unfold ret, inline_projects_text.
  generalize (inline_project_blocks 0 infos); intros blocks.
  unfold unlines. cbn [map concat]. texts_equal.
Qed.

Lemma Inline_tech_row_run prefix techStack k suffix items w :
  tech_holds w techStack k items ->
  Inline.tech_row prefix techStack k suffix w
  = Ok (prefix ++ padded (bullets items) 50 ++ suffix) w.
Proof.
  intros H. pose proof (tech_holds_not_nullish _ _ _ _ H) as Hn.
  cbv beta iota zeta delta [Inline.tech_row Inline.formatArray bind ret].
  rewrite (get_prop_defined _ _ _ Hn), H; run.
  rewrite call_join_texts. reflexivity.
Qed.

Lemma Inline_tech_row_cut_run prefix techStack k suffix items w :
  tech_holds w techStack k items ->
  Inline.tech_row_cut prefix techStack k suffix w
  = Ok (prefix ++ padded (firstn 47 (bullets items)) 50 ++ suffix) w.
Proof.
  intros H. pose proof (tech_holds_not_nullish _ _ _ _ H) as Hn.
  cbv beta iota zeta delta [Inline.tech_row_cut Inline.formatArray bind ret].
  rewrite (get_prop_defined _ _ _ Hn), H; run.
  rewrite call_join_texts. reflexivity.
Qed.

Lemma Inline_generateTechSection_run techStack languages frontend backend
  databases tools w :
  tech_holds w techStack (js "languages") languages ->
  tech_holds w techStack (js "frontend") frontend ->
  tech_holds w techStack (js "backend") backend ->
  tech_holds w techStack (js "databases") databases ->
  tech_holds w techStack (js "tools") tools ->
  Inline.generateTechSection techStack w
  = Ok (inline_tech_text languages frontend backend databases tools) w.
Proof.
  intros Hl Hf Hb Hd Ht. unfold Inline.generateTechSection, bind.
  rewrite (Inline_tech_row_run _ _ _ _ _ _ Hl).
  rewrite (Inline_tech_row_cut_run _ _ _ _ _ _ Hf).
  rewrite (Inline_tech_row_run _ _ _ _ _ _ Hb).
  rewrite (Inline_tech_row_run _ _ _ _ _ _ Hd).
  rewrite (Inline_tech_row_cut_run _ _ _ _ _ _ Ht).
  unfold ret. rewrite template_lines_unlines by discriminate. reflexivity.
Qed.

(** *** The first copy *)

Lemma Helpers_project_rows_run proj idx info w :
  project_holds w proj info ->
  Helpers.project_rows proj idx w = Ok (helpers_project_rows idx info) w.
Proof.
  intros (Hname & Hdesc & Htech & Hstatus).
  pose proof (holds_not_nullish _ _ _ _ Hname) as Hn.
  cbv beta iota zeta delta [Helpers.project_rows bind].
  rewrite (get_prop_defined _ _ _ Hn), Hname; run. cbn [to_string]; run.
  unfold ret at 1; run.
  rewrite (get_prop_defined _ _ _ Hn), Hdesc; run. cbn [to_string]; run.
  unfold ret at 1; run.
  rewrite (get_prop_defined _ _ _ Hn), Htech; run.
  rewrite call_join_texts; run.
  rewrite (get_prop_defined _ _ _ Hn), Hstatus; run. cbn [to_string]; run.
  unfold ret at 1; run.
  reflexivity.
Qed.

Lemma Helpers_forEach_project_run w projs :
  forall infos idx rows,
    Forall2 (project_holds w) projs infos ->
    Helpers.forEach_project projs idx rows w
    = Ok (rows ++ helpers_projects_rows idx infos) w.
Proof.
  induction projs as [|proj rest IH]; intros infos idx rows H;
    inversion H as [|p i0 ps infos0 Hp Hrest]; subst.
  - cbn [Helpers.forEach_project helpers_projects_rows].
    rewrite app_nil_r. reflexivity.
  - cbn [Helpers.forEach_project helpers_projects_rows]. unfold bind.
    rewrite (Helpers_project_rows_run _ _ _ _ Hp).
    rewrite (IH _ _ _ Hrest). rewrite <- app_assoc. reflexivity.
Qed.

Lemma join_rows_line rows :
  join newline rows ++ newline
  = unlines match rows with
            | [] => [[]]
            | _ => rows
            end.
Proof.
  destruct rows as [|r rest]; [reflexivity|].
  apply unlines_join. discriminate.
Qed.

Lemma template_with_rows (a b c : jsstring) rows :
  template_lines [a; b; join newline rows; c]
  = unlines ([[]; a; b]
             ++ match rows with
                | [] => [[]]
                | _ => rows
                end
             ++ [c]).
Proof.
  unfold template_lines. rewrite !unlines_app, <- join_rows_line.
  unfold unlines. cbn [map concat join]. texts_equal.
Qed.

Lemma helpers_projects_rows_nil idx infos :
  helpers_projects_rows idx infos = [] -> infos = [].
Proof. destruct infos; [reflexivity | discriminate]. Qed.

Lemma Helpers_generateProjectsSection_run projects entries infos w :
  entries_of w projects = Some entries ->
  Forall2 (project_holds w) (map snd entries) infos ->
  Helpers.generateProjectsSection projects w
  = Ok (helpers_projects_text infos) w.
Proof.
  intros He Hi. unfold Helpers.generateProjectsSection, bind.
  rewrite (Object_values_entries _ _ _ He).
  rewrite (Helpers_forEach_project_run _ _ _ _ _ Hi). cbn [app].
  rewrite sectionHeader_run by (apply Nat.leb_le; vm_compute; reflexivity).
  unfold ret, helpers_projects_text. rewrite template_with_rows.
  replace (header_text (js "📁") (js "CURRENT PROJECTS"))
    with (js "┌─ 📁 CURRENT PROJECTS ───────────────────────────────────────────────────┐")
    by (vm_compute; reflexivity).
  replace Helpers.sectionFooter
    with (js "└─────────────────────────────────────────────────────────────────────────┘")
    by (vm_compute; reflexivity).
  change (Helpers.createRow []) with (bar_row []).
  destruct infos as [|info rest]; [reflexivity|].
  destruct (helpers_projects_rows 0 (info :: rest)) eqn:E;
    [discriminate (helpers_projects_rows_nil _ _ E) | reflexivity].
Qed.

Lemma Helpers_tech_row_run label techStack k items w :
  tech_holds w techStack k items ->
  Helpers.tech_row label techStack k w
  = Ok (bar_row (js "  " ++ padEnd label 18 ++ bullets items)) w.
Proof.
  intros H. pose proof (tech_holds_not_nullish _ _ _ _ H) as Hn.
  cbv beta iota zeta delta
    [Helpers.tech_row Helpers.formatArray Helpers.labelRow
       Helpers.labelRow_width bind].
  rewrite (get_prop_defined _ _ _ Hn), H; run.
  rewrite call_join_texts; run. reflexivity.
Qed.

Lemma Helpers_generateTechSection_run techStack languages frontend backend
  databases tools w :
  tech_holds w techStack (js "languages") languages ->
  tech_holds w techStack (js "frontend") frontend ->
  tech_holds w techStack (js "backend") backend ->
  tech_holds w techStack (js "databases") databases ->
  tech_holds w techStack (js "tools") tools ->
  Helpers.generateTechSection techStack w
  = Ok (helpers_tech_text languages frontend backend databases tools) w.
Proof.
  intros Hl Hf Hb Hd Ht. unfold Helpers.generateTechSection, bind.
  rewrite sectionHeader_run by (apply Nat.leb_le; vm_compute; reflexivity).
  rewrite (Helpers_tech_row_run _ _ _ _ _ Hl).
  rewrite (Helpers_tech_row_run _ _ _ _ _ Hf).
  rewrite (Helpers_tech_row_run _ _ _ _ _ Hb).
  rewrite (Helpers_tech_row_run _ _ _ _ _ Hd).
  rewrite (Helpers_tech_row_run _ _ _ _ _ Ht).
  unfold ret. rewrite template_lines_unlines by discriminate. reflexivity.
Qed.

(** As stated, C6 has overlong descriptions cut to a fixed budget when
    rendered.  The first copy refutes it: a description of 100 units is
    drawn in full, on a line of 120 units. *)
Lemma helpers_keep_overlong_description :
  exists text,
    Helpers.generateProjectsSection long_description_projects offline
    = Ok text offline
    /\ has_line text
         (js "│     Description: " ++ repeat 97 100 ++ js "│")
    /\ length (js "│     Description: " ++ repeat 97 100 ++ js "│")
       = 120%nat.
Proof.
  set (info := mkProject (js "Blem") (repeat 97 100)
                 [js "Next.js"; js "Tailwind"] (js "Active")).
  assert (H : project_holds offline (sample_project (repeat 97 100)) info)
    by (repeat split).
  exists (helpers_projects_text [info]). split.
  - apply (Helpers_generateProjectsSection_run long_description_projects
             [(js "blem", sample_project (repeat 97 100))] [info] offline
             eq_refl).
    constructor; [exact H | constructor].
  - split; [|vm_compute; reflexivity].
    unfold helpers_projects_text.
    cbn [app helpers_projects_rows helpers_project_rows].
    apply has_line_In. do 3 right. left. vm_compute. reflexivity.
Qed.

(** C6 (amended): for a projects record and a tech stack of the data
    model (texts and lists of texts), the second copy draws each
    project's description cut to its first 55 code units and its joined
    tech list cut to the first 50, each padded to a field of exactly 57
    units, and the frontend and tools summaries cut to 47 units in a
    field of exactly 50; names, statuses and the other summaries are
    padded only.  The first copy cuts nothing: it draws every
    description and every summary in full, in a row padded to 73 units.
    Neither copy breaks a field over several lines. *)
Theorem inline_fields_are_truncated
  (projects techStack : value) (w : world) (entries : obj)
  (infos : list project_info)
  (languages frontend backend databases tools : list jsstring) :
  entries_of w projects = Some entries ->
  Forall2 (project_holds w) (map snd entries) infos ->
  tech_holds w techStack (js "languages") languages ->
  tech_holds w techStack (js "frontend") frontend ->
  tech_holds w techStack (js "backend") backend ->
  tech_holds w techStack (js "databases") databases ->
  tech_holds w techStack (js "tools") tools ->
  Inline.generateProjectsSection projects w
  = Ok (inline_projects_text infos) w
  /\ Inline.generateTechSection techStack w
     = Ok (inline_tech_text languages frontend backend databases tools) w
  /\ Helpers.generateProjectsSection projects w
     = Ok (helpers_projects_text infos) w
  /\ Helpers.generateTechSection techStack w
     = Ok (helpers_tech_text languages frontend backend databases tools) w
  /\ (forall s, length (padded (firstn 55 s) 57) = 57%nat
                /\ length (padded (firstn 50 s) 57) = 57%nat
                /\ length (padded (firstn 47 s) 50) = 50%nat).
Proof.
  intros He Hi Hl Hf Hb Hd Ht.
  split; [exact (Inline_generateProjectsSection_run _ _ _ _ He Hi)|].
  split; [exact (Inline_generateTechSection_run _ _ _ _ _ _ _ Hl Hf Hb Hd
                   Ht)|].
  split; [exact (Helpers_generateProjectsSection_run _ _ _ _ He Hi)|].
  split; [exact (Helpers_generateTechSection_run _ _ _ _ _ _ _ Hl Hf Hb Hd
                   Ht)|].
  intros s. repeat split; apply cut_padded_length; lia.
Qed.

(** The theorem at the sample projects and tech stack. *)
Lemma inline_fields_are_truncated_witness :
  Inline.generateProjectsSection sample_projects offline
  = Ok (inline_projects_text [sample_project_info]) offline
  /\ Inline.generateTechSection sample_tech offline
     = Ok (inline_tech_text [js "JavaScript"; js "Python"] [js "React"]
             [js "Node.js"] [js "MongoDB"] [js "Git"; js "Docker"]) offline.
Proof.
  assert (H : Forall2 (project_holds offline)
                (map snd [(js "blem",
                           sample_project (js "Landing page builder"))])
                [sample_project_info])
    by (constructor; [repeat split | constructor]).
  destruct (inline_fields_are_truncated sample_projects sample_tech offline
              [(js "blem", sample_project (js "Landing page builder"))]
              [sample_project_info]
              [js "JavaScript"; js "Python"] [js "React"] [js "Node.js"]
              [js "MongoDB"] [js "Git"; js "Docker"]
              eq_refl H eq_refl eq_refl eq_refl eq_refl eq_refl)
    as (Hp & Ht & _).
  split; assumption.
Defined.

(* ================================================================= *)
(** * A run of main: exit status and files written *)




(* ================================================================= *)
(** * The contributions row of the metrics box *)

Lemma stats_rows_of_contributions w github leetcode profile rows :
  stats_rows_of w github leetcode profile = Some rows ->
  exists c,
    text_of w (shown_contributions w profile) = Some c
    /\ nth 6 rows [] = stat_line (js "Contributions:") c
    /\ length rows = 18%nat.
Proof.
  unfold stats_rows_of.
  repeat match goal with
         | |- context [match stat_text ?w ?o ?k with _ => _ end] =>
             destruct (stat_text w o k); [|discriminate]
         end.
  destruct (text_of w (shown_contributions w profile)) as [c|];
    [|discriminate].
  repeat match goal with
         | |- context [match stat_text ?w ?o ?k with _ => _ end] =>
             destruct (stat_text w o k); [|discriminate]
         end.
  destruct (rate_text _); [|discriminate].
  intros [= <-]. exists c. repeat split.
Qed.

Lemma inline_stats_of_contributions w github leetcode profile box :
  inline_stats_of w github leetcode profile = Some box ->
  exists c,
    text_of w (shown_contributions w profile) = Some c
    /\ has_line box (js "│  │  Contributions:    " ++ padded c 46 ++ js "│").
Proof.
  unfold inline_stats_of.
  repeat match goal with
         | |- context [match stat_text ?w ?o ?k with _ => _ end] =>
             destruct (stat_text w o k); [|discriminate]
         end.
  destruct (text_of w (shown_contributions w profile)) as [c|];
    [|discriminate].
  repeat match goal with
         | |- context [match stat_text ?w ?o ?k with _ => _ end] =>
             destruct (stat_text w o k); [|discriminate]
         end.
  destruct (or_else _ (num 0)); try discriminate.
  intros [= <-]. exists c. split; [reflexivity|].
  unfold inline_stats_box. apply has_line_In. do 6 right. left. reflexivity.
Qed.

Lemma shown_contributions_missing w profile :
  is_nullish (prop_opt w profile (js "github_stats")) = true ->
  text_of w (shown_contributions w profile) = Some (js "0").
Proof.
  intros H. unfold shown_contributions.
  unfold prop_opt at 1. rewrite H. reflexivity.
Qed.

(** X10: the Contributions row of the metrics box, in either copy,
    shows the figure stored under [profile.github_stats], not the one
    of the stats it is given: when the profile record handed to the
    render function has no [github_stats] of its own, the row shows 0,
    whatever [total_contributions] the merged stats hold. *)
Theorem contributions_row_shows_the_profile_figure
  (github leetcode profile : value) (w : world) :
  (forall box w',
     Helpers.generateStatsSection github leetcode profile w = Ok box w' ->
     exists c,
       text_of w (shown_contributions w profile) = Some c
       /\ has_line box
            ([9474] ++ padded (js "  │  Contributions:    " ++ c) 73
             ++ [9474])
       /\ (is_nullish (prop_opt w profile (js "github_stats")) = true ->
           c = js "0"))
  /\ (forall box w',
        Inline.generateStatsSection github leetcode profile w = Ok box w' ->
        exists c,
          text_of w (shown_contributions w profile) = Some c
          /\ has_line box
               (js "│  │  Contributions:    " ++ padded c 46 ++ js "│")
          /\ (is_nullish (prop_opt w profile (js "github_stats")) = true ->
              c = js "0")).
Proof.
  split; intros box w' H.
  - pose proof (generateStatsSection_run github leetcode profile w) as Hr.
    destruct (stats_rows_of w github leetcode profile) as [rows|] eqn:E.
    2:{ destruct Hr as [e He]. rewrite He in H. discriminate H. }
    rewrite Hr in H. apply Ok_inj in H. subst box.
    destruct (stats_rows_of_contributions _ _ _ _ _ E)
      as (c & Hc & Hrow & Hlen).
    exists c. split; [exact Hc|]. split.
    + rewrite template_lines_unlines by (intros ->; discriminate Hlen).
      apply has_line_In.
      change ([9474] ++ padded (js "  │  Contributions:    " ++ c) 73
              ++ [9474])
        with (stat_line (js "Contributions:") c).
      rewrite <- Hrow. apply nth_In. rewrite Hlen. lia.
    + intros Hm. rewrite (shown_contributions_missing _ _ Hm) in Hc.
      congruence.
  - pose proof (Inline_generateStatsSection_run github leetcode profile w)
      as Hr.
    destruct (inline_stats_of w github leetcode profile) as [box'|] eqn:E.
    2:{ destruct Hr as (e & w1 & He). rewrite He in H. discriminate H. }
    rewrite Hr in H. apply Ok_inj in H. subst box'.
    destruct (inline_stats_of_contributions _ _ _ _ _ E) as (c & Hc & Hl).
    exists c. split; [exact Hc|]. split; [exact Hl|].
    intros Hm. rewrite (shown_contributions_missing _ _ Hm) in Hc.
    congruence.
Qed.

(* ================================================================= *)
(** * The second copy renders deterministically too *)

Ltac respect_inline :=
  repeat lazymatch goal with
    | |- respects _ (Inline.padded_field _ _ _ _) =>
        unfold Inline.padded_field
    | |- respects _ (Inline.formatArray _) => unfold Inline.formatArray
    | |- respects _ (Inline.tech_row _ _ _ _) => unfold Inline.tech_row
    | |- respects _ (Inline.tech_row_cut _ _ _ _) =>
        unfold Inline.tech_row_cut
    | |- respects _ (Inline.and_then _ _) => unfold Inline.and_then
    | |- respects _ (Inline.stat_row _ _ _ _) => unfold Inline.stat_row
    | |- respects _ (Inline.date_row _ _) => unfold Inline.date_row
    | |- respects _ (Inline.mission_row _ _ _ _) => unfold Inline.mission_row
    | |- respects _ (Inline.bullet_row _ _ _) => unfold Inline.bullet_row
    | |- respects _ (Inline.goal_row _ _ _) => unfold Inline.goal_row
    | |- respects _ (Inline.social_row _ _ _ _) => unfold Inline.social_row
    | |- respects _ (Inline.project_text _ _) => unfold Inline.project_text
    | |- _ => respect_step
    end.

Lemma respects_Inline_forEach_project projs :
  forall idx section,
    respects same_frozen_view (Inline.forEach_project projs idx section).
Proof.
  induction projs as [|proj rest IH]; intros idx section;
    cbn [Inline.forEach_project]; [apply respects_ret|].
  apply respects_bind; [respect_inline | intros added; apply IH].
Qed.

Lemma respects_Inline_generateProfileSection profile :
  respects same_frozen_view (Inline.generateProfileSection profile).
Proof. unfold Inline.generateProfileSection. respect_inline. Qed.

Lemma respects_Inline_generateTechSection techStack :
  respects same_frozen_view (Inline.generateTechSection techStack).
Proof. unfold Inline.generateTechSection. respect_inline. Qed.

Lemma respects_Inline_generateStatsSection github leetcode profile :
  respects same_frozen_view
    (Inline.generateStatsSection github leetcode profile).
Proof. unfold Inline.generateStatsSection. respect_inline. Qed.

Lemma respects_Inline_generateMissionSection mission :
  respects same_frozen_view (Inline.generateMissionSection mission).
Proof. unfold Inline.generateMissionSection. respect_inline. Qed.

Lemma respects_Inline_generateProjectsSection projects :
  respects same_frozen_view (Inline.generateProjectsSection projects).
Proof.
  unfold Inline.generateProjectsSection. cbv zeta.
  apply respects_bind; [apply (respects_Object_values _ frozen_view_heap)|].
  intros projs.
  apply respects_bind; [apply respects_Inline_forEach_project|].
  intros section. apply respects_ret.
Qed.

Lemma respects_Inline_generateGoalsSection goals :
  respects same_frozen_view (Inline.generateGoalsSection goals).
Proof. unfold Inline.generateGoalsSection. respect_inline. Qed.

Lemma respects_Inline_generateSocialSection social :
  respects same_frozen_view (Inline.generateSocialSection social).
Proof. unfold Inline.generateSocialSection. respect_inline. Qed.

Lemma respects_Inline_generateFooter :
  respects same_frozen_view Inline.generateFooter.
Proof. unfold Inline.generateFooter. respect_inline. Qed.

Lemma respects_Inline_generateREADME profile techStack mission projects
  goals social stats :
  respects same_frozen_view
    (Inline.generateREADME profile techStack mission projects goals social
       stats).
Proof.
  unfold Inline.generateREADME.
  repeat lazymatch goal with
    | |- respects _ (Inline.generateProfileSection _) =>
        apply respects_Inline_generateProfileSection
    | |- respects _ (Inline.generateTechSection _) =>
        apply respects_Inline_generateTechSection
    | |- respects _ (Inline.generateStatsSection _ _ _) =>
        apply respects_Inline_generateStatsSection
    | |- respects _ (Inline.generateMissionSection _) =>
        apply respects_Inline_generateMissionSection
    | |- respects _ (Inline.generateProjectsSection _) =>
        apply respects_Inline_generateProjectsSection
    | |- respects _ (Inline.generateGoalsSection _) =>
        apply respects_Inline_generateGoalsSection
    | |- respects _ (Inline.generateSocialSection _) =>
        apply respects_Inline_generateSocialSection
    | |- respects _ Inline.generateFooter =>
        apply respects_Inline_generateFooter
    | |- _ => respect_step
    end.
Qed.

(** X11: the second copy's render function, which reads the clock three
    times, is deterministic as well: two runs on the same input over the
    same loaded objects, under clocks frozen to the same instant, give
    the same document or fail with the same error, whatever else
    differs between the two worlds. *)
Theorem second_copy_deterministic_under_frozen_clock
  (profile techStack mission projects goals social stats : value)
  (w1 w2 : world) (t : instant) :
  same_heap w1 w2 -> frozen_at t w1 -> frozen_at t w2 ->
  produced (Inline.generateREADME profile techStack mission projects goals
              social stats w1)
  = produced (Inline.generateREADME profile techStack mission projects
                goals social stats w2).
Proof.
  intros Hh H1 H2.
  assert (H : same_frozen_view w1 w2) by (split; [exact Hh | eauto]).
  pose proof (respects_Inline_generateREADME profile techStack mission
                projects goals social stats w1 w2 H) as Hr.
  destruct (Inline.generateREADME _ _ _ _ _ _ _ w1),
           (Inline.generateREADME _ _ _ _ _ _ _ w2);
    try contradiction; destruct Hr as [-> _]; reflexivity.
Qed.

Lemma second_copy_deterministic_witness :
  same_heap offline (with_token (Some (js "t")) (later 5 offline))
  /\ frozen_at 1793516645123 offline
  /\ frozen_at 1793516645123 (with_token (Some (js "t")) (later 5 offline))
  /\ produced (Inline.generateREADME sample_profile sample_tech
                 sample_mission sample_projects sample_goals sample_social
                 sample_stats offline)
     = produced (Inline.generateREADME sample_profile sample_tech
                   sample_mission sample_projects sample_goals
                   sample_social sample_stats
                   (with_token (Some (js "t")) (later 5 offline))).
Proof.
  assert (Hh : same_heap offline
                 (with_token (Some (js "t")) (later 5 offline)))
    by (intros l; reflexivity).
  assert (H1 : frozen_at 1793516645123 offline) by (intros n; reflexivity).
  assert (H2 : frozen_at 1793516645123
                 (with_token (Some (js "t")) (later 5 offline)))
    by (intros n; reflexivity).
  split; [exact Hh|]. split; [exact H1|]. split; [exact H2|].
  exact (second_copy_deterministic_under_frozen_clock sample_profile
           sample_tech sample_mission sample_projects sample_goals
           sample_social sample_stats offline
           (with_token (Some (js "t")) (later 5 offline)) 1793516645123
           Hh H1 H2).
Defined.
